(** * Operational dashboard: identity synchronisation and access control

    A shallow embedding of the authorisation and synchronisation core of
    the dashboard back end:

    - the row-level security policies of [supabase_rls_policies_fixed.sql]
      and [supabase_stock_table_migration.sql];
    - the [create-user] branch of the edge function
      [supabase/functions/create-user/index.ts] and the Express route
      [POST /api/users/create] of [server.js];
    - the Clerk webhook receiver [POST /api/webhooks/clerk] of [server.js];
    - the stock refresh worker [supabase/functions/sync-stock/index.ts].

    Tables are lists of rows (order and duplicates matter for the
    uniqueness arguments), strings are sequences of code units, and the
    outcome of every call to an external service (Clerk, the database, the
    stock feed) is an explicit parameter of the handler that issues it.
    Timestamps ([created_at], [updated_at], the [timestamp] of an error
    body) and informational [console.log] lines are not modelled;
    [console.error] and [console.warn] are. *)

From Stdlib Require Import String Ascii List Bool ZArith Lia Arith.
From Stdlib Require Import Decimal DecimalString.
Import ListNotations.

Local Open Scope string_scope.
Local Open Scope list_scope.

Set Implicit Arguments.

(* ===================================================================== *)
(** ** JavaScript and SQL primitives *)
(* ===================================================================== *)

(** [x || d] on an optional string: [undefined], [null] and the empty
    string are falsy. *)
Definition or_default (x : option string) (d : string) : string :=
  match x with
  | Some s => match s with EmptyString => d | _ => s end
  | None => d
  end.

(** [!x] on an optional string. *)
Definition falsy (x : option string) : bool :=
  match x with
  | Some s => match s with EmptyString => true | _ => false end
  | None => true
  end.

(** [x || []] on an optional array: every array, also the empty one, is
    truthy. *)
Definition or_empty (x : option (list string)) : list string :=
  match x with
  | Some l => l
  | None => []
  end.

(** [n.toString()] and [String(n)] on an integer. *)
Definition toString (n : Z) : string := NilZero.string_of_int (Z.to_int n).

Definition nat_toString (n : nat) : string :=
  NilZero.string_of_uint (Nat.to_uint n).

(** [xs.includes(x)] and [x = ANY(xs)] on strings. *)
Definition includes (xs : list string) (x : string) : bool :=
  existsb (String.eqb x) xs.

(* ===================================================================== *)
(** ** Role names *)
(* ===================================================================== *)

Definition SUPERADMIN_ROLE := "SUPERADMIN_ROLE".
Definition BOD_ROLE := "BOD_ROLE".
Definition SALES_MANAGER_ROLE := "SALES_MANAGER_ROLE".
Definition SALES_SUPERVISOR_ROLE := "SALES_SUPERVISOR_ROLE".
Definition AUDITOR_ROLE := "AUDITOR_ROLE".
Definition NO_ROLE := "NO_ROLE".

(* ===================================================================== *)
(** ** Tables *)
(* ===================================================================== *)

(** [users]: [id], [clerk_id TEXT UNIQUE NOT NULL], [name], [role],
    [locations TEXT[]]. *)
Module User.
Record t := mk {
  id : nat;
  clerk_id : string;
  name : string;
  role : string;
  locations : list string
}.
End User.

(** [master_locations]: [id SERIAL PRIMARY KEY], [name], [value],
    [is_active]. *)
Module Location.
Record t := mk {
  id : Z;
  name : string;
  value : string;
  is_active : bool
}.
End Location.

(** [stock], as created by the migration. [weight] and [sumqtyonhand] are
    [DECIMAL(10,2)], kept in hundredths. *)
Module Stock.
Record t := mk {
  id : nat;
  m_location_id : Z;
  location : string;
  m_product_id : string;
  name : string;
  c_uom_id : Z;
  uom_name : string;
  m_product_category_id : Z;
  product_category_name : string;
  weight : Z;
  sumqtyonhand : Z;
  product_type : string
}.
End Stock.

(** The database: the three tables and the two id generators. *)
Module Db.
Record t := mk {
  users : list User.t;
  users_seq : nat;
  master_locations : list Location.t;
  stock : list Stock.t;
  stock_seq : nat
}.

Definition with_users (us : list User.t) (seq : nat) (d : t) : t :=
  mk us seq (master_locations d) (stock d) (stock_seq d).

Definition with_stock (ss : list Stock.t) (seq : nat) (d : t) : t :=
  mk (users d) (users_seq d) (master_locations d) ss seq.
End Db.

(** Rows of [users] keyed by an identity. *)
Definition has_clerk_id (cid : string) (u : User.t) : bool :=
  User.clerk_id u =? cid.

Definition rows_of (cid : string) (us : list User.t) : list User.t :=
  filter (has_clerk_id cid) us.

(* ===================================================================== *)
(** ** Row-level security *)
(* ===================================================================== *)

Module Rls.

(** [get_current_user_role()]: the role of the row whose [clerk_id] is the
    token's subject, ['NO_ROLE'] when there is none. The function is
    [SECURITY DEFINER]: it reads [users] unfiltered. *)
Definition get_current_user_role (d : Db.t) (sub : string) : string :=
  match find (has_clerk_id sub) (Db.users d) with
  | Some u => User.role u
  | None => NO_ROLE
  end.

(** "Users can view own record or SUPERADMIN views all". *)
Definition users_select (d : Db.t) (sub : string) (u : User.t) : bool :=
  (sub =? User.clerk_id u)
  || (get_current_user_role d sub =? SUPERADMIN_ROLE).

(** "Users view active or SUPERADMIN views all locations". *)
Definition locations_select (d : Db.t) (sub : string) (ml : Location.t)
  : bool :=
  Location.is_active ml
  || (get_current_user_role d sub =? SUPERADMIN_ROLE).

(** A sub-select inside a policy runs as the caller, hence sees only the
    rows the caller may select. *)
Definition visible_users (d : Db.t) (sub : string) : list User.t :=
  filter (users_select d sub) (Db.users d).

Definition visible_locations (d : Db.t) (sub : string) : list Location.t :=
  filter (locations_select d sub) (Db.master_locations d).

(** [EXISTS (SELECT 1 FROM public.users WHERE clerk_id = auth.jwt() ->> 'sub'
    AND stock.location = ANY(locations))]. *)
Definition location_assigned (d : Db.t) (sub : string) (s : Stock.t) : bool :=
  existsb (fun u => (User.clerk_id u =? sub)
                    && includes (User.locations u) (Stock.location s))
          (visible_users d sub).

(** [EXISTS (SELECT 1 FROM public.master_locations ml
    WHERE ml.id = stock.m_location_id AND ml.is_active = true)]. *)
Definition location_active (d : Db.t) (sub : string) (s : Stock.t) : bool :=
  existsb (fun ml => (Location.id ml =? Stock.m_location_id s)%Z
                     && Bool.eqb (Location.is_active ml) true)
          (visible_locations d sub).

Definition Policy := Db.t -> string -> Stock.t -> bool.

Definition superadmin_can_view_all_stock : Policy := fun d sub _ =>
  get_current_user_role d sub =? SUPERADMIN_ROLE.

Definition bod_can_view_all_stock : Policy := fun d sub _ =>
  get_current_user_role d sub =? BOD_ROLE.

Definition sales_managers_can_view_assigned : Policy := fun d sub s =>
  (get_current_user_role d sub =? SALES_MANAGER_ROLE)
  && location_assigned d sub s
  && location_active d sub s.

Definition sales_supervisors_can_view_assigned : Policy := fun d sub s =>
  (get_current_user_role d sub =? SALES_SUPERVISOR_ROLE)
  && location_assigned d sub s
  && location_active d sub s.

Definition auditors_can_view_all_stock : Policy := fun d sub _ =>
  get_current_user_role d sub =? AUDITOR_ROLE.

(** "SuperAdmin can manage stock" is [FOR ALL], so it applies to
    [SELECT] as well. *)
Definition superadmin_can_manage_stock : Policy := fun d sub _ =>
  get_current_user_role d sub =? SUPERADMIN_ROLE.

(** The policies that apply to a [SELECT] on [stock]; they are
    permissive, so a row is returned when one of them accepts it. *)
Definition stock_select_policies : list Policy :=
  [ superadmin_can_view_all_stock;
    bod_can_view_all_stock;
    sales_managers_can_view_assigned;
    sales_supervisors_can_view_assigned;
    auditors_can_view_all_stock;
    superadmin_can_manage_stock ].

Definition stock_row_visible (d : Db.t) (sub : string) (s : Stock.t) : bool :=
  existsb (fun p => p d sub s) stock_select_policies.

(** [SELECT * FROM stock] issued by the caller [sub]. *)
Definition select_stock (d : Db.t) (sub : string) : list Stock.t :=
  filter (stock_row_visible d sub) (Db.stock d).

(** *** Updates of [users] *)

(** The [SET] clause of an [UPDATE users]. *)
Record Patch := mkPatch {
  set_clerk_id : option string;
  set_name : option string;
  set_role : option string;
  set_locations : option (list string)
}.

Definition or_keep {A} (x : option A) (old : A) : A :=
  match x with Some v => v | None => old end.

Definition apply_patch (p : Patch) (u : User.t) : User.t :=
  User.mk (User.id u)
          (or_keep (set_clerk_id p) (User.clerk_id u))
          (or_keep (set_name p) (User.name u))
          (or_keep (set_role p) (User.role u))
          (or_keep (set_locations p) (User.locations u)).

(** "Users update own or SUPERADMIN updates any": [USING]. *)
Definition users_update_using (d : Db.t) (sub : string) (u : User.t) : bool :=
  (sub =? User.clerk_id u)
  || (get_current_user_role d sub =? SUPERADMIN_ROLE).

(** The same policy's [WITH CHECK], on the new row; [d] is the table as it
    stands when the row is checked. *)
Definition users_update_check (d : Db.t) (sub : string) (u' : User.t) : bool :=
  if get_current_user_role d sub =? SUPERADMIN_ROLE then true
  else sub =? User.clerk_id u'.

(** The rows an [UPDATE users ... WHERE cond] of the caller [sub] reaches:
    those that pass the condition, the select policy and [USING]; [d] is
    the table as it stands when the row is scanned. *)
Definition update_target (d : Db.t) (sub : string) (cond : User.t -> bool)
           (u : User.t) : bool :=
  cond u && users_select d sub u && users_update_using d sub u.

Fixpoint clerk_ids_unique (us : list User.t) : bool :=
  match us with
  | [] => true
  | u :: rest =>
      negb (existsb (has_clerk_id (User.clerk_id u)) rest)
      && clerk_ids_unique rest
  end.

(** The scan of an [UPDATE users SET p WHERE cond]: [done] holds the rows
    already passed, rewritten or not, and [rest] the rows still to scan.
    [get_current_user_role()] is a volatile function, so each row is
    judged against the table as the statement has left it so far. *)
Fixpoint update_rows (d : Db.t) (sub : string) (cond : User.t -> bool)
         (p : Patch) (done rest : list User.t) : string + list User.t :=
  match rest with
  | [] => inr done
  | u :: rest' =>
      let now := Db.with_users (done ++ rest) (Db.users_seq d) d in
      if update_target now sub cond u then
        let u' := apply_patch p u in
        if negb (users_update_check now sub u')
        then inl "new row violates row-level security policy for table users"
        else if existsb (has_clerk_id (User.clerk_id u')) (done ++ rest')
        then inl "duplicate key value violates unique constraint"
        else update_rows d sub cond p (done ++ [u']) rest'
      else update_rows d sub cond p (done ++ [u]) rest'
  end.

(** [UPDATE users SET p WHERE cond] issued by the caller [sub]. Rows that
    fail [USING] (or the select policy, which is the same expression) are
    skipped silently; a new row that fails [WITH CHECK], or that would
    share its [clerk_id] with another row, aborts the statement. *)
Definition update_users (d : Db.t) (sub : string) (cond : User.t -> bool)
           (p : Patch) : string + Db.t :=
  match update_rows d sub cond p [] (Db.users d) with
  | inl e => inl e
  | inr us' => inr (Db.with_users us' (Db.users_seq d) d)
  end.

End Rls.

(* ===================================================================== *)
(** ** The identity store (Clerk) *)
(* ===================================================================== *)

Module Clerk.
(** An identity with its [publicMetadata]. *)
Record Identity := mkIdentity {
  id : string;
  username : string;
  password : string;
  role : string;
  locations : list string
}.

Record t := mk {
  identities : list Identity;
  next_id : nat
}.

Definition has_id (i : string) (x : Identity) : bool := id x =? i.
End Clerk.

(* ===================================================================== *)
(** ** Handlers: world, exceptions, console *)
(* ===================================================================== *)

(** A thrown JavaScript error; [errors] tells whether it carries Clerk's
    [errors] array. *)
Record Exn := mkExn {
  message : string;
  errors : bool
}.

Inductive Level := LError | LWarn.

(** [console.error(label, detail)] and [console.warn(label)]. The console
    of the model is the record of errors and warnings; the progress and
    success lines of [console.log] are not recorded. *)
Record LogEntry := mkLog {
  level : Level;
  label : string;
  detail : string
}.

(** The calls a handler issues to the two stores and the feed, in order. *)
Inductive Call :=
| ClerkCreateUser (username : string)
| ClerkDeleteUser (id : string)
| UsersInsert (clerk_id : string)
| UsersUpdate (clerk_id : string)
| UsersDelete (clerk_id : string)
| LocationsSelect (id : Z)
| StockDelete (product_types : list string)
| StockInsert (rows : nat)
| FeedFetch.

Record World := mkWorld {
  clerk : Clerk.t;
  db : Db.t;
  console : list LogEntry;
  calls : list Call
}.

(** A handler step: it may throw, and it threads the world. *)
Definition Handler (A : Type) : Type := World -> (Exn + A) * World.

Definition ret {A} (a : A) : Handler A := fun w => (inr a, w).

Definition bind {A B} (m : Handler A) (k : A -> Handler B) : Handler B :=
  fun w =>
    match m w with
    | (inl e, w') => (inl e, w')
    | (inr a, w') => k a w'
    end.

Definition throw {A} (e : Exn) : Handler A := fun w => (inl e, w).

(** [throw new Error(msg)]. *)
Definition throw_Error {A} (msg : string) : Handler A :=
  throw (mkExn msg false).

(** [try { m } catch (e) { h e }]. *)
Definition try_catch {A} (m : Handler A) (h : Exn -> Handler A) : Handler A :=
  fun w =>
    match m w with
    | (inl e, w') => h e w'
    | (inr a, w') => (inr a, w')
    end.

Declare Scope handler_scope.
Delimit Scope handler_scope with handler.
Notation "x <- m ;; k" := (bind m (fun x => k))
  (at level 100, m at next level, right associativity) : handler_scope.
Notation "m ;;; k" := (bind m (fun _ => k))
  (at level 100, right associativity) : handler_scope.
Local Open Scope handler_scope.

Definition issue (c : Call) : Handler unit := fun w =>
  (inr tt, mkWorld (clerk w) (db w) (console w) (calls w ++ [c])).

Definition console_error (lbl det : string) : Handler unit := fun w =>
  (inr tt, mkWorld (clerk w) (db w) (console w ++ [mkLog LError lbl det])
                   (calls w)).

Definition console_warn (lbl : string) : Handler unit := fun w =>
  (inr tt, mkWorld (clerk w) (db w)
                   (console w ++ [mkLog LWarn lbl EmptyString]) (calls w)).

Definition get_db : Handler Db.t := fun w => (inr (db w), w).

Definition put_db (d : Db.t) : Handler unit := fun w =>
  (inr tt, mkWorld (clerk w) d (console w) (calls w)).

Definition get_clerk : Handler Clerk.t := fun w => (inr (clerk w), w).

Definition put_clerk (c : Clerk.t) : Handler unit := fun w =>
  (inr tt, mkWorld c (db w) (console w) (calls w)).

(** *** Clerk's backend API

    [fault] is the failure, if any, that the service answers this call
    with; a call that fails leaves the store as it was. *)

Definition clerk_createUser (fault : option Exn)
           (username password role : string) (locations : list string)
  : Handler (Exn + Clerk.Identity) :=
  issue (ClerkCreateUser username) ;;;
  match fault with
  | Some e => ret (inl e)
  | None =>
      c <- get_clerk ;;
      let i := Clerk.mkIdentity ("user_" ++ nat_toString (Clerk.next_id c))%string
                                username password role locations in
      put_clerk (Clerk.mk (Clerk.identities c ++ [i]) (S (Clerk.next_id c))) ;;;
      ret (inr i)
  end.

Definition clerk_deleteUser (fault : option Exn) (id : string)
  : Handler (option Exn) :=
  issue (ClerkDeleteUser id) ;;;
  match fault with
  | Some e => ret (Some e)
  | None =>
      c <- get_clerk ;;
      if existsb (Clerk.has_id id) (Clerk.identities c)
      then put_clerk (Clerk.mk (filter (fun x => negb (Clerk.has_id id x))
                                       (Clerk.identities c))
                               (Clerk.next_id c)) ;;;
           ret None
      else ret (Some (mkExn "Not Found" true))
  end.

(** *** The database through the service-role client

    The service role bypasses row-level security; table constraints still
    hold. [fault] is a failure of the call itself. *)

Definition unique_violation : string :=
  "duplicate key value violates unique constraint users_clerk_id_key".

(** [from('users').insert({clerk_id, name, role, locations})]. *)
Definition users_insert (fault : option string)
           (clerk_id name role : string) (locations : list string)
  : Handler (string + User.t) :=
  issue (UsersInsert clerk_id) ;;;
  match fault with
  | Some e => ret (inl e)
  | None =>
      d <- get_db ;;
      if existsb (has_clerk_id clerk_id) (Db.users d)
      then ret (inl unique_violation)
      else
        let u := User.mk (Db.users_seq d) clerk_id name role locations in
        put_db (Db.with_users (Db.users d ++ [u]) (S (Db.users_seq d)) d) ;;;
        ret (inr u)
  end.

(** [from('users').update({name, role, locations}).eq('clerk_id', id)]. *)
Definition users_update (fault : option string)
           (clerk_id name role : string) (locations : list string)
  : Handler (option string) :=
  issue (UsersUpdate clerk_id) ;;;
  match fault with
  | Some e => ret (Some e)
  | None =>
      d <- get_db ;;
      put_db (Db.with_users
                (map (fun u => if has_clerk_id clerk_id u
                               then User.mk (User.id u) (User.clerk_id u)
                                            name role locations
                               else u) (Db.users d))
                (Db.users_seq d) d) ;;;
      ret None
  end.

(** [from('users').delete().eq('clerk_id', id)]. *)
Definition users_delete (fault : option string) (clerk_id : string)
  : Handler (option string) :=
  issue (UsersDelete clerk_id) ;;;
  match fault with
  | Some e => ret (Some e)
  | None =>
      d <- get_db ;;
      put_db (Db.with_users
                (filter (fun u => negb (has_clerk_id clerk_id u)) (Db.users d))
                (Db.users_seq d) d) ;;;
      ret None
  end.

(* ===================================================================== *)
(** ** Responses *)
(* ===================================================================== *)

Inductive Body :=
| ErrorBody (error : string)
| ErrorDetails (error details : string)
| SuccessBody
| CreatedUser (id : nat) (clerk_id name role : string)
              (locations : list string)
| SyncOk (records_processed records_inserted : nat)
| SyncFailed (error : string).

Record Response := mkResponse {
  status : nat;
  body : Body
}.

(* ===================================================================== *)
(** ** The gateway: creating a user *)
(* ===================================================================== *)

(** The JSON body of a create request; a field that is absent is [None]. *)
Record CreateBody := mkCreateBody {
  req_username : option string;
  req_password : option string;
  req_role : option string;
  req_locations : option (list string)
}.

(** What the two stores answer to the calls of one create request. *)
Record GatewayEnv := mkGatewayEnv {
  createUser_fault : option Exn;
  insert_fault : option string;
  deleteUser_fault : option Exn
}.

Definition privileged_roles : list string :=
  [SUPERADMIN_ROLE; BOD_ROLE; SALES_MANAGER_ROLE; SALES_SUPERVISOR_ROLE;
   AUDITOR_ROLE].

(** The rollback of both create paths:
    [try { await clerk.users.deleteUser(id) } catch (rollbackError) { console.error(...) }]. *)
Definition rollback (fault : option Exn) (id : string) : Handler unit :=
  r <- clerk_deleteUser fault id ;;
  match r with
  | Some rollbackError =>
      console_error "Failed to rollback Clerk user:" (message rollbackError)
  | None => ret tt
  end.

(** [create-user/index.ts], the branch [action === 'create-user'] (also
    taken when the body names no action). *)
Definition create_user (env : GatewayEnv) (b : CreateBody) : Handler Response :=
  let username := or_default (req_username b) EmptyString in
  let password := or_default (req_password b) EmptyString in
  let role := or_default (req_role b) EmptyString in
  let locations := or_empty (req_locations b) in
  if falsy (req_username b) || falsy (req_password b) || falsy (req_role b)
  then ret (mkResponse 400
              (ErrorBody "Username, password, and role are required"))
  else if (String.length password <? 8)%nat
  then ret (mkResponse 400
              (ErrorBody "Password must be at least 8 characters long"))
  else if negb (includes privileged_roles role)
  then ret (mkResponse 400 (ErrorBody "Invalid role specified"))
  else
    created <- clerk_createUser (createUser_fault env)
                                username password role locations ;;
    match created with
    | inl error =>
        console_error "Clerk user creation error:" (message error) ;;;
        ret (mkResponse 400
               (ErrorBody ("Failed to create user in Clerk: " ++ message error)%string))
    | inr clerkUser =>
        inserted <- users_insert (insert_fault env) (Clerk.id clerkUser)
                                 username role locations ;;
        match inserted with
        | inl supabaseError =>
            console_error "Supabase user creation error:" supabaseError ;;;
            rollback (deleteUser_fault env) (Clerk.id clerkUser) ;;;
            ret (mkResponse 500
                   (ErrorBody ("Failed to create user in database: "
                               ++ supabaseError)%string))
        | inr supabaseUser =>
            ret (mkResponse 201
                   (CreatedUser (User.id supabaseUser) (Clerk.id clerkUser)
                                username role locations))
        end
    end.

(** The function's outer [try]/[catch]. *)
Definition serve_create_user (env : GatewayEnv) (b : CreateBody)
  : Handler Response :=
  try_catch (create_user env b)
    (fun error =>
       console_error "Unexpected error:" (message error) ;;;
       ret (mkResponse 500 (ErrorBody "Internal server error"))).

(** [server.js], [POST /api/users/create]. Clerk's exception is not caught
    at the call: it reaches the route's [catch]. *)
Definition api_users_create_body (env : GatewayEnv) (b : CreateBody)
  : Handler Response :=
  let username := or_default (req_username b) EmptyString in
  let password := or_default (req_password b) EmptyString in
  let role := or_default (req_role b) EmptyString in
  let locations := or_empty (req_locations b) in
  if falsy (req_username b) || falsy (req_password b) || falsy (req_role b)
  then ret (mkResponse 400
              (ErrorBody "Missing required fields: username, password, and role are required"))
  else if (String.length password <? 8)%nat
  then ret (mkResponse 400
              (ErrorBody "Password must be at least 8 characters long"))
  else
    created <- clerk_createUser (createUser_fault env)
                                username password role locations ;;
    match created with
    | inl error => throw error
    | inr clerkUser =>
        inserted <- users_insert (insert_fault env) (Clerk.id clerkUser)
                                 username role locations ;;
        match inserted with
        | inl supabaseError =>
            console_error "Supabase error:" supabaseError ;;;
            rollback (deleteUser_fault env) (Clerk.id clerkUser) ;;;
            ret (mkResponse 500
                   (ErrorDetails "Failed to create user in database"
                                 supabaseError))
        | inr supabaseUser =>
            ret (mkResponse 201
                   (CreatedUser (User.id supabaseUser) (Clerk.id clerkUser)
                                (User.name supabaseUser)
                                (User.role supabaseUser)
                                (User.locations supabaseUser)))
        end
    end.

Definition api_users_create (env : GatewayEnv) (b : CreateBody)
  : Handler Response :=
  try_catch (api_users_create_body env b)
    (fun error =>
       console_error "Error creating user:" (message error) ;;;
       if errors error
       then ret (mkResponse 400
                   (ErrorDetails "Clerk validation error" (message error)))
       else ret (mkResponse 500
                   (ErrorDetails "Internal server error" (message error)))).

(** The response and the final world of a handler that has caught its
    exceptions. An exception that escapes would be the framework's 500. *)
Definition run (h : Handler Response) (w : World) : Response * World :=
  match h w with
  | (inr r, w') => (r, w')
  | (inl e, w') => (mkResponse 500 (ErrorBody (message e)), w')
  end.

(* ===================================================================== *)
(** ** The webhook receiver *)
(* ===================================================================== *)

Module Event.
Record Metadata := mkMetadata {
  role : option string;
  locations : option (list string)
}.

(** [evt.data] of a user event. *)
Record Data := mkData {
  id : string;
  username : option string;
  public_metadata : option Metadata;
  first_name : option string;
  last_name : option string
}.

Record t := mk {
  type : string;
  data : Data
}.
End Event.

Record WebhookRequest := mkWebhookRequest {
  svix_id : option string;
  svix_timestamp : option string;
  svix_signature : option string;
  raw_body : string
}.

Record WebhookEnv := mkWebhookEnv {
  CLERK_WEBHOOK_SECRET : option string;
  write_fault : option string
}.

(** [public_metadata?.role]. *)
Definition metadata_role (d : Event.Data) : option string :=
  match Event.public_metadata d with
  | Some m => Event.role m
  | None => None
  end.

(** [public_metadata?.locations]. *)
Definition metadata_locations (d : Event.Data) : option (list string) :=
  match Event.public_metadata d with
  | Some m => Event.locations m
  | None => None
  end.

(** [public_metadata?.role || 'NO_ROLE']. *)
Definition event_role (d : Event.Data) : string :=
  or_default (metadata_role d) NO_ROLE.

(** [public_metadata?.locations || []]. *)
Definition event_locations (d : Event.Data) : list string :=
  or_empty (metadata_locations d).

(** [username || (first_name && last_name ? `${first_name} ${last_name}`
                  : first_name || last_name) || 'User']. *)
Definition event_name (d : Event.Data) : string :=
  if negb (falsy (Event.username d))
  then or_default (Event.username d) EmptyString
  else
    or_default
      (if negb (falsy (Event.first_name d)) && negb (falsy (Event.last_name d))
       then Some (or_default (Event.first_name d) EmptyString ++ " "
                  ++ or_default (Event.last_name d) EmptyString)%string
       else if negb (falsy (Event.first_name d))
            then Event.first_name d
            else Event.last_name d)
      "User".

(** The [switch (eventType)]: one write per known event type, whose error
    is logged and dropped. *)
Definition apply_event (fault : option string) (evt : Event.t)
  : Handler unit :=
  let d := Event.data evt in
  if Event.type evt =? "user.created" then
    r <- users_insert fault (Event.id d) (event_name d) (event_role d)
                      (event_locations d) ;;
    match r with
    | inl error => console_error "Error creating user in Supabase:" error
    | inr _ => ret tt
    end
  else if Event.type evt =? "user.updated" then
    r <- users_update fault (Event.id d) (event_name d) (event_role d)
                      (event_locations d) ;;
    match r with
    | Some error => console_error "Error updating user in Supabase:" error
    | None => ret tt
    end
  else if Event.type evt =? "user.deleted" then
    r <- users_delete fault (Event.id d) ;;
    match r with
    | Some error => console_error "Error deleting user from Supabase:" error
    | None => ret tt
    end
  else ret tt.

Section Webhook.

(** Svix's [Webhook(secret).verify(body, headers)]: the event, or [None]
    when it throws. *)
Variable verify : string -> string -> string -> string -> string
                  -> option Event.t.

Definition webhooks_clerk_body (env : WebhookEnv) (req : WebhookRequest)
  : Handler Response :=
  if falsy (CLERK_WEBHOOK_SECRET env) then
    console_error "CLERK_WEBHOOK_SECRET is not set" EmptyString ;;;
    ret (mkResponse 500 (ErrorBody "Webhook secret not configured"))
  else if falsy (svix_id req) || falsy (svix_timestamp req)
          || falsy (svix_signature req) then
    ret (mkResponse 400 (ErrorBody "Missing svix headers"))
  else
    match verify (or_default (CLERK_WEBHOOK_SECRET env) EmptyString)
                 (raw_body req)
                 (or_default (svix_id req) EmptyString)
                 (or_default (svix_timestamp req) EmptyString)
                 (or_default (svix_signature req) EmptyString) with
    | None =>
        console_error "Error verifying webhook:" EmptyString ;;;
        ret (mkResponse 400 (ErrorBody "Invalid signature"))
    | Some evt =>
        apply_event (write_fault env) evt ;;;
        ret (mkResponse 200 SuccessBody)
    end.

(** [POST /api/webhooks/clerk]. *)
Definition webhooks_clerk (env : WebhookEnv) (req : WebhookRequest)
  : Handler Response :=
  try_catch (webhooks_clerk_body env req)
    (fun error =>
       console_error "Webhook error:" (message error) ;;;
       ret (mkResponse 500
              (ErrorDetails "Internal server error" (message error)))).

End Webhook.

(* ===================================================================== *)
(** ** The stock refresh worker *)
(* ===================================================================== *)

(** A reference of the feed: [{id, identifier}]. *)
Module Ref.
Record t := mk {
  id : Z;
  identifier : string
}.
End Ref.

(** One element of the feed's [records]. *)
Module FeedRecord.
Record t := mk {
  id : Z;
  AD_Org_ID : Ref.t;
  Name : string;
  C_UOM_ID : Ref.t;
  M_Product_Category_ID : Ref.t;
  Weight : option Z;
  SumQtyOnHand : option Z;
  product_type : option string
}.
End FeedRecord.

(** The object pushed on [stockRecords]: a stock row without its [id]. *)
Module StockRecord.
Record t := mk {
  m_location_id : Z;
  location : string;
  m_product_id : string;
  name : string;
  c_uom_id : Z;
  uom_name : string;
  m_product_category_id : Z;
  product_category_name : string;
  weight : Z;
  sumqtyonhand : Z;
  product_type : string
}.

Definition with_id (i : nat) (r : t) : Stock.t :=
  Stock.mk i (m_location_id r) (location r) (m_product_id r) (name r)
           (c_uom_id r) (uom_name r) (m_product_category_id r)
           (product_category_name r) (weight r) (sumqtyonhand r)
           (product_type r).
End StockRecord.

(** What [fetch] and [response.json()] give. *)
Inductive FeedResponse :=
| FetchThrows (msg : string)
| NotOk (status : nat) (statusText : string)
| NoRecordsArray
| Records (records : list FeedRecord.t).

Record SyncEnv := mkSyncEnv {
  IDEMPIERE_API_KEY : option string;
  feed : FeedResponse;
  lookup_fault : nat -> option string;
  delete_fault : option string;
  sync_insert_fault : option string
}.

Definition RAW_MATERIAL := "RAW MATERIAL".
Definition FINISHED_GOODS := "FINISHED_GOODS".

(** The product types a run deletes. *)
Definition refreshed_types : list string := [RAW_MATERIAL; FINISHED_GOODS].

Definition no_rows : string :=
  "JSON object requested, multiple (or no) rows returned".

(** [from('master_locations').select('id, name').eq('id', id)
      .eq('is_active', true).single()]. *)
Definition locations_select_active (fault : option string) (id : Z)
  : Handler (string + Location.t) :=
  issue (LocationsSelect id) ;;;
  match fault with
  | Some e => ret (inl e)
  | None =>
      d <- get_db ;;
      match filter (fun ml => (Location.id ml =? id)%Z
                              && Bool.eqb (Location.is_active ml) true)
                   (Db.master_locations d) with
      | [locationData] => ret (inr locationData)
      | _ => ret (inl no_rows)
      end
  end.

(** [from('stock').delete().in('product_type', types)]. *)
Definition stock_delete_in (fault : option string) (types : list string)
  : Handler (option string) :=
  issue (StockDelete types) ;;;
  match fault with
  | Some e => ret (Some e)
  | None =>
      d <- get_db ;;
      put_db (Db.with_stock
                (filter (fun s => negb (includes types (Stock.product_type s)))
                        (Db.stock d))
                (Db.stock_seq d) d) ;;;
      ret None
  end.

(** The ids a multi-row insert draws from the sequence. *)
Fixpoint assign_ids (seq : nat) (rs : list StockRecord.t) : list Stock.t :=
  match rs with
  | [] => []
  | r :: rest => StockRecord.with_id seq r :: assign_ids (S seq) rest
  end.

(** [from('stock').insert(stockRecords).select()]. *)
Definition stock_insert (fault : option string) (rs : list StockRecord.t)
  : Handler (string + list Stock.t) :=
  issue (StockInsert (length rs)) ;;;
  match fault with
  | Some e => ret (inl e)
  | None =>
      d <- get_db ;;
      let rows := assign_ids (Db.stock_seq d) rs in
      put_db (Db.with_stock (Db.stock d ++ rows)
                            (Db.stock_seq d + length rs) d) ;;;
      ret (inr rows)
  end.

(** The field mapping of the loop body. *)
Definition stockRecord (locationData : Location.t) (record : FeedRecord.t)
  : StockRecord.t :=
  StockRecord.mk
    (Location.id locationData)
    (Location.name locationData)
    (toString (FeedRecord.id record))
    (FeedRecord.Name record)
    (Ref.id (FeedRecord.C_UOM_ID record))
    (Ref.identifier (FeedRecord.C_UOM_ID record))
    (Ref.id (FeedRecord.M_Product_Category_ID record))
    (Ref.identifier (FeedRecord.M_Product_Category_ID record))
    (match FeedRecord.Weight record with Some x => x | None => 0%Z end)
    (match FeedRecord.SumQtyOnHand record with Some x => x | None => 0%Z end)
    (or_default (FeedRecord.product_type record) RAW_MATERIAL).

(** The [for (const record of data.records)] loop; [i] is the position of
    the head of [records] in the feed and [stockRecords] what has been
    pushed so far. *)
Fixpoint transform (env : SyncEnv) (i : nat) (records : list FeedRecord.t)
         (stockRecords : list StockRecord.t) : Handler (list StockRecord.t) :=
  match records with
  | [] => ret stockRecords
  | record :: rest =>
      let externalLocationId := Ref.id (FeedRecord.AD_Org_ID record) in
      found <- locations_select_active (lookup_fault env i)
                                       externalLocationId ;;
      match found with
      | inl _ =>
          console_warn
            ("Location ID not found in master_locations: "
             ++ toString externalLocationId ++ " ("
             ++ Ref.identifier (FeedRecord.AD_Org_ID record) ++ ")")%string ;;;
          transform env (S i) rest stockRecords
      | inr locationData =>
          transform env (S i) rest
                    (stockRecords ++ [stockRecord locationData record])
      end
  end.

Definition sync_stock_body (env : SyncEnv) : Handler Response :=
  if falsy (IDEMPIERE_API_KEY env) then
    throw_Error "IDEMPIERE_API_KEY environment variable is not set"
  else
    issue FeedFetch ;;;
    match feed env with
    | FetchThrows msg => throw_Error msg
    | NotOk st txt =>
        throw_Error ("External API request failed: " ++ nat_toString st
                     ++ " " ++ txt)%string
    | NoRecordsArray =>
        throw_Error "Invalid response format: expected records array"
    | Records records =>
        stockRecords <- transform env 0 records [] ;;
        if (length stockRecords =? 0)%nat then
          throw_Error "No valid stock records to insert"
        else
          deleted <- stock_delete_in (delete_fault env) refreshed_types ;;
          match deleted with
          | Some deleteError =>
              throw_Error ("Failed to delete existing stock records: "
                           ++ deleteError)%string
          | None =>
              inserted <- stock_insert (sync_insert_fault env) stockRecords ;;
              match inserted with
              | inl insertError =>
                  throw_Error ("Failed to insert stock records: "
                               ++ insertError)%string
              | inr insertData =>
                  ret (mkResponse 200
                         (SyncOk (length stockRecords) (length insertData)))
              end
          end
    end.

(** [sync-stock/index.ts]: the body and its [catch]. *)
Definition sync_stock (env : SyncEnv) : Handler Response :=
  try_catch (sync_stock_body env)
    (fun error =>
       console_error "Error synchronizing stock:" (message error) ;;;
       ret (mkResponse 500 (SyncFailed (message error)))).

(** The records a run accepts: what the loop leaves in [stockRecords]. *)
Definition accepted (env : SyncEnv) (w : World) : list StockRecord.t :=
  if falsy (IDEMPIERE_API_KEY env) then []
  else
    match feed env with
    | Records records =>
        match fst (transform env 0 records [] w) with
        | inr stockRecords => stockRecords
        | inl _ => []
        end
    | _ => []
    end.

(** The calls that only read. *)
Definition is_read (c : Call) : bool :=
  match c with
  | LocationsSelect _ | FeedFetch => true
  | _ => false
  end.

(** The rows a delete of the refreshed types keeps. *)
Definition other_type (s : Stock.t) : bool :=
  negb (includes refreshed_types (Stock.product_type s)).

(** A feed record resolves when exactly one active location carries the id
    it refers to. *)
Definition resolves (d : Db.t) (record : FeedRecord.t) : bool :=
  match filter (fun ml => (Location.id ml =? Ref.id (FeedRecord.AD_Org_ID record))%Z
                          && Bool.eqb (Location.is_active ml) true)
               (Db.master_locations d) with
  | [_] => true
  | _ => false
  end.

(* ===================================================================== *)
(** ** The specification's reading of stock visibility *)
(* ===================================================================== *)

Module Spec.

(** The three roles that read every stock row. *)
Definition unrestricted (r : string) : bool :=
  (r =? SUPERADMIN_ROLE) || (r =? BOD_ROLE) || (r =? AUDITOR_ROLE).

(** The location ids assigned to the caller. *)
Definition assigned (d : Db.t) (sub : string) : list string :=
  match find (has_clerk_id sub) (Db.users d) with
  | Some u => User.locations u
  | None => []
  end.

(** The names resolved from a list of location ids. *)
Definition resolved_names (d : Db.t) (ids : list string) : list string :=
  map Location.name
      (filter (fun ml => includes ids (toString (Location.id ml)))
              (Db.master_locations d)).

(** The location a stock row refers to is active. *)
Definition referenced_active (d : Db.t) (s : Stock.t) : bool :=
  existsb (fun ml => (Location.id ml =? Stock.m_location_id s)%Z
                     && Location.is_active ml)
          (Db.master_locations d).

(** The row is visible when the role is unrestricted, or its location name
    is among the resolved names and its location is active. *)
Definition stock_visible (d : Db.t) (sub : string) (s : Stock.t) : bool :=
  unrestricted (Rls.get_current_user_role d sub)
  || (includes (resolved_names d (assigned d sub)) (Stock.location s)
      && referenced_active d s).

End Spec.

(* ===================================================================== *)
(** ** Notions used in the statements *)
(* ===================================================================== *)

(** The body passes the three checks of [create_user]. *)
Definition valid_create (b : CreateBody) : bool :=
  negb (falsy (req_username b) || falsy (req_password b)
        || falsy (req_role b))
  && negb (String.length (or_default (req_password b) EmptyString) <? 8)%nat
  && includes privileged_roles (or_default (req_role b) EmptyString).

(** The body passes the two checks of [POST /api/users/create]. *)
Definition valid_create_express (b : CreateBody) : bool :=
  negb (falsy (req_username b) || falsy (req_password b)
        || falsy (req_role b))
  && negb (String.length (or_default (req_password b) EmptyString) <? 8)%nat.

(** The id Clerk gives to the next identity. *)
Definition next_identity_id (w : World) : string :=
  ("user_" ++ nat_toString (Clerk.next_id (clerk w)))%string.

(** What the insert of a user row keyed [cid] answers when it fails: the
    failure of the call, or the violation of the unique constraint. *)
Definition insert_error (fault : option string) (d : Db.t) (cid : string)
  : option string :=
  match fault with
  | Some e => Some e
  | None => if existsb (has_clerk_id cid) (Db.users d)
            then Some unique_violation else None
  end.

(** What the write of [apply_event] answers when it fails. *)
Definition write_error (fault : option string) (evt : Event.t) (d : Db.t)
  : option string :=
  if Event.type evt =? "user.created"
  then insert_error fault d (Event.id (Event.data evt))
  else if (Event.type evt =? "user.updated")
          || (Event.type evt =? "user.deleted")
  then fault
  else None.

(** The request carries the secret's configuration and the three headers,
    and Svix verifies it as [evt]. *)
Definition verified
           (verify : string -> string -> string -> string -> string
                     -> option Event.t)
           (env : WebhookEnv) (req : WebhookRequest) (evt : Event.t) : Prop :=
  falsy (CLERK_WEBHOOK_SECRET env) = false
  /\ falsy (svix_id req) = false
  /\ falsy (svix_timestamp req) = false
  /\ falsy (svix_signature req) = false
  /\ verify (or_default (CLERK_WEBHOOK_SECRET env) EmptyString)
            (raw_body req)
            (or_default (svix_id req) EmptyString)
            (or_default (svix_timestamp req) EmptyString)
            (or_default (svix_signature req) EmptyString) = Some evt.

(** What the lookup of an active location answers. *)
Definition lookup_answer (fault : option string) (id : Z) (d : Db.t)
  : string + Location.t :=
  match fault with
  | Some e => inl e
  | None =>
      match filter (fun ml => (Location.id ml =? id)%Z
                              && Bool.eqb (Location.is_active ml) true)
                   (Db.master_locations d) with
      | [locationData] => inr locationData
      | _ => inl no_rows
      end
  end.

(** The compensation contract of a create handler, given the responses it
    gives to a failed identity creation and to a failed insert. When Clerk
    refuses the identity, the only call is that creation and neither store
    changes. When the identity is created and the insert fails, the handler
    issues the creation, the insert and the compensating delete in that
    order, answers with the database error and leaves the database as it
    was; if the delete succeeds no identity with the new id is left and the
    other identities are untouched, and if the delete fails the new
    identity stays and the failure is logged. *)
Definition Compensates
           (handler : GatewayEnv -> CreateBody -> Handler Response)
           (on_clerk_failure : Exn -> Response)
           (on_insert_failure : string -> Response)
           (env : GatewayEnv) (b : CreateBody) (w : World) : Prop :=
  let username := or_default (req_username b) EmptyString in
  let new_id := next_identity_id w in
  let r := fst (run (handler env b) w) in
  let w' := snd (run (handler env b) w) in
  match createUser_fault env with
  | Some e =>
      r = on_clerk_failure e
      /\ calls w' = calls w ++ [ClerkCreateUser username]
      /\ clerk w' = clerk w
      /\ db w' = db w
  | None =>
      forall dbError,
        insert_error (insert_fault env) (db w) new_id = Some dbError ->
        r = on_insert_failure dbError
        /\ calls w' = calls w ++ [ClerkCreateUser username;
                                  UsersInsert new_id;
                                  ClerkDeleteUser new_id]
        /\ db w' = db w
        /\ match deleteUser_fault env with
           | None =>
               Clerk.identities (clerk w')
               = filter (fun x => negb (Clerk.has_id new_id x))
                        (Clerk.identities (clerk w))
           | Some rollbackError =>
               (exists i, In i (Clerk.identities (clerk w'))
                          /\ Clerk.id i = new_id)
               /\ In (mkLog LError "Failed to rollback Clerk user:"
                            (message rollbackError)) (console w')
           end
  end.

(** The responses of the edge function to the two failures. *)
Definition edge_clerk_failure (e : Exn) : Response :=
  mkResponse 400
    (ErrorBody ("Failed to create user in Clerk: " ++ message e)%string).

Definition edge_insert_failure (dbError : string) : Response :=
  mkResponse 500
    (ErrorBody ("Failed to create user in database: " ++ dbError)%string).

(** The responses of the Express route to the two failures. *)
Definition express_clerk_failure (e : Exn) : Response :=
  if errors e
  then mkResponse 400 (ErrorDetails "Clerk validation error" (message e))
  else mkResponse 500 (ErrorDetails "Internal server error" (message e)).

Definition express_insert_failure (dbError : string) : Response :=
  mkResponse 500 (ErrorDetails "Failed to create user in database" dbError).

(* ===================================================================== *)
(** ** Scenarios *)
(* ===================================================================== *)

Module Scenario.

Definition jakarta : Location.t := Location.mk 1 "Jakarta" "JKT" true.
Definition old_depo : Location.t := Location.mk 2 "OldDepo" "OLD" false.

Definition jakarta_rice : Stock.t :=
  Stock.mk 1 1 "Jakarta" "RICE-001" "Beras Premium IR64" 1 "ton"
           1 "Beras Premium" 100 125050 "rice".

Definition old_depo_rice : Stock.t :=
  Stock.mk 2 2 "OldDepo" "RICE-002" "Beras Medium IR42" 1 "ton"
           2 "Beras Medium" 100 89025 "rice".

(** A sales manager whose [locations] hold location ids, as the dashboard
    writes them. *)
Definition manager_by_id : User.t :=
  User.mk 1 "user_mgr" "mira" SALES_MANAGER_ROLE ["1"; "2"].

(** A sales manager whose [locations] hold location names. *)
Definition manager_by_name : User.t :=
  User.mk 2 "user_mgr2" "maya" SALES_MANAGER_ROLE ["Jakarta"; "OldDepo"].

(** An unprivileged user whose [locations] name Jakarta both ways. *)
Definition newcomer : User.t :=
  User.mk 3 "user_new" "nadia" NO_ROLE ["1"; "Jakarta"].

Definition d0 : Db.t :=
  Db.mk [manager_by_id; manager_by_name; newcomer] 4
        [jakarta; old_depo]
        [jakarta_rice; old_depo_rice] 3.

(** The directory after the dashboard assigned both locations to the sales
    manager: the only user row holds the two location ids. *)
Definition d_assigned : Db.t :=
  Db.mk [manager_by_id] 2
        [jakarta; old_depo]
        [jakarta_rice; old_depo_rice] 3.

(** The newcomer names the administrative role in an update of their own
    row. *)
Definition escalate : Rls.Patch :=
  Rls.mkPatch None None (Some SUPERADMIN_ROLE) (Some ["Jakarta"]).

Definition newcomer_escalated : User.t :=
  User.mk 3 "user_new" "nadia" SUPERADMIN_ROLE ["Jakarta"].

(** A world with empty stores. *)
Definition w0 : World :=
  mkWorld (Clerk.mk [] 0) (Db.mk [] 0 [] [] 0) [] [].

Definition good_body : CreateBody :=
  mkCreateBody (Some "john_doe") (Some "SecurePassword123")
               (Some SALES_MANAGER_ROLE) (Some ["Jakarta"; "Surabaya"]).

(** Scenario C: the password has five characters. *)
Definition short_body : CreateBody :=
  mkCreateBody (Some "john_doe") (Some "short")
               (Some SALES_MANAGER_ROLE) (Some ["Jakarta"]).

Definition no_role_body : CreateBody :=
  mkCreateBody (Some "john_doe") (Some "SecurePassword123")
               (Some NO_ROLE) None.

Definition all_fine : GatewayEnv := mkGatewayEnv None None None.

(** The database refuses the insert and Clerk answers the rollback. *)
Definition insert_fails : GatewayEnv :=
  mkGatewayEnv None (Some "connection refused") None.

(** The database refuses the insert and Clerk then refuses the rollback. *)
Definition rollback_fails : GatewayEnv :=
  mkGatewayEnv None (Some "connection refused")
               (Some (mkExn "Service Unavailable" false)).

Definition john_identity : Clerk.Identity :=
  Clerk.mkIdentity "user_0" "john_doe" "SecurePassword123"
                   SALES_MANAGER_ROLE ["Jakarta"; "Surabaya"].

(** Scenario B: [user.created] for [u1] with the auditor's metadata. *)
Definition created_u1 : Event.t :=
  Event.mk "user.created"
    (Event.mkData "u1" (Some "ursula")
                  (Some (Event.mkMetadata (Some AUDITOR_ROLE) (Some [])))
                  None None).

Definition ursula : User.t := User.mk 0 "u1" "ursula" AUDITOR_ROLE [].

(** An identity delivered without metadata. *)
Definition created_bare : Event.t :=
  Event.mk "user.created" (Event.mkData "u2" (Some "bella") None None None).

Definition updated_bare : Event.t :=
  Event.mk "user.updated" (Event.mkData "u2" (Some "bella") None None None).

(** The row the gateway wrote for [u2] before the event arrives. *)
Definition bella_admin : User.t :=
  User.mk 0 "u2" "bella" SUPERADMIN_ROLE ["Jakarta"].

Definition w_bella : World :=
  mkWorld (Clerk.mk [] 0) (Db.mk [bella_admin] 1 [] [] 0) [] [].

(** A stand-in for Svix: one secret, one signature, one event. *)
Definition verify (secret payload id timestamp signature : string)
  : option Event.t :=
  if (secret =? "whsec_test") && (signature =? "v1,good")
  then Some created_u1 else None.

Definition signed_request : WebhookRequest :=
  mkWebhookRequest (Some "msg_1") (Some "1700000000") (Some "v1,good")
                   "{}".

Definition webhook_env : WebhookEnv := mkWebhookEnv (Some "whsec_test") None.

Definition webhook_env_db_down : WebhookEnv :=
  mkWebhookEnv (Some "whsec_test") (Some "connection refused").

(** Stock of three product types at Jakarta. *)
Definition raw_row : Stock.t :=
  Stock.mk 1 1 "Jakarta" "1001" "Gabah" 1 "kg" 4 "Bahan Baku" 100 500000
           RAW_MATERIAL.

Definition finished_row : Stock.t :=
  Stock.mk 2 1 "Jakarta" "2001" "Beras Raja 5kg" 1 "kg" 1 "Beras Premium"
           500 120000 FINISHED_GOODS.

Definition rice_row : Stock.t :=
  Stock.mk 3 1 "Jakarta" "RICE-001" "Beras Premium IR64" 1 "ton" 1
           "Beras Premium" 100 125050 "rice".

Definition w_stock : World :=
  mkWorld (Clerk.mk [] 0)
          (Db.mk [] 0 [jakarta; old_depo] [raw_row; finished_row; rice_row] 4)
          [] [].

(** A raw-material record at Jakarta, one at the inactive depot and one at
    a location the table does not have. *)
Definition feed_jakarta : FeedRecord.t :=
  FeedRecord.mk 1002 (Ref.mk 1 "Jakarta (feed)") "Gabah Kering"
                (Ref.mk 1 "kg") (Ref.mk 4 "Bahan Baku") (Some 100%Z)
                (Some 750000%Z) None.

Definition feed_old_depo : FeedRecord.t :=
  FeedRecord.mk 1003 (Ref.mk 2 "OldDepo") "Gabah Basah"
                (Ref.mk 1 "kg") (Ref.mk 4 "Bahan Baku") None None None.

Definition feed_unknown : FeedRecord.t :=
  FeedRecord.mk 1004 (Ref.mk 99 "Nowhere") "Gabah"
                (Ref.mk 1 "kg") (Ref.mk 4 "Bahan Baku") None None None.

Definition no_fault : nat -> option string := fun _ => None.

Definition sync_mixed : SyncEnv :=
  mkSyncEnv (Some "key") (Records [feed_old_depo; feed_jakarta; feed_unknown])
            no_fault None None.

Definition sync_unresolved : SyncEnv :=
  mkSyncEnv (Some "key") (Records [feed_old_depo; feed_unknown])
            no_fault None None.

Definition new_raw_row : Stock.t :=
  Stock.mk 4 1 "Jakarta" "1002" "Gabah Kering" 1 "kg" 4 "Bahan Baku" 100
           750000 RAW_MATERIAL.

End Scenario.

(* ===================================================================== *)
(** ** The remaining policies *)
(* ===================================================================== *)

Module Access.

(** [SELECT * FROM users] issued by the caller [sub]. *)
Definition select_users (d : Db.t) (sub : string) : list User.t :=
  filter (Rls.users_select d sub) (Db.users d).

(** "Allow user self-registration": [WITH CHECK], on the new row. *)
Definition users_insert_check (sub : string) (u' : User.t) : bool :=
  (sub =? User.clerk_id u') && (User.role u' =? NO_ROLE).

(** The values of an [INSERT INTO users]; [name] is [NOT NULL] and has no
    default, [locations] defaults to the empty array. *)
Record NewUser := mkNewUser {
  new_clerk_id : string;
  new_name : option string;
  new_role : string;
  new_locations : option (list string)
}.

Definition rls_violation : string :=
  "new row violates row-level security policy".

Definition not_null_violation : string :=
  "null value in column name violates not-null constraint".

(** [from('users').insert(n)] through the caller's client: the policy is
    checked on the new row, then the constraints. *)
Definition insert_user (d : Db.t) (sub : string) (n : NewUser)
  : string + Db.t :=
  let u' := User.mk (Db.users_seq d) (new_clerk_id n)
                    (or_default (new_name n) EmptyString)
                    (new_role n) (or_empty (new_locations n)) in
  if negb (users_insert_check sub u') then inl rls_violation
  else
    match new_name n with
    | None => inl not_null_violation
    | Some _ =>
        if existsb (has_clerk_id (new_clerk_id n)) (Db.users d)
        then inl unique_violation
        else inr (Db.with_users (Db.users d ++ [u']) (S (Db.users_seq d)) d)
    end.

(** "SUPERADMIN can delete users": [USING]. *)
Definition users_delete_using (d : Db.t) (sub : string) (u : User.t) : bool :=
  Rls.get_current_user_role d sub =? SUPERADMIN_ROLE.

(** The scan of a [DELETE FROM users WHERE cond]: [done] holds the rows
    kept so far and [rest] the rows still to scan. The policies call the
    volatile [get_current_user_role()], so each row is judged against the
    table as the statement has left it so far. *)
Fixpoint delete_rows (d : Db.t) (sub : string) (cond : User.t -> bool)
         (done rest : list User.t) : list User.t :=
  match rest with
  | [] => done
  | u :: rest' =>
      let now := Db.with_users (done ++ rest) (Db.users_seq d) d in
      if cond u && Rls.users_select now sub u && users_delete_using now sub u
      then delete_rows d sub cond done rest'
      else delete_rows d sub cond (done ++ [u]) rest'
  end.

(** [DELETE FROM users WHERE cond] issued by the caller [sub]: the rows the
    caller may not select or delete are skipped silently. *)
Definition delete_users (d : Db.t) (sub : string) (cond : User.t -> bool)
  : Db.t :=
  Db.with_users (delete_rows d sub cond [] (Db.users d)) (Db.users_seq d) d.

(** The three write policies of [master_locations] ("SUPERADMIN can
    insert / update / delete locations") share one expression. *)
Definition locations_write (d : Db.t) (sub : string) (ml : Location.t)
  : bool :=
  Rls.get_current_user_role d sub =? SUPERADMIN_ROLE.

Definition with_locations (ls : list Location.t) (d : Db.t) : Db.t :=
  Db.mk (Db.users d) (Db.users_seq d) ls (Db.stock d) (Db.stock_seq d).

(** [from('master_locations').insert(locData)]; [id] is the value the
    serial column draws for the new row. *)
Definition insert_location (d : Db.t) (sub : string) (id : Z)
           (name value : string) (is_active : bool) : string + Db.t :=
  let ml := Location.mk id name value is_active in
  if negb (locations_write d sub ml) then inl rls_violation
  else if existsb (fun x => (Location.id x =? id)%Z) (Db.master_locations d)
  then inl "duplicate key value violates unique constraint master_locations_pkey"
  else inr (with_locations (Db.master_locations d ++ [ml]) d).

(** [from('master_locations').update(locData).eq('id', id)]. The update
    policy has no [WITH CHECK]: its [USING] is applied to the new row too,
    and it reads the caller's role only. *)
Definition update_location (d : Db.t) (sub : string) (id : Z)
           (name value : string) (is_active : bool) : Db.t :=
  with_locations
    (map (fun ml =>
            if (Location.id ml =? id)%Z && Rls.locations_select d sub ml
               && locations_write d sub ml
            then Location.mk (Location.id ml) name value is_active
            else ml)
         (Db.master_locations d))
    d.

(** [from('master_locations').delete().eq('id', id)]. *)
Definition delete_location (d : Db.t) (sub : string) (id : Z) : Db.t :=
  with_locations
    (filter (fun ml => negb ((Location.id ml =? id)%Z
                             && Rls.locations_select d sub ml
                             && locations_write d sub ml))
            (Db.master_locations d))
    d.

(** "SuperAdmin can manage stock" is [FOR ALL] with a [USING] only: the
    expression guards the rows an update or delete reaches and the rows an
    insert or update writes. *)
Definition insert_stock (d : Db.t) (sub : string) (rs : list StockRecord.t)
  : string + Db.t :=
  if negb (forallb (fun s => Rls.superadmin_can_manage_stock d sub s)
                   (assign_ids (Db.stock_seq d) rs))
  then inl rls_violation
  else inr (Db.with_stock (Db.stock d ++ assign_ids (Db.stock_seq d) rs)
                          (Db.stock_seq d + length rs) d).

(** [UPDATE stock SET ... WHERE cond], the assignment being [f]. *)
Definition update_stock (d : Db.t) (sub : string) (cond : Stock.t -> bool)
           (f : Stock.t -> Stock.t) : Db.t :=
  Db.with_stock
    (map (fun s => if cond s && Rls.stock_row_visible d sub s
                      && Rls.superadmin_can_manage_stock d sub s
                   then f s else s)
         (Db.stock d))
    (Db.stock_seq d) d.

(** [DELETE FROM stock WHERE cond]. *)
Definition delete_stock (d : Db.t) (sub : string) (cond : Stock.t -> bool)
  : Db.t :=
  Db.with_stock
    (filter (fun s => negb (cond s && Rls.stock_row_visible d sub s
                            && Rls.superadmin_can_manage_stock d sub s))
            (Db.stock d))
    (Db.stock_seq d) d.

End Access.

(* ===================================================================== *)
(** ** The gateway: updating and deleting a user *)
(* ===================================================================== *)

(** [if (x) ...]: the value when it is truthy. *)
Definition when_truthy (x : option string) : option string :=
  if falsy x then None else x.

(** [clerk.users.updateUserMetadata(id, {publicMetadata})]: the keys given
    replace the stored ones, the others are kept. *)
Definition clerk_updateUserMetadata (fault : option Exn) (id : string)
           (role : option string) (locations : option (list string))
  : Handler (option Exn) :=
  match fault with
  | Some e => ret (Some e)
  | None =>
      c <- get_clerk ;;
      if existsb (Clerk.has_id id) (Clerk.identities c)
      then
        put_clerk
          (Clerk.mk
             (map (fun x =>
                     if Clerk.has_id id x
                     then Clerk.mkIdentity
                            (Clerk.id x) (Clerk.username x) (Clerk.password x)
                            (Rls.or_keep role (Clerk.role x))
                            (Rls.or_keep locations (Clerk.locations x))
                     else x)
                  (Clerk.identities c))
             (Clerk.next_id c)) ;;;
        ret None
      else ret (Some (mkExn "Not Found" true))
  end.

(** [from('users').update(updateData).eq('clerk_id', id)], where
    [updateData] holds the keys that are given. *)
Definition users_update_fields (fault : option string) (clerk_id : string)
           (role : option string) (locations : option (list string))
  : Handler (option string) :=
  issue (UsersUpdate clerk_id) ;;;
  match fault with
  | Some e => ret (Some e)
  | None =>
      d <- get_db ;;
      put_db (Db.with_users
                (map (fun u => if has_clerk_id clerk_id u
                               then User.mk (User.id u) (User.clerk_id u)
                                            (User.name u)
                                            (Rls.or_keep role (User.role u))
                                            (Rls.or_keep locations
                                                         (User.locations u))
                               else u) (Db.users d))
                (Db.users_seq d) d) ;;;
      ret None
  end.

Module Gateway.

(** The request: its method and the fields of its JSON body. A body that
    does not parse is the body without fields. *)
Record Request := mkRequest {
  method : string;
  action : option string;
  clerkId : option string;
  fields : CreateBody
}.

(** What the two stores answer to the calls of one request. *)
Record Env := mkEnv {
  create_env : GatewayEnv;
  metadata_fault : option Exn;
  update_fault : option string;
  clerk_delete_fault : option Exn;
  db_delete_fault : option string
}.

(** The payloads beside those of [Body]: [{success: true, message}] and
    the text of the preflight answer. *)
Inductive Json :=
| Plain (b : Body)
| Message (message : string)
| Text (text : string).

Record Reply := mkReply {
  code : nat;
  json : Json
}.

Definition error (st : nat) (msg : string) : Reply :=
  mkReply st (Plain (ErrorBody msg)).

(** The branch [action === 'update-user']. *)
Definition update_user (env : Env) (r : Request) : Handler Reply :=
  let id := or_default (clerkId r) EmptyString in
  let role := req_role (fields r) in
  let locations := req_locations (fields r) in
  if falsy (clerkId r)
     || (falsy role && match locations with None => true | Some _ => false end)
  then ret (error 400
              "Clerk ID and at least one field (role or locations) are required")
  else if negb (falsy role)
          && negb (includes privileged_roles (or_default role EmptyString))
  then ret (error 400 "Invalid role specified")
  else
    updated <- clerk_updateUserMetadata (metadata_fault env) id
                                        (when_truthy role) locations ;;
    match updated with
    | Some e =>
        console_error "Clerk user update error:" (message e) ;;;
        ret (error 400 ("Failed to update user in Clerk: "
                        ++ message e)%string)
    | None =>
        written <- users_update_fields (update_fault env) id
                                       (when_truthy role) locations ;;
        match written with
        | Some supabaseError =>
            console_error "Supabase user update error:" supabaseError ;;;
            ret (error 500 ("Failed to update user in database: "
                            ++ supabaseError)%string)
        | None => ret (mkReply 200 (Message "User updated successfully"))
        end
    end.

(** The branch [action === 'delete-user']. *)
Definition delete_user (env : Env) (r : Request) : Handler Reply :=
  let id := or_default (clerkId r) EmptyString in
  if falsy (clerkId r) then ret (error 400 "Clerk ID is required")
  else
    deleted <- clerk_deleteUser (clerk_delete_fault env) id ;;
    match deleted with
    | Some e =>
        console_error "Clerk user deletion error:" (message e) ;;;
        ret (error 400 ("Failed to delete user from Clerk: "
                        ++ message e)%string)
    | None =>
        removed <- users_delete (db_delete_fault env) id ;;
        match removed with
        | Some supabaseError =>
            console_error "Supabase user deletion error:" supabaseError ;;;
            ret (error 500 ("Failed to delete user from database: "
                            ++ supabaseError)%string)
        | None => ret (mkReply 200 (Message "User deleted successfully"))
        end
    end.

(** [create-user/index.ts]: the preflight answer, the dispatch on
    [body?.action || 'create-user'] and the outer [catch]. *)
Definition serve (env : Env) (r : Request) : Handler Reply :=
  if method r =? "OPTIONS" then ret (mkReply 200 (Text "ok"))
  else
    try_catch
      (let act := or_default (action r) "create-user" in
       if act =? "create-user" then
         resp <- create_user (create_env env) (fields r) ;;
         ret (mkReply (status resp) (Plain (body resp)))
       else if act =? "update-user" then update_user env r
       else if act =? "delete-user" then delete_user env r
       else ret (error 400 "Invalid action"))
      (fun e =>
         console_error "Unexpected error:" (message e) ;;;
         ret (error 500 "Internal server error")).

End Gateway.

(* ===================================================================== *)
(** ** The Express routes for updating and deleting a user *)
(* ===================================================================== *)

Module Express.

(** What the two stores answer to the calls of one request. *)
Record Env := mkEnv {
  select_fault : option string;
  metadata_fault : option Exn;
  write_fault : option string;
  clerk_delete_fault : option Exn
}.

(** [from('users').select('clerk_id').eq('id', userId).single()]. *)
Definition users_select_by_id (fault : option string) (userId : nat)
  : Handler (string + User.t) :=
  match fault with
  | Some e => ret (inl e)
  | None =>
      d <- get_db ;;
      match filter (fun u => (User.id u =? userId)%nat) (Db.users d) with
      | [user] => ret (inr user)
      | _ => ret (inl no_rows)
      end
  end.

(** [from('users').update({role, locations}).eq('id', userId)]; a key whose
    value is [undefined] is not sent. *)
Definition users_update_by_id (fault : option string) (userId : nat)
           (role : option string) (locations : option (list string))
  : Handler (option string) :=
  match fault with
  | Some e => ret (Some e)
  | None =>
      d <- get_db ;;
      put_db (Db.with_users
                (map (fun u => if (User.id u =? userId)%nat
                               then User.mk (User.id u) (User.clerk_id u)
                                            (User.name u)
                                            (Rls.or_keep role (User.role u))
                                            (Rls.or_keep locations
                                                         (User.locations u))
                               else u) (Db.users d))
                (Db.users_seq d) d) ;;;
      ret None
  end.

(** [from('users').delete().eq('id', userId)]. *)
Definition users_delete_by_id (fault : option string) (userId : nat)
  : Handler (option string) :=
  match fault with
  | Some e => ret (Some e)
  | None =>
      d <- get_db ;;
      put_db (Db.with_users
                (filter (fun u => negb (User.id u =? userId)%nat) (Db.users d))
                (Db.users_seq d) d) ;;;
      ret None
  end.

Definition not_found : Gateway.Reply :=
  Gateway.error 404 "User not found".

Definition internal_error (e : Exn) : Gateway.Reply :=
  Gateway.mkReply 500
    (Gateway.Plain (ErrorDetails "Internal server error" (message e))).

(** [PATCH /api/users/:userId] with the body [{role, locations}]. *)
Definition patch_user (env : Env) (userId : nat) (role : option string)
           (locations : option (list string)) : Handler Gateway.Reply :=
  try_catch
    (found <- users_select_by_id (select_fault env) userId ;;
     match found with
     | inl _ => ret not_found
     | inr user =>
         let step3 :=
           written <- users_update_by_id (write_fault env) userId
                                         role locations ;;
           match written with
           | Some updateError =>
               ret (Gateway.mkReply 500
                      (Gateway.Plain
                         (ErrorDetails "Failed to update user in database"
                                       updateError)))
           | None =>
               ret (Gateway.mkReply 200
                      (Gateway.Message "User updated successfully"))
           end in
         if negb (falsy (Some (User.clerk_id user))) then
           updated <- clerk_updateUserMetadata
                        (metadata_fault env) (User.clerk_id user)
                        role (Some (or_empty locations)) ;;
           match updated with
           | Some clerkError =>
               console_error "Failed to update Clerk metadata:"
                             (message clerkError) ;;;
               ret (Gateway.mkReply 500
                      (Gateway.Plain
                         (ErrorDetails
                            "Failed to update user metadata in Clerk"
                            (message clerkError))))
           | None => step3
           end
         else step3
     end)
    (fun e =>
       console_error "Error updating user:" (message e) ;;;
       ret (internal_error e)).

(** [DELETE /api/users/:userId]. A failure of Clerk is logged and the row
    is deleted all the same. *)
Definition delete_user (env : Env) (userId : nat) : Handler Gateway.Reply :=
  try_catch
    (found <- users_select_by_id (select_fault env) userId ;;
     match found with
     | inl _ => ret not_found
     | inr user =>
         (if negb (falsy (Some (User.clerk_id user))) then
            deleted <- clerk_deleteUser (clerk_delete_fault env)
                                        (User.clerk_id user) ;;
            match deleted with
            | Some clerkError =>
                console_error "Failed to delete from Clerk:"
                              (message clerkError)
            | None => ret tt
            end
          else ret tt) ;;;
         removed <- users_delete_by_id (write_fault env) userId ;;
         match removed with
         | Some deleteError =>
             ret (Gateway.mkReply 500
                    (Gateway.Plain
                       (ErrorDetails "Failed to delete user from database"
                                     deleteError)))
         | None =>
             ret (Gateway.mkReply 200
                    (Gateway.Message "User deleted successfully"))
         end
     end)
    (fun e =>
       console_error "Error deleting user:" (message e) ;;;
       ret (internal_error e)).

End Express.

(* ===================================================================== *)
(** ** Notions used in the further statements *)
(* ===================================================================== *)

(** The identity [id] of the store. *)
Definition identity_of (id : string) (c : Clerk.t) : option Clerk.Identity :=
  find (Clerk.has_id id) (Clerk.identities c).

(** An identity after [updateUserMetadata] has reached the id [id]. *)
Definition identity_update (id : string) (role : option string)
           (locations : option (list string)) (x : Clerk.Identity)
  : Clerk.Identity :=
  if Clerk.has_id id x
  then Clerk.mkIdentity (Clerk.id x) (Clerk.username x) (Clerk.password x)
                        (Rls.or_keep role (Clerk.role x))
                        (Rls.or_keep locations (Clerk.locations x))
  else x.

(** A user row after an update of the keys given. *)
Definition row_update (role : option string)
           (locations : option (list string)) (u : User.t) : User.t :=
  User.mk (User.id u) (User.clerk_id u) (User.name u)
          (Rls.or_keep role (User.role u))
          (Rls.or_keep locations (User.locations u)).

(** The request does not reach the switch: the secret is not configured, a
    header is missing, or Svix refuses the signature. *)
Definition refused
           (verify : string -> string -> string -> string -> string
                     -> option Event.t)
           (env : WebhookEnv) (req : WebhookRequest) : bool :=
  falsy (CLERK_WEBHOOK_SECRET env)
  || falsy (svix_id req) || falsy (svix_timestamp req)
  || falsy (svix_signature req)
  || match verify (or_default (CLERK_WEBHOOK_SECRET env) EmptyString)
                  (raw_body req)
                  (or_default (svix_id req) EmptyString)
                  (or_default (svix_timestamp req) EmptyString)
                  (or_default (svix_signature req) EmptyString) with
     | Some _ => false
     | None => true
     end.

(** The warnings on a console. *)
Definition warnings (l : list LogEntry) : list LogEntry :=
  filter (fun e => match level e with LWarn => true | LError => false end) l.

(** Every row's id is below the sequence, and no id occurs twice. *)
Definition stock_ids_fresh (d : Db.t) : Prop :=
  (forall s, In s (Db.stock d) -> Stock.id s < Db.stock_seq d)
  /\ NoDup (map Stock.id (Db.stock d)).

Module Sample.

(** An administrator beside the users of [Scenario.d0]. *)
Definition admin : User.t :=
  User.mk 7 "user_adm" "ani" SUPERADMIN_ROLE [].

Definition d1 : Db.t :=
  Db.mk [admin; Scenario.manager_by_name; Scenario.newcomer] 8
        [Scenario.jakarta; Scenario.old_depo]
        [Scenario.jakarta_rice; Scenario.old_depo_rice] 3.

(** First sign-in of an identity the table does not know. *)
Definition self_registration : Access.NewUser :=
  Access.mkNewUser "user_sri" (Some "sri") NO_ROLE None.

(** The stores after the gateway has created [john_doe]. *)
Definition w_john : World :=
  mkWorld (Clerk.mk [Scenario.john_identity] 1)
          (Db.mk [User.mk 0 "user_0" "john_doe" SALES_MANAGER_ROLE
                          ["Jakarta"; "Surabaya"]] 1 [] [] 0)
          [] [].

Definition gateway_ok : Gateway.Env :=
  Gateway.mkEnv Scenario.all_fine None None None None.

Definition update_john : Gateway.Request :=
  Gateway.mkRequest "POST" (Some "update-user") (Some "user_0")
                    (mkCreateBody None None (Some SALES_SUPERVISOR_ROLE)
                                  (Some ["Bandung"])).

Definition delete_john : Gateway.Request :=
  Gateway.mkRequest "POST" (Some "delete-user") (Some "user_0")
                    (mkCreateBody None None None None).

Definition delete_ghost : Gateway.Request :=
  Gateway.mkRequest "POST" (Some "delete-user") (Some "user_ghost")
                    (mkCreateBody None None None None).

Definition create_john : Gateway.Request :=
  Gateway.mkRequest "POST" None None Scenario.good_body.

Definition express_ok : Express.Env := Express.mkEnv None None None None.

Definition express_clerk_down : Express.Env :=
  Express.mkEnv None None None (Some (mkExn "Service Unavailable" false)).

Definition updated_u1 : Event.t :=
  Event.mk "user.updated"
    (Event.mkData "u1" (Some "ursula")
                  (Some (Event.mkMetadata (Some BOD_ROLE) (Some ["Medan"])))
                  None None).

Definition deleted_u1 : Event.t :=
  Event.mk "user.deleted" (Event.mkData "u1" None None None None).

Definition w_ursula : World :=
  mkWorld (Clerk.mk [] 0) (Db.mk [Scenario.ursula] 1 [] [] 0) [] [].

Definition bad_signature : WebhookRequest :=
  mkWebhookRequest (Some "msg_1") (Some "1700000000") (Some "v1,forged")
                   "{}".

(** The stock of [Scenario.w_stock] with the sales manager by name. *)
Definition w_stock_mgr : World :=
  mkWorld (Clerk.mk [] 0)
          (Db.mk [Scenario.manager_by_name] 3
                 [Scenario.jakarta; Scenario.old_depo]
                 [Scenario.raw_row; Scenario.finished_row; Scenario.rice_row]
                 4)
          [] [].

(** The newcomer changes their display name. *)
Definition rename : Rls.Patch :=
  Rls.mkPatch None (Some "nadia k") None None.

(** The newcomer names the administrative role and nothing else. *)
Definition grab : Rls.Patch :=
  Rls.mkPatch None None (Some SUPERADMIN_ROLE) None.

(** The users of [d1], the newcomer's row first. *)
Definition d_newcomer_first : Db.t :=
  Db.mk [Scenario.newcomer; Scenario.manager_by_name; admin] 8
        [Scenario.jakarta; Scenario.old_depo]
        [Scenario.jakarta_rice; Scenario.old_depo_rice] 3.

End Sample.

(* ===================================================================== *)
(** ** Facts about the primitives *)
(* ===================================================================== *)

Lemma includes_In xs x : includes xs x = true <-> In x xs.
Proof.
  unfold includes. rewrite existsb_exists. split.
  - intros [y [Hy Heq]]. apply String.eqb_eq in Heq. now subst.
  - intros H. exists x. split; [assumption | apply String.eqb_refl].
Qed.

Lemma includes_false xs x : includes xs x = false <-> ~ In x xs.
Proof.
  rewrite <- includes_In. destruct (includes xs x); split; intros H;
    try reflexivity; try discriminate; try (intros H'; discriminate).
  exfalso. now apply H.
Qed.

Lemma eqb_true_r (b : bool) : Bool.eqb b true = b.
Proof. now destruct b. Qed.

(* ===================================================================== *)
(** ** Stock visibility *)
(* ===================================================================== *)

Lemma location_assigned_iff d sub s :
  Rls.location_assigned d sub s = true <->
  exists u, In u (Db.users d) /\ User.clerk_id u = sub
            /\ In (Stock.location s) (User.locations u).
Proof.
  unfold Rls.location_assigned, Rls.visible_users.
  rewrite existsb_exists. split.
  - intros [u [Hu Hc]]. apply filter_In in Hu as [Hu _].
    apply andb_true_iff in Hc as [Hid Hloc].
    apply String.eqb_eq in Hid. apply includes_In in Hloc. eauto.
  - intros [u [Hu [Hid Hloc]]]. exists u. split.
    + apply filter_In. split; [assumption |].
      unfold Rls.users_select. subst sub. now rewrite String.eqb_refl.
    + apply andb_true_iff. split.
      * now apply String.eqb_eq.
      * now apply includes_In.
Qed.

Lemma location_active_iff d sub s :
  Rls.location_active d sub s = true <->
  exists ml, In ml (Db.master_locations d)
             /\ Location.id ml = Stock.m_location_id s
             /\ Location.is_active ml = true.
Proof.
  unfold Rls.location_active, Rls.visible_locations.
  rewrite existsb_exists. split.
  - intros [ml [Hml Hc]]. apply filter_In in Hml as [Hml _].
    apply andb_true_iff in Hc as [Hid Hact].
    apply Z.eqb_eq in Hid. rewrite eqb_true_r in Hact. eauto.
  - intros [ml [Hml [Hid Hact]]]. exists ml. split.
    + apply filter_In. split; [assumption |].
      unfold Rls.locations_select. now rewrite Hact.
    + rewrite Hact, Hid, Z.eqb_refl. reflexivity.
Qed.

Lemma stock_row_visible_iff d sub s :
  let R := Rls.get_current_user_role d sub in
  Rls.stock_row_visible d sub s = true <->
  (R = SUPERADMIN_ROLE \/ R = BOD_ROLE \/ R = AUDITOR_ROLE \/
   ((R = SALES_MANAGER_ROLE \/ R = SALES_SUPERVISOR_ROLE)
    /\ Rls.location_assigned d sub s = true
    /\ Rls.location_active d sub s = true)).
Proof.
  intros R. unfold Rls.stock_row_visible, Rls.stock_select_policies.
  cbn [existsb].
  unfold Rls.superadmin_can_view_all_stock, Rls.bod_can_view_all_stock,
    Rls.sales_managers_can_view_assigned,
    Rls.sales_supervisors_can_view_assigned,
    Rls.auditors_can_view_all_stock, Rls.superadmin_can_manage_stock.
  fold R.
  rewrite !orb_true_iff, !andb_true_iff, !String.eqb_eq.
  intuition congruence.
Qed.

(** What the policies of [stock] return: a stock row is returned to a
    caller exactly when the caller's role is the administrative, executive
    or auditor role, or the caller's role is one of the two sales roles,
    the row's location name is itself an entry of the [locations] of a
    user row of the caller, and an active location carries the id the row
    refers to. *)
Theorem stock_select_visibility (d : Db.t) (sub : string) (s : Stock.t) :
  let R := Rls.get_current_user_role d sub in
  In s (Rls.select_stock d sub) <->
  In s (Db.stock d) /\
  (R = SUPERADMIN_ROLE \/ R = BOD_ROLE \/ R = AUDITOR_ROLE \/
   ((R = SALES_MANAGER_ROLE \/ R = SALES_SUPERVISOR_ROLE)
    /\ (exists u, In u (Db.users d) /\ User.clerk_id u = sub
                  /\ In (Stock.location s) (User.locations u))
    /\ (exists ml, In ml (Db.master_locations d)
                   /\ Location.id ml = Stock.m_location_id s
                   /\ Location.is_active ml = true))).
Proof.
  intros R. unfold Rls.select_stock. rewrite filter_In.
  rewrite (stock_row_visible_iff d sub s).
  rewrite location_assigned_iff, location_active_iff.
  fold R. tauto.
Qed.

(** C1 fails on the policies for the users the dashboard writes. The
    dashboard stores location ids in [locations] and resolves them to
    names when it filters stock for a sales role; the policy compares the
    row's location name with the stored entries themselves. The sales
    manager assigned the active Jakarta by its id, whose resolved names
    hold Jakarta, is returned no stock row at all. *)
Theorem assigned_manager_is_shown_no_stock :
  let d := Scenario.d_assigned in
  Rls.get_current_user_role d "user_mgr" = SALES_MANAGER_ROLE
  /\ Spec.assigned d "user_mgr" = ["1"; "2"]
  /\ Spec.resolved_names d ["1"; "2"] = ["Jakarta"; "OldDepo"]
  /\ Spec.referenced_active d Scenario.jakarta_rice = true
  /\ Spec.stock_visible d "user_mgr" Scenario.jakarta_rice = true
  /\ In Scenario.jakarta_rice (Db.stock d)
  /\ Rls.location_assigned d "user_mgr" Scenario.jakarta_rice = false
  /\ Rls.stock_row_visible d "user_mgr" Scenario.jakarta_rice = false
  /\ Rls.select_stock d "user_mgr" = [].
Proof. repeat split; try reflexivity. left. reflexivity. Qed.

(** With names in [locations], a sales manager is shown the stock of the
    active Jakarta and not that of the inactive depot. *)
Example manager_by_name_sees_jakarta_only :
  Rls.select_stock Scenario.d0 "user_mgr2" = [Scenario.jakarta_rice].
Proof. reflexivity. Qed.

(* ===================================================================== *)
(** ** Updates of one's own user row *)
(* ===================================================================== *)

(** C2 fails on the policy: the [WITH CHECK] of "Users update own or
    SUPERADMIN updates any" compares only [clerk_id], so the unprivileged
    newcomer's update of their own row to the administrative role, with a
    new location list, is accepted and stored. *)
Theorem self_escalation_is_accepted :
  Rls.get_current_user_role Scenario.d0 "user_new" = NO_ROLE
  /\ Rls.update_users Scenario.d0 "user_new" (has_clerk_id "user_new")
                      Scenario.escalate
     = inr (Db.with_users
              [Scenario.manager_by_id; Scenario.manager_by_name;
               Scenario.newcomer_escalated] 4 Scenario.d0).
Proof. split; reflexivity. Qed.

(** The check would pass as well if the role were read after the update. *)
Example self_escalation_check_after_update :
  Rls.users_update_check
    (Db.with_users [Scenario.manager_by_id; Scenario.manager_by_name;
                    Scenario.newcomer_escalated] 4 Scenario.d0)
    "user_new" Scenario.newcomer_escalated = true.
Proof. reflexivity. Qed.

(** Whatever the payload, a non-administrative caller's update of their own
    row passes the check as long as it keeps [clerk_id]. *)
Lemma own_update_passes_check d sub u p :
  Rls.get_current_user_role d sub <> SUPERADMIN_ROLE ->
  User.clerk_id u = sub ->
  Rls.set_clerk_id p = None ->
  Rls.users_update_check d sub (Rls.apply_patch p u) = true.
Proof.
  intros Hrole Hid Hp. unfold Rls.users_update_check.
  destruct (Rls.get_current_user_role d sub =? SUPERADMIN_ROLE);
    [reflexivity |].
  unfold Rls.apply_patch. cbn. rewrite Hp. cbn. subst sub.
  apply String.eqb_refl.
Qed.

(* ===================================================================== *)
(** ** The gateway: validation *)
(* ===================================================================== *)

Lemma falsy_false_or_default x :
  falsy x = false -> x = Some (or_default x EmptyString).
Proof.
  destruct x as [s |]; cbn; [| discriminate].
  destruct s; [discriminate | reflexivity].
Qed.

Lemma serve_create_user_ret env b r w :
  create_user env b w = (inr r, w) ->
  run (serve_create_user env b) w = (r, w).
Proof.
  intros H. unfold run, serve_create_user, try_catch. now rewrite H.
Qed.

(** C7: a create request whose password has fewer than eight characters is
    answered 400 with a validation message, and neither the identity
    store nor the database is called or changed. *)
Theorem short_password_rejected (env : GatewayEnv) (b : CreateBody)
        (p : string) (w : World) :
  req_password b = Some p ->
  String.length p < 8 ->
  let r := fst (run (serve_create_user env b) w) in
  let w' := snd (run (serve_create_user env b) w) in
  status r = 400
  /\ (body r = ErrorBody "Username, password, and role are required"
      \/ body r = ErrorBody "Password must be at least 8 characters long")
  /\ calls w' = calls w
  /\ clerk w' = clerk w
  /\ db w' = db w.
Proof.
  intros Hp Hlen. cbv zeta.
  destruct (falsy (req_username b) || falsy (req_password b)
            || falsy (req_role b)) eqn:Hreq.
  - rewrite (serve_create_user_ret env b
               (r := mkResponse 400
                       (ErrorBody "Username, password, and role are required"))).
    + cbn. auto.
    + unfold create_user. now rewrite Hreq.
  - rewrite (serve_create_user_ret env b
               (r := mkResponse 400
                       (ErrorBody "Password must be at least 8 characters long"))).
    + cbn. auto.
    + unfold create_user. rewrite Hreq.
      apply orb_false_iff in Hreq as [Hreq _].
      apply orb_false_iff in Hreq as [_ Hpw].
      apply falsy_false_or_default in Hpw.
      assert (Hq : or_default (req_password b) EmptyString = p) by congruence.
      rewrite Hq. apply Nat.ltb_lt in Hlen. now rewrite Hlen.
Qed.

(** Scenario C. *)
Lemma short_password_rejected_witness :
  status (fst (run (serve_create_user Scenario.all_fine Scenario.short_body)
                   Scenario.w0)) = 400
  /\ snd (run (serve_create_user Scenario.all_fine Scenario.short_body)
              Scenario.w0) = Scenario.w0.
Proof.
  destruct (short_password_rejected Scenario.all_fine Scenario.short_body
              (p := "short") Scenario.w0) as [Hs _].
  - reflexivity.
  - cbn. lia.
  - split; [exact Hs | reflexivity].
Defined.

(** The role check of the edge function: a create request whose role is not
    one of the five privileged role names, ['NO_ROLE'] included, is
    answered 400 with a validation message, and neither the identity store
    nor the database is called or changed. *)
Theorem unprivileged_role_rejected (env : GatewayEnv) (b : CreateBody)
        (r : string) (w : World) :
  req_role b = Some r ->
  ~ In r privileged_roles ->
  let resp := fst (run (serve_create_user env b) w) in
  let w' := snd (run (serve_create_user env b) w) in
  status resp = 400
  /\ (exists msg, body resp = ErrorBody msg)
  /\ calls w' = calls w
  /\ clerk w' = clerk w
  /\ db w' = db w.
Proof.
  intros Hr Hnot. cbv zeta.
  assert (Hgoal : exists msg,
             create_user env b w = (inr (mkResponse 400 (ErrorBody msg)), w)).
  { unfold create_user.
    destruct (falsy (req_username b) || falsy (req_password b)
              || falsy (req_role b)) eqn:Hreq; [eexists; reflexivity |].
    destruct (String.length (or_default (req_password b) EmptyString) <? 8)%nat;
      [eexists; reflexivity |].
    apply orb_false_iff in Hreq as [_ Hrole].
    apply falsy_false_or_default in Hrole.
    assert (Hq : or_default (req_role b) EmptyString = r) by congruence.
    rewrite Hq. apply includes_false in Hnot. rewrite Hnot.
    eexists; reflexivity. }
  destruct Hgoal as [msg Hgoal].
  rewrite (serve_create_user_ret env b Hgoal). cbn.
  repeat split; eauto.
Qed.

Lemma unprivileged_role_rejected_witness :
  status (fst (run (serve_create_user Scenario.all_fine Scenario.no_role_body)
                   Scenario.w0)) = 400
  /\ snd (run (serve_create_user Scenario.all_fine Scenario.no_role_body)
              Scenario.w0) = Scenario.w0.
Proof.
  destruct (unprivileged_role_rejected Scenario.all_fine Scenario.no_role_body
              (r := NO_ROLE) Scenario.w0) as [Hs _].
  - reflexivity.
  - cbn. intros H. repeat (destruct H as [H | H]; [discriminate |]). exact H.
  - split; [exact Hs | reflexivity].
Defined.

(** C8 fails on the Express route: [POST /api/users/create] has the
    required-fields check and the password check of the edge function but
    not its role check. A create request with role ['NO_ROLE'] is answered
    201, and an identity and a user row with that role are created. *)
Example express_route_accepts_no_role :
  let out := run (api_users_create Scenario.all_fine Scenario.no_role_body)
                 Scenario.w0 in
  fst out = mkResponse 201 (CreatedUser 0 "user_0" "john_doe" NO_ROLE [])
  /\ Clerk.identities (clerk (snd out))
     = [Clerk.mkIdentity "user_0" "john_doe" "SecurePassword123" NO_ROLE []]
  /\ Db.users (db (snd out)) = [User.mk 0 "user_0" "john_doe" NO_ROLE []]
  /\ calls (snd out) = [ClerkCreateUser "john_doe"; UsersInsert "user_0"].
Proof. repeat split; reflexivity. Qed.

(* ===================================================================== *)
(** ** The gateway: compensation *)
(* ===================================================================== *)

Ltac step_handler :=
  cbv [run try_catch bind ret throw issue console_error console_warn
       get_db put_db get_clerk put_clerk
       clerk_createUser clerk_deleteUser users_insert users_update
       users_delete rollback];
  cbv beta iota zeta;
  cbn [clerk db console calls fst snd
       Clerk.identities Clerk.next_id Clerk.id
       Db.users Db.users_seq Db.with_users].

Lemma valid_create_checks b :
  valid_create b = true ->
  (falsy (req_username b) || falsy (req_password b) || falsy (req_role b))
  = false
  /\ (String.length (or_default (req_password b) EmptyString) <? 8)%nat = false
  /\ includes privileged_roles (or_default (req_role b) EmptyString) = true.
Proof.
  unfold valid_create. rewrite !andb_true_iff, !negb_true_iff. tauto.
Qed.

Lemma valid_create_express_of_valid b :
  valid_create b = true -> valid_create_express b = true.
Proof.
  unfold valid_create, valid_create_express.
  rewrite !andb_true_iff. tauto.
Qed.

Lemma new_identity_is_found (l : list Clerk.Identity) (i : Clerk.Identity)
      (id : string) :
  Clerk.id i = id ->
  existsb (Clerk.has_id id) (l ++ [i]) = true.
Proof.
  intros <-. rewrite existsb_app. cbn. unfold Clerk.has_id at 2.
  rewrite String.eqb_refl. now rewrite orb_true_r.
Qed.

Lemma new_identity_is_removed (l : list Clerk.Identity) (i : Clerk.Identity)
      (id : string) :
  Clerk.id i = id ->
  filter (fun x => negb (Clerk.has_id id x)) (l ++ [i])
  = filter (fun x => negb (Clerk.has_id id x)) l.
Proof.
  intros <-. rewrite filter_app. cbn. unfold Clerk.has_id at 2.
  rewrite String.eqb_refl. cbn. apply app_nil_r.
Qed.

Ltac finish_compensation :=
  repeat match goal with
         | |- _ /\ _ => split
         | |- exists _, _ => eexists
         | |- In _ (_ ++ [_]) => apply in_or_app; right; left; reflexivity
         | |- _ = _ => rewrite <- ?app_assoc; reflexivity
         end.

Lemma edge_function_compensates env b w :
  valid_create b = true ->
  Compensates serve_create_user edge_clerk_failure edge_insert_failure
              env b w.
Proof.
  intros Hv. apply valid_create_checks in Hv as [Hreq [Hlen Hrole]].
  unfold Compensates, serve_create_user, create_user.
  rewrite Hreq, Hlen, Hrole. cbv [negb].
  destruct env as [cf inf df]. cbn [createUser_fault insert_fault
                                    deleteUser_fault].
  destruct cf as [e |].
  - step_handler. repeat split; reflexivity.
  - intros dbError Hins. unfold insert_error, next_identity_id in *.
    destruct inf as [e |];
      [injection Hins as <- |
       destruct (existsb _ (Db.users (db w))) eqn:Hex;
       [injection Hins as <- | discriminate]];
      destruct df as [rb |]; step_handler;
      try rewrite Hex; step_handler;
      try (erewrite new_identity_is_found by reflexivity); step_handler;
      try (erewrite new_identity_is_removed by reflexivity);
      finish_compensation.
Qed.

Lemma express_route_compensates env b w :
  valid_create_express b = true ->
  Compensates api_users_create express_clerk_failure express_insert_failure
              env b w.
Proof.
  intros Hv. unfold valid_create_express in Hv.
  apply andb_true_iff in Hv as [Hreq Hlen].
  apply negb_true_iff in Hreq, Hlen.
  unfold Compensates, api_users_create, api_users_create_body.
  rewrite Hreq, Hlen.
  destruct env as [cf inf df]. cbn [createUser_fault insert_fault
                                    deleteUser_fault].
  destruct cf as [e |].
  - step_handler. unfold express_clerk_failure.
    destruct (errors e); step_handler; finish_compensation.
  - intros dbError Hins. unfold insert_error, next_identity_id in *.
    destruct inf as [e |];
      [injection Hins as <- |
       destruct (existsb _ (Db.users (db w))) eqn:Hex;
       [injection Hins as <- | discriminate]];
      destruct df as [rb |]; step_handler;
      try rewrite Hex; step_handler;
      try (erewrite new_identity_is_found by reflexivity); step_handler;
      try (erewrite new_identity_is_removed by reflexivity);
      finish_compensation.
Qed.

(** C4, as the two create paths have it: when Clerk refuses the identity,
    no insert is attempted and neither store changes; when the identity is
    created and the insert of the user row fails, the handler issues the
    compensating delete of that identity and reports the database error
    with status 500, the database being left as it was. No identity with
    the new id remains when that delete succeeds; when the delete itself
    fails, the failure is logged and the identity stays. *)
Theorem create_user_compensation (env : GatewayEnv) (b : CreateBody)
        (w : World) :
  valid_create b = true ->
  Compensates serve_create_user edge_clerk_failure edge_insert_failure
              env b w
  /\ Compensates api_users_create express_clerk_failure
                 express_insert_failure env b w.
Proof.
  intros Hv. split.
  - now apply edge_function_compensates.
  - apply express_route_compensates. now apply valid_create_express_of_valid.
Qed.

(** The forced failure of the insert, with a rollback that succeeds: the
    three calls are issued, the answer is the database error, and no
    identity is left. *)
Lemma create_user_compensation_witness :
  valid_create Scenario.good_body = true
  /\ fst (run (serve_create_user Scenario.insert_fails Scenario.good_body)
              Scenario.w0)
     = mkResponse 500
         (ErrorBody "Failed to create user in database: connection refused")
  /\ Clerk.identities
       (clerk (snd (run (serve_create_user Scenario.insert_fails
                                           Scenario.good_body) Scenario.w0)))
     = [].
Proof.
  split; [reflexivity |].
  destruct (create_user_compensation Scenario.insert_fails Scenario.good_body
              Scenario.w0 eq_refl) as [Hedge _].
  destruct (Hedge "connection refused" eq_refl) as [Hr [_ [_ Hid]]].
  split; [exact Hr | exact Hid].
Defined.

(** C4 as it is worded fails when the rollback fails: the identity is
    created, the insert is refused, Clerk refuses the compensating delete,
    and the identity is left behind with no user row. *)
Lemma residual_identity_when_rollback_fails :
  let out := run (serve_create_user Scenario.rollback_fails Scenario.good_body)
                 Scenario.w0 in
  status (fst out) = 500
  /\ Clerk.identities (clerk (snd out)) = [Scenario.john_identity]
  /\ Db.users (db (snd out)) = []
  /\ calls (snd out) = [ClerkCreateUser "john_doe"; UsersInsert "user_0";
                        ClerkDeleteUser "user_0"].
Proof. repeat split; reflexivity. Qed.

(* ===================================================================== *)
(** ** The webhook receiver *)
(* ===================================================================== *)

(** The effect of a [user.created] event whose insert fails. *)
Lemma created_insert_fails fault evt w e :
  Event.type evt = "user.created" ->
  insert_error fault (db w) (Event.id (Event.data evt)) = Some e ->
  apply_event fault evt w
  = (inr tt,
     mkWorld (clerk w) (db w)
             (console w ++ [mkLog LError "Error creating user in Supabase:" e])
             (calls w ++ [UsersInsert (Event.id (Event.data evt))])).
Proof.
  intros Ht He. unfold apply_event. rewrite Ht. cbn [String.eqb Ascii.eqb Bool.eqb].
  unfold insert_error in He.
  destruct fault as [f |];
    [injection He as <- |
     destruct (existsb _ (Db.users (db w))) eqn:Hex;
     [injection He as <- | discriminate]];
    step_handler; try rewrite Hex; reflexivity.
Qed.

(** The effect of a [user.created] event whose insert is accepted. *)
Lemma created_insert_accepted evt w :
  Event.type evt = "user.created" ->
  insert_error None (db w) (Event.id (Event.data evt)) = None ->
  let d := Event.data evt in
  apply_event None evt w
  = (inr tt,
     mkWorld (clerk w)
             (Db.with_users
                (Db.users (db w)
                 ++ [User.mk (Db.users_seq (db w)) (Event.id d) (event_name d)
                             (event_role d) (event_locations d)])
                (S (Db.users_seq (db w))) (db w))
             (console w)
             (calls w ++ [UsersInsert (Event.id d)])).
Proof.
  intros Ht He. unfold apply_event. rewrite Ht. cbn [String.eqb Ascii.eqb Bool.eqb].
  unfold insert_error in He.
  destruct (existsb _ (Db.users (db w))) eqn:Hex; [discriminate |].
  step_handler. rewrite Hex. reflexivity.
Qed.

(** The effect of a [user.updated] event. *)
Lemma updated_effect fault evt w :
  Event.type evt = "user.updated" ->
  let d := Event.data evt in
  apply_event fault evt w
  = (inr tt,
     match fault with
     | Some e =>
         mkWorld (clerk w) (db w)
                 (console w
                  ++ [mkLog LError "Error updating user in Supabase:" e])
                 (calls w ++ [UsersUpdate (Event.id d)])
     | None =>
         mkWorld (clerk w)
                 (Db.with_users
                    (map (fun u => if has_clerk_id (Event.id d) u
                                   then User.mk (User.id u) (User.clerk_id u)
                                                (event_name d) (event_role d)
                                                (event_locations d)
                                   else u) (Db.users (db w)))
                    (Db.users_seq (db w)) (db w))
                 (console w)
                 (calls w ++ [UsersUpdate (Event.id d)])
     end).
Proof.
  intros Ht. unfold apply_event. rewrite Ht. cbn [String.eqb Ascii.eqb Bool.eqb].
  destruct fault; step_handler; reflexivity.
Qed.

(** The effect of a [user.deleted] event. *)
Lemma deleted_effect fault evt w :
  Event.type evt = "user.deleted" ->
  let d := Event.data evt in
  apply_event fault evt w
  = (inr tt,
     match fault with
     | Some e =>
         mkWorld (clerk w) (db w)
                 (console w
                  ++ [mkLog LError "Error deleting user from Supabase:" e])
                 (calls w ++ [UsersDelete (Event.id d)])
     | None =>
         mkWorld (clerk w)
                 (Db.with_users
                    (filter (fun u => negb (has_clerk_id (Event.id d) u))
                            (Db.users (db w)))
                    (Db.users_seq (db w)) (db w))
                 (console w)
                 (calls w ++ [UsersDelete (Event.id d)])
     end).
Proof.
  intros Ht. unfold apply_event. rewrite Ht. cbn [String.eqb Ascii.eqb Bool.eqb].
  destruct fault; step_handler; reflexivity.
Qed.

(** No write of the switch throws. *)
Lemma apply_event_returns fault evt w :
  fst (apply_event fault evt w) = inr tt.
Proof.
  unfold apply_event.
  destruct (Event.type evt =? "user.created");
    [| destruct (Event.type evt =? "user.updated");
       [| destruct (Event.type evt =? "user.deleted")]];
    destruct fault; step_handler; try reflexivity.
  destruct (existsb _ _); reflexivity.
Qed.

(** A verified request is answered 200 after the switch has run. *)
Lemma webhooks_clerk_verified verify env req evt w :
  verified verify env req evt ->
  run (webhooks_clerk verify env req) w
  = (mkResponse 200 SuccessBody, snd (apply_event (write_fault env) evt w)).
Proof.
  intros [Hs [Hi [Ht [Hg Hv]]]].
  unfold webhooks_clerk, webhooks_clerk_body.
  rewrite Hs, Hi, Ht, Hg, Hv. cbn [orb].
  unfold run, try_catch, bind.
  pose proof (apply_event_returns (write_fault env) evt w) as Hret.
  destruct (apply_event (write_fault env) evt w) as [o w'].
  cbn in Hret. subst o. reflexivity.
Qed.

(** C6: a request that Svix verifies is answered 200 with
    [{success: true}], whatever its event type and whatever the database
    answers to the write; when the write of a created, updated or deleted
    event fails, the database is left as it was and the error is on the
    console. *)
Theorem webhook_acknowledges_despite_write_failure
        (verify : string -> string -> string -> string -> string
                  -> option Event.t)
        (env : WebhookEnv) (req : WebhookRequest) (evt : Event.t) (w : World) :
  verified verify env req evt ->
  let out := run (webhooks_clerk verify env req) w in
  fst out = mkResponse 200 SuccessBody
  /\ forall e, write_error (write_fault env) evt (db w) = Some e ->
               db (snd out) = db w
               /\ exists lbl, In (mkLog LError lbl e) (console (snd out)).
Proof.
  intros Hv. cbv zeta. rewrite (@webhooks_clerk_verified _ _ _ _ w Hv).
  split; [reflexivity |]. cbn [fst snd].
  intros e He. unfold write_error in He.
  destruct (Event.type evt =? "user.created") eqn:Hc.
  - apply String.eqb_eq in Hc.
    rewrite (@created_insert_fails _ _ _ _ Hc He). cbn.
    split; [reflexivity |]. eexists. apply in_or_app. right. now left.
  - destruct (Event.type evt =? "user.updated") eqn:Hu.
    + apply String.eqb_eq in Hu. cbn in He. rewrite (@updated_effect _ _ _ Hu), He. cbn.
      split; [reflexivity |]. eexists. apply in_or_app. right. now left.
    + destruct (Event.type evt =? "user.deleted") eqn:Hd; [| discriminate].
      apply String.eqb_eq in Hd. rewrite (@deleted_effect _ _ _ Hd).
      cbn in He. rewrite He. cbn.
      split; [reflexivity |]. eexists. apply in_or_app. right. now left.
Qed.

(** The database refuses the write of a verified [user.created]: the
    answer is still 200 and the refusal is logged. *)
Lemma webhook_acknowledges_witness :
  verified Scenario.verify Scenario.webhook_env_db_down
           Scenario.signed_request Scenario.created_u1
  /\ fst (run (webhooks_clerk Scenario.verify Scenario.webhook_env_db_down
                              Scenario.signed_request) Scenario.w0)
     = mkResponse 200 SuccessBody
  /\ exists lbl,
       In (mkLog LError lbl "connection refused")
          (console (snd (run (webhooks_clerk Scenario.verify
                                             Scenario.webhook_env_db_down
                                             Scenario.signed_request)
                             Scenario.w0))).
Proof.
  assert (Hv : verified Scenario.verify Scenario.webhook_env_db_down
                        Scenario.signed_request Scenario.created_u1)
    by (repeat split; reflexivity).
  split; [exact Hv |].
  destruct (@webhook_acknowledges_despite_write_failure _ _ _ _ Scenario.w0 Hv)
    as [Hr Hlog].
  split; [exact Hr |].
  destruct (Hlog "connection refused" eq_refl) as [_ Hin]. exact Hin.
Defined.

(** *** Redelivery of [user.created] *)

Lemma rows_of_nil_iff cid us :
  rows_of cid us = [] <-> existsb (has_clerk_id cid) us = false.
Proof.
  unfold rows_of. induction us as [| u us IH]; cbn; [tauto |].
  destruct (has_clerk_id cid u); cbn; [| exact IH].
  split; discriminate.
Qed.

Lemma rows_of_app cid us vs :
  rows_of cid (us ++ vs) = rows_of cid us ++ rows_of cid vs.
Proof. apply filter_app. Qed.

(** A [user.created] event for an identity that has a row already changes
    no row: the insert is refused and the refusal is logged. *)
Lemma created_on_existing_row fault evt w :
  Event.type evt = "user.created" ->
  rows_of (Event.id (Event.data evt)) (Db.users (db w)) <> [] ->
  apply_event fault evt w
  = (inr tt,
     mkWorld (clerk w) (db w)
             (console w
              ++ [mkLog LError "Error creating user in Supabase:"
                        (match fault with
                         | Some e => e
                         | None => unique_violation
                         end)])
             (calls w ++ [UsersInsert (Event.id (Event.data evt))])).
Proof.
  intros Ht Hrows. apply created_insert_fails; [assumption |].
  unfold insert_error. destruct fault; [reflexivity |].
  destruct (existsb _ _) eqn:Hex; [reflexivity |].
  apply rows_of_nil_iff in Hex. contradiction.
Qed.

(** The first [user.created] for an identity: its row is inserted, and it
    is the only row of that identity. *)
Lemma created_first_row evt w :
  Event.type evt = "user.created" ->
  rows_of (Event.id (Event.data evt)) (Db.users (db w)) = [] ->
  let d := Event.data evt in
  let w1 := snd (apply_event None evt w) in
  console w1 = console w
  /\ rows_of (Event.id d) (Db.users (db w1))
     = [User.mk (Db.users_seq (db w)) (Event.id d) (event_name d)
                (event_role d) (event_locations d)].
Proof.
  intros Ht Hrows. cbv zeta.
  assert (Hacc : insert_error None (db w) (Event.id (Event.data evt)) = None).
  { unfold insert_error. apply rows_of_nil_iff in Hrows. now rewrite Hrows. }
  rewrite (@created_insert_accepted _ _ Ht Hacc).
  cbn [snd db console Db.users Db.with_users].
  split; [reflexivity |].
  rewrite rows_of_app, Hrows.
  unfold rows_of. cbn. unfold has_clerk_id. cbn.
  now rewrite String.eqb_refl.
Qed.

(** C3, as the handler has it: when the directory holds no row for the
    identity and the store accepts the first insert, applying the same
    [user.created] event twice leaves exactly one row for that identity,
    the one the first application inserted. The second application is a
    failed insert, not an update: it leaves the database as it was and
    logs the refusal (the unique constraint on [clerk_id], or the failure
    of the call). *)
Theorem created_twice_single_row (evt : Event.t) (fault2 : option string)
        (w : World) :
  Event.type evt = "user.created" ->
  rows_of (Event.id (Event.data evt)) (Db.users (db w)) = [] ->
  let d := Event.data evt in
  let w1 := snd (apply_event None evt w) in
  let w2 := snd (apply_event fault2 evt w1) in
  rows_of (Event.id d) (Db.users (db w1))
  = [User.mk (Db.users_seq (db w)) (Event.id d) (event_name d)
             (event_role d) (event_locations d)]
  /\ db w2 = db w1
  /\ console w2
     = console w1
       ++ [mkLog LError "Error creating user in Supabase:"
                 (match fault2 with
                  | Some e => e
                  | None => unique_violation
                  end)].
Proof.
  intros Ht Hrows. cbv zeta.
  destruct (@created_first_row evt w Ht Hrows) as [_ Hone]. cbv zeta in Hone.
  split; [exact Hone |].
  rewrite created_on_existing_row.
  - cbn. split; reflexivity.
  - assumption.
  - rewrite Hone. discriminate.
Qed.

(** Scenario B: the auditor's [user.created] arrives twice. *)
Lemma created_twice_single_row_witness :
  rows_of "u1"
    (Db.users (db (snd (apply_event None Scenario.created_u1
                          (snd (apply_event None Scenario.created_u1
                                            Scenario.w0))))))
  = [Scenario.ursula].
Proof.
  destruct (@created_twice_single_row Scenario.created_u1 None Scenario.w0
              eq_refl eq_refl) as [Hone [Hsame _]].
  rewrite Hsame. exact Hone.
Defined.

(** C3 as it is worded fails: the second application of Scenario B's event
    is a failed insert, visible on the console; and a row that exists
    already is not updated from the event, here the administrator's row
    for [u2] when the event carries no metadata. *)
Lemma created_is_not_an_upsert :
  (let w1 := snd (apply_event None Scenario.created_u1 Scenario.w0) in
   let w2 := snd (apply_event None Scenario.created_u1 w1) in
   console w1 = []
   /\ console w2 = [mkLog LError "Error creating user in Supabase:"
                          unique_violation])
  /\ (let w' := snd (apply_event None Scenario.created_bare Scenario.w_bella) in
      event_role (Event.data Scenario.created_bare) = NO_ROLE
      /\ Db.users (db w') = [Scenario.bella_admin]).
Proof. repeat split; reflexivity. Qed.

(** *** Defaults for missing metadata *)

Lemma rows_of_updated cid name role locations us :
  rows_of cid
    (map (fun u => if has_clerk_id cid u
                   then User.mk (User.id u) (User.clerk_id u)
                                name role locations
                   else u) us)
  = map (fun u => User.mk (User.id u) (User.clerk_id u) name role locations)
        (rows_of cid us).
Proof.
  unfold rows_of. induction us as [| u us IH]; cbn; [reflexivity |].
  destruct (has_clerk_id cid u) eqn:Hu; cbn.
  - unfold has_clerk_id in *. cbn. rewrite Hu. cbn. now rewrite IH.
  - rewrite Hu. exact IH.
Qed.

(** C10, as the handler has it: the row values a created or updated event
    carries are ['NO_ROLE'] for a missing role and the empty list for
    missing locations, and they reach the directory when the write is
    applied, that is when the store accepts it and the event is a
    [user.created] for an identity without a row, or a [user.updated] for
    an identity with one. *)
Theorem missing_metadata_defaults (evt : Event.t) (w : World) :
  let d := Event.data evt in
  let w' := snd (apply_event None evt w) in
  (Event.type evt = "user.created"
   /\ rows_of (Event.id d) (Db.users (db w)) = [])
  \/ (Event.type evt = "user.updated"
      /\ rows_of (Event.id d) (Db.users (db w)) <> []) ->
  rows_of (Event.id d) (Db.users (db w')) <> []
  /\ forall u, In u (rows_of (Event.id d) (Db.users (db w'))) ->
               (metadata_role d = None -> User.role u = NO_ROLE)
               /\ (metadata_locations d = None -> User.locations u = []).
Proof.
  cbv zeta. intros [[Ht Hrows] | [Ht Hrows]].
  - destruct (@created_first_row evt w Ht Hrows) as [_ Hone].
    cbv zeta in Hone. rewrite Hone. split; [discriminate |].
    intros u [<- | []]. cbn. unfold event_role, event_locations.
    split; intros ->; reflexivity.
  - rewrite (@updated_effect None _ w Ht). cbn [snd db Db.users Db.with_users].
    rewrite rows_of_updated. split.
    + destruct (rows_of _ _); [contradiction | discriminate].
    + intros u Hu. apply in_map_iff in Hu as [v [<- _]]. cbn.
      unfold event_role, event_locations. split; intros ->; reflexivity.
Qed.

(** A [user.created] without metadata for an identity the directory does
    not know. *)
Lemma missing_metadata_defaults_witness :
  (Event.type Scenario.created_bare = "user.created"
   /\ rows_of "u2" (Db.users (db Scenario.w0)) = [])
  /\ forall u,
       In u (rows_of "u2"
               (Db.users (db (snd (apply_event None Scenario.created_bare
                                               Scenario.w0))))) ->
       User.role u = NO_ROLE /\ User.locations u = [].
Proof.
  split; [split; reflexivity |]. intros u Hu.
  destruct (@missing_metadata_defaults Scenario.created_bare Scenario.w0
              (or_introl (conj eq_refl eq_refl))) as [_ Hall].
  destruct (Hall u Hu) as [Hr Hl].
  split; [apply Hr | apply Hl]; reflexivity.
Defined.

(** C10 as it is worded fails three ways for an identity delivered without
    metadata: its [user.created] leaves an existing administrator's row as
    it is; its [user.updated] writes no row when the directory has none;
    and a write the store refuses leaves no row either. *)
Lemma bare_identity_not_always_unprivileged :
  metadata_role (Event.data Scenario.created_bare) = None
  /\ rows_of "u2" (Db.users (db (snd (apply_event None Scenario.created_bare
                                                  Scenario.w_bella))))
     = [Scenario.bella_admin]
  /\ rows_of "u2" (Db.users (db (snd (apply_event None Scenario.updated_bare
                                                  Scenario.w0))))
     = []
  /\ rows_of "u2" (Db.users (db (snd (apply_event (Some "connection refused")
                                                  Scenario.created_bare
                                                  Scenario.w0))))
     = [].
Proof. repeat split; reflexivity. Qed.

(* ===================================================================== *)
(** ** The stock refresh worker *)
(* ===================================================================== *)

Lemma locations_select_active_effect fault id w :
  locations_select_active fault id w
  = (inr (lookup_answer fault id (db w)),
     mkWorld (clerk w) (db w) (console w) (calls w ++ [LocationsSelect id])).
Proof.
  unfold locations_select_active, lookup_answer.
  destruct fault; step_handler; [reflexivity |].
  destruct (filter _ _) as [| l [| l' ls]]; reflexivity.
Qed.

(** The loop only reads: it leaves both stores as they were, appends to the
    console and to the calls, and what it returns depends on the database
    alone. *)
Lemma transform_effect env records :
  forall i acc (d : Db.t),
  exists recs cons cls,
    forallb is_read cls = true
    /\ forall w, db w = d ->
         transform env i records acc w
         = (inr (acc ++ recs),
            mkWorld (clerk w) (db w) (console w ++ cons) (calls w ++ cls)).
Proof.
  induction records as [| record rest IH]; intros i acc d.
  - exists [], [], []. split; [reflexivity |]. intros w _. cbn. unfold ret.
    rewrite !app_nil_r. destruct w; reflexivity.
  - destruct (lookup_answer (lookup_fault env i)
                            (Ref.id (FeedRecord.AD_Org_ID record)) d)
      as [e | locationData] eqn:Hlook.
    + destruct (IH (S i) acc d) as (recs & cons & cls & Hread & Hrun).
      exists recs,
        (mkLog LWarn
           ("Location ID not found in master_locations: "
            ++ toString (Ref.id (FeedRecord.AD_Org_ID record)) ++ " ("
            ++ Ref.identifier (FeedRecord.AD_Org_ID record) ++ ")")%string
           EmptyString :: cons),
        (LocationsSelect (Ref.id (FeedRecord.AD_Org_ID record)) :: cls).
      split.
      * cbn [forallb]. rewrite Hread. reflexivity.
      * intros w Hw. subst d. cbn [transform]. unfold bind at 1.
        rewrite locations_select_active_effect, Hlook.
        unfold bind, console_warn. cbn [fst snd].
        rewrite Hrun by reflexivity. cbn [clerk db console calls].
        rewrite <- !app_assoc. reflexivity.
    + destruct (IH (S i) (acc ++ [stockRecord locationData record]) d)
        as (recs & cons & cls & Hread & Hrun).
      exists (stockRecord locationData record :: recs), cons,
        (LocationsSelect (Ref.id (FeedRecord.AD_Org_ID record)) :: cls).
      split.
      * cbn [forallb]. rewrite Hread. reflexivity.
      * intros w Hw. subst d. cbn [transform]. unfold bind at 1.
        rewrite locations_select_active_effect, Hlook.
        rewrite Hrun by reflexivity. cbn [clerk db console calls].
        rewrite <- !app_assoc. reflexivity.
Qed.

Lemma accepted_records env w records :
  falsy (IDEMPIERE_API_KEY env) = false ->
  feed env = Records records ->
  exists cons cls,
    forallb is_read cls = true
    /\ forall w', db w' = db w ->
         transform env 0 records [] w'
         = (inr (accepted env w),
            mkWorld (clerk w') (db w') (console w' ++ cons)
                    (calls w' ++ cls)).
Proof.
  intros Hkey Hfeed.
  destruct (transform_effect env records 0 [] (db w))
    as (recs & cons & cls & Hread & Hrun).
  exists cons, cls. split; [assumption |]. intros w' Hw'.
  unfold accepted. rewrite Hkey, Hfeed, (Hrun w eq_refl). cbn [fst].
  now apply Hrun.
Qed.

(** A run that gets past the feed: what it answers and what it leaves,
    by the records it accepts and by what the database answers to the
    delete and to the insert. *)
Lemma sync_stock_run env w records :
  falsy (IDEMPIERE_API_KEY env) = false ->
  feed env = Records records ->
  exists cons cls,
    forallb is_read cls = true
    /\ run (sync_stock env) w
       = match accepted env w with
         | [] =>
             (mkResponse 500 (SyncFailed "No valid stock records to insert"),
              mkWorld (clerk w) (db w)
                (console w ++ cons
                 ++ [mkLog LError "Error synchronizing stock:"
                           "No valid stock records to insert"])
                (calls w ++ FeedFetch :: cls))
         | _ :: _ =>
             match delete_fault env with
             | Some e =>
                 (mkResponse 500
                    (SyncFailed ("Failed to delete existing stock records: "
                                 ++ e)%string),
                  mkWorld (clerk w) (db w)
                    (console w ++ cons
                     ++ [mkLog LError "Error synchronizing stock:"
                               ("Failed to delete existing stock records: "
                                ++ e)%string])
                    (calls w ++ FeedFetch :: cls
                     ++ [StockDelete refreshed_types]))
             | None =>
                 match sync_insert_fault env with
                 | Some e =>
                     (mkResponse 500
                        (SyncFailed ("Failed to insert stock records: "
                                     ++ e)%string),
                      mkWorld (clerk w)
                        (Db.with_stock
                           (filter other_type (Db.stock (db w)))
                           (Db.stock_seq (db w)) (db w))
                        (console w ++ cons
                         ++ [mkLog LError "Error synchronizing stock:"
                                   ("Failed to insert stock records: "
                                    ++ e)%string])
                        (calls w ++ FeedFetch :: cls
                         ++ [StockDelete refreshed_types;
                             StockInsert (length (accepted env w))]))
                 | None =>
                     (mkResponse 200
                        (SyncOk (length (accepted env w))
                                (length (assign_ids (Db.stock_seq (db w))
                                                    (accepted env w)))),
                      mkWorld (clerk w)
                        (Db.with_stock
                           (filter other_type (Db.stock (db w))
                            ++ assign_ids (Db.stock_seq (db w))
                                          (accepted env w))
                           (Db.stock_seq (db w) + length (accepted env w))
                           (db w))
                        (console w ++ cons)
                        (calls w ++ FeedFetch :: cls
                         ++ [StockDelete refreshed_types;
                             StockInsert (length (accepted env w))]))
                 end
             end
         end.
Proof.
  intros Hkey Hfeed.
  destruct (@accepted_records env w records Hkey Hfeed) as (cons & cls & Hread & Hrun).
  exists cons, cls. split; [assumption |].
  unfold sync_stock, sync_stock_body. rewrite Hkey, Hfeed.
  unfold run, try_catch. unfold bind at 1 2. unfold issue at 1.
  rewrite Hrun by reflexivity. cbn [clerk db console calls].
  destruct (accepted env w) as [| r rs].
  - cbn [length Nat.eqb]. step_handler. unfold throw_Error, throw.
    step_handler. cbn [message]. rewrite <- !app_assoc. reflexivity.
  - cbn [length Nat.eqb].
    destruct (delete_fault env) as [e |], (sync_insert_fault env) as [e' |];
      unfold stock_delete_in, stock_insert, throw_Error;
      step_handler; cbn [message Db.stock Db.stock_seq Db.with_stock];
      rewrite <- ?app_assoc; reflexivity.
Qed.

Lemma accepted_nonempty_inv env w :
  accepted env w <> [] ->
  falsy (IDEMPIERE_API_KEY env) = false
  /\ exists records, feed env = Records records.
Proof.
  unfold accepted. intros H.
  destruct (falsy (IDEMPIERE_API_KEY env)); [now contradiction H |].
  split; [reflexivity |].
  destruct (feed env) as [msg | st txt | | records];
    try (now contradiction H). eauto.
Qed.

(** C5: a run that accepts no record answers 500 and leaves the database,
    hence every stock row, as it was; the calls it has issued by then only
    read (the feed and the location lookups), so no deletion was issued.
    When the feed did deliver records, the abort is the one that precedes
    the delete. *)
Theorem no_accepted_records_no_deletion (env : SyncEnv) (w : World) :
  accepted env w = [] ->
  let out := run (sync_stock env) w in
  status (fst out) = 500
  /\ db (snd out) = db w
  /\ (exists cls, calls (snd out) = calls w ++ cls
                  /\ forallb is_read cls = true)
  /\ (falsy (IDEMPIERE_API_KEY env) = false ->
      forall records, feed env = Records records ->
      body (fst out) = SyncFailed "No valid stock records to insert").
Proof.
  intros Hacc. cbv zeta.
  destruct (falsy (IDEMPIERE_API_KEY env)) eqn:Hkey.
  - unfold sync_stock, sync_stock_body. rewrite Hkey.
    unfold throw_Error. step_handler.
    repeat split; try discriminate.
    exists []. now rewrite app_nil_r.
  - destruct (feed env) as [msg | st txt | | records] eqn:Hfeed.
    + unfold sync_stock, sync_stock_body. rewrite Hkey, Hfeed.
      unfold throw_Error. step_handler.
      repeat split; try discriminate. now exists [FeedFetch].
    + unfold sync_stock, sync_stock_body. rewrite Hkey, Hfeed.
      unfold throw_Error. step_handler.
      repeat split; try discriminate. now exists [FeedFetch].
    + unfold sync_stock, sync_stock_body. rewrite Hkey, Hfeed.
      unfold throw_Error. step_handler.
      repeat split; try discriminate. now exists [FeedFetch].
    + destruct (@sync_stock_run env w records Hkey Hfeed)
        as (cons & cls & Hread & Hrun).
      rewrite Hrun, Hacc. cbn.
      repeat split; try reflexivity.
      exists (FeedFetch :: cls). split; [reflexivity | exact Hread].
Qed.

Lemma lookup_unresolved fault d record :
  resolves d record = false ->
  exists e,
    lookup_answer fault (Ref.id (FeedRecord.AD_Org_ID record)) d = inl e.
Proof.
  unfold resolves, lookup_answer. intros H.
  destruct fault as [e |]; [eauto |].
  destruct (filter _ _) as [| l [| l' ls]]; eauto. discriminate.
Qed.

Lemma transform_unresolved env records :
  forall i acc w,
    (forall r, In r records -> resolves (db w) r = false) ->
    fst (transform env i records acc w) = inr acc.
Proof.
  induction records as [| record rest IH]; intros i acc w Hall;
    [reflexivity |].
  cbn [transform]. unfold bind at 1.
  rewrite locations_select_active_effect.
  destruct (@lookup_unresolved (lookup_fault env i) (db w) record)
    as [e He]; [apply Hall; now left |].
  rewrite He. unfold bind, console_warn. cbn [fst snd].
  apply IH. intros r Hr. cbn [db]. apply Hall. now right.
Qed.

(** An empty feed, or a feed none of whose records resolves to an active
    location, is a run that accepts nothing. *)
Lemma unresolved_feed_accepts_nothing env w records :
  feed env = Records records ->
  (forall r, In r records -> resolves (db w) r = false) ->
  accepted env w = [].
Proof.
  intros Hfeed Hall. unfold accepted.
  destruct (falsy (IDEMPIERE_API_KEY env)); [reflexivity |].
  rewrite Hfeed, transform_unresolved by assumption. reflexivity.
Qed.

(** Both records of the feed point at a location that is inactive or
    unknown: the three stock rows are still there. *)
Lemma no_accepted_records_witness :
  accepted Scenario.sync_unresolved Scenario.w_stock = []
  /\ status (fst (run (sync_stock Scenario.sync_unresolved) Scenario.w_stock))
     = 500
  /\ Db.stock (db (snd (run (sync_stock Scenario.sync_unresolved)
                            Scenario.w_stock)))
     = [Scenario.raw_row; Scenario.finished_row; Scenario.rice_row].
Proof.
  split; [reflexivity |].
  destruct (@no_accepted_records_no_deletion Scenario.sync_unresolved
              Scenario.w_stock eq_refl) as [Hs [Hdb _]].
  split; [exact Hs |]. rewrite Hdb. reflexivity.
Defined.

(** C9: a run that accepts at least one record issues, after its reads,
    one delete that names both ['RAW MATERIAL'] and ['FINISHED_GOODS'],
    whatever the types of the accepted records, and the insert only after
    that delete has succeeded. Every stock row of another product type is
    still in the table after the run. If the delete is refused the table
    is as it was; otherwise the table is the old rows of the other types
    followed by the rows inserted, so none of the old rows of the two
    types is left. *)
Theorem refresh_deletes_both_types (env : SyncEnv) (w : World) :
  accepted env w <> [] ->
  let out := run (sync_stock env) w in
  let old := Db.stock (db w) in
  let new := Db.stock (db (snd out)) in
  (exists reads,
      forallb is_read reads = true
      /\ calls (snd out)
         = calls w ++ reads
           ++ StockDelete [RAW_MATERIAL; FINISHED_GOODS]
              :: match delete_fault env with
                 | Some _ => []
                 | None => [StockInsert (length (accepted env w))]
                 end)
  /\ (forall s, In s old -> ~ In (Stock.product_type s) refreshed_types ->
                In s new)
  /\ match delete_fault env with
     | Some _ => new = old
     | None =>
         new = filter other_type old
               ++ match sync_insert_fault env with
                  | Some _ => []
                  | None => assign_ids (Db.stock_seq (db w)) (accepted env w)
                  end
     end.
Proof.
  intros Hacc. cbv zeta.
  destruct (@accepted_nonempty_inv env w Hacc) as [Hkey [records Hfeed]].
  destruct (@sync_stock_run env w records Hkey Hfeed)
    as (cons & cls & Hread & Hrun).
  rewrite Hrun. clear Hrun.
  destruct (accepted env w) as [| r rs] eqn:Hrecs; [now contradiction Hacc |].
  assert (Hkeep : forall s, In s (Db.stock (db w)) ->
                            ~ In (Stock.product_type s) refreshed_types ->
                            In s (filter other_type (Db.stock (db w)))).
  { intros s Hs Hty. apply filter_In. split; [assumption |].
    unfold other_type. apply includes_false in Hty. now rewrite Hty. }
  destruct (delete_fault env) as [e |], (sync_insert_fault env) as [e' |];
    cbn [fst snd db calls Db.stock Db.with_stock].
  - split; [exists (FeedFetch :: cls); split; [exact Hread | reflexivity] |].
    split; [auto | reflexivity].
  - split; [exists (FeedFetch :: cls); split; [exact Hread | reflexivity] |].
    split; [auto | reflexivity].
  - split; [exists (FeedFetch :: cls); split; [exact Hread | reflexivity] |].
    split; [| now rewrite app_nil_r].
    intros s Hs Hty. now apply Hkeep.
  - split; [exists (FeedFetch :: cls); split; [exact Hread | reflexivity] |].
    split; [| reflexivity].
    intros s Hs Hty. apply in_or_app. left. now apply Hkeep.
Qed.

(** The feed's only accepted record is raw material: the finished-goods
    row is deleted with the raw-material row, the row of type [rice]
    stays, and the new row follows it. *)
Lemma refresh_deletes_both_types_witness :
  accepted Scenario.sync_mixed Scenario.w_stock <> []
  /\ Db.stock (db (snd (run (sync_stock Scenario.sync_mixed) Scenario.w_stock)))
     = [Scenario.rice_row; Scenario.new_raw_row].
Proof.
  assert (Hacc : accepted Scenario.sync_mixed Scenario.w_stock <> [])
    by (vm_compute; discriminate).
  split; [exact Hacc |].
  destruct (@refresh_deletes_both_types Scenario.sync_mixed Scenario.w_stock
              Hacc) as [_ [_ Hnew]].
  cbv zeta in Hnew. cbn [delete_fault sync_insert_fault Scenario.sync_mixed]
    in Hnew.
  rewrite Hnew. reflexivity.
Defined.

(* ===================================================================== *)
(** ** The remaining policies *)
(* ===================================================================== *)

Lemma filter_all {A} (f : A -> bool) (l : list A) :
  (forall x, In x l -> f x = true) -> filter f l = l.
Proof.
  induction l as [| x l IH]; intros H; cbn; [reflexivity |].
  rewrite (H x) by now left. rewrite IH; [reflexivity |].
  intros y Hy. apply H. now right.
Qed.

Lemma with_users_same (d : Db.t) :
  Db.with_users (Db.users d) (Db.users_seq d) d = d.
Proof. now destruct d. Qed.

Lemma with_stock_same (d : Db.t) :
  Db.with_stock (Db.stock d) (Db.stock_seq d) d = d.
Proof. now destruct d. Qed.

Lemma with_locations_same (d : Db.t) :
  Access.with_locations (Db.master_locations d) d = d.
Proof. now destruct d. Qed.

Lemma map_unchanged {A} (f : A -> A) (l : list A) :
  (forall x, In x l -> f x = x) -> map f l = l.
Proof.
  induction l as [| x l IH]; intros H; cbn; [reflexivity |].
  rewrite (H x) by now left. rewrite IH; [reflexivity |].
  intros y Hy. apply H. now right.
Qed.

(** The users a caller is shown: the whole table for the administrative
    role, the caller's own rows for every other role, executive and
    auditor included. *)
Theorem select_users_own_or_all (d : Db.t) (sub : string) :
  Access.select_users d sub
  = if Rls.get_current_user_role d sub =? SUPERADMIN_ROLE
    then Db.users d
    else rows_of sub (Db.users d).
Proof.
  unfold Access.select_users, Rls.users_select, rows_of.
  destruct (Rls.get_current_user_role d sub =? SUPERADMIN_ROLE).
  - apply filter_all. intros u _. apply orb_true_r.
  - apply filter_ext. intros u. rewrite orb_false_r.
    unfold has_clerk_id. apply String.eqb_sym.
Qed.

(** Self-registration: an insert through the caller's client is accepted
    exactly when the new row is keyed by the caller's own identity, its
    role is ['NO_ROLE'], it has a name and the identity has no row yet;
    the table then grows by that row. No role, the administrative one
    included, can insert a row for another identity or with a role. *)
Theorem self_registration_only (d : Db.t) (sub : string)
        (n : Access.NewUser) (d' : Db.t) :
  Access.insert_user d sub n = inr d'
  <-> exists name,
        Access.new_name n = Some name
        /\ Access.new_clerk_id n = sub
        /\ Access.new_role n = NO_ROLE
        /\ rows_of sub (Db.users d) = []
        /\ d' = Db.with_users
                  (Db.users d
                   ++ [User.mk (Db.users_seq d) sub name NO_ROLE
                               (or_empty (Access.new_locations n))])
                  (S (Db.users_seq d)) d.
Proof.
  unfold Access.insert_user, Access.users_insert_check. cbn [User.clerk_id User.role].
  split.
  - destruct (sub =? Access.new_clerk_id n) eqn:Hid; [| discriminate].
    destruct (Access.new_role n =? NO_ROLE) eqn:Hrole; [| discriminate].
    cbn [andb negb].
    destruct (Access.new_name n) as [name |] eqn:Hname; [| discriminate].
    destruct (existsb _ _) eqn:Hex; [discriminate |].
    intros H. injection H as <-.
    apply String.eqb_eq in Hid, Hrole. subst sub.
    exists name. repeat split; try assumption.
    + now apply rows_of_nil_iff.
    + rewrite Hrole. cbn. destruct name; reflexivity.
  - intros (name & Hname & Hid & Hrole & Hrows & ->).
    rewrite Hname, Hid, Hrole, !String.eqb_refl. cbn [andb negb].
    apply rows_of_nil_iff in Hrows. rewrite Hrows.
    cbn. destruct name; reflexivity.
Qed.

(** The newcomer's first sign-in is accepted. *)
Example self_registration_accepted :
  Access.insert_user Sample.d1 "user_sri" Sample.self_registration
  = inr (Db.with_users
           (Db.users Sample.d1 ++ [User.mk 8 "user_sri" "sri" NO_ROLE []])
           9 Sample.d1).
Proof. reflexivity. Qed.

Lemma role_not_admin (d : Db.t) (sub : string) :
  (forall u, In u (Db.users d) -> User.clerk_id u = sub ->
             User.role u <> SUPERADMIN_ROLE) ->
  (Rls.get_current_user_role d sub =? SUPERADMIN_ROLE) = false.
Proof.
  intros Hinv. apply String.eqb_neq. unfold Rls.get_current_user_role.
  destruct (find _ _) as [u |] eqn:Hfind; [| discriminate].
  apply find_some in Hfind as [Hin Hu]. apply Hinv; [assumption |].
  unfold has_clerk_id in Hu. now apply String.eqb_eq in Hu.
Qed.

Lemma update_rows_confined (d : Db.t) (sub : string) (cond : User.t -> bool)
      (p : Rls.Patch) :
  Rls.set_role p <> Some SUPERADMIN_ROLE ->
  forall rest done us',
    (forall u, In u (done ++ rest) -> User.clerk_id u = sub ->
               User.role u <> SUPERADMIN_ROLE) ->
    Rls.update_rows d sub cond p done rest = inr us' ->
    exists rest2,
      us' = done ++ rest2
      /\ filter (fun u => negb (has_clerk_id sub u)) rest2
         = filter (fun u => negb (has_clerk_id sub u)) rest
      /\ map User.id (filter (has_clerk_id sub) rest2)
         = map User.id (filter (has_clerk_id sub) rest)
      /\ length rest2 = length rest.
Proof.
  intros Hp. induction rest as [| u rest IH]; intros done us' Hinv Hrun.
  - cbn in Hrun. injection Hrun as <-. exists []. rewrite app_nil_r.
    repeat split; reflexivity.
  - cbn [Rls.update_rows] in Hrun.
    assert (Hrole : (Rls.get_current_user_role
                       (Db.with_users (done ++ u :: rest) (Db.users_seq d) d)
                       sub =? SUPERADMIN_ROLE) = false)
      by (apply role_not_admin; exact Hinv).
    destruct (Rls.update_target _ sub cond u) eqn:Htarget.
    + unfold Rls.update_target, Rls.users_update_using in Htarget.
      rewrite Hrole, orb_false_r in Htarget.
      apply andb_true_iff in Htarget as [_ Hown].
      apply String.eqb_eq in Hown.
      unfold Rls.users_update_check in Hrun. rewrite Hrole in Hrun.
      destruct (sub =? User.clerk_id (Rls.apply_patch p u)) eqn:Hown';
        [| discriminate].
      cbn [negb] in Hrun.
      destruct (existsb _ (done ++ rest)); [discriminate |].
      apply String.eqb_eq in Hown'.
      destruct (IH (done ++ [Rls.apply_patch p u]) us') as
        (rest2 & -> & Hother & Hids & Hlen); [| exact Hrun |].
      * intros v Hv Hvid. rewrite <- app_assoc in Hv. cbn [app] in Hv.
        apply in_app_or in Hv as [Hv | [<- | Hv]].
        -- apply Hinv; [apply in_or_app; now left | assumption].
        -- cbn. destruct (Rls.set_role p) as [r |]; cbn.
           ++ intros ->. now apply Hp.
           ++ apply Hinv; [apply in_or_app; right; now left | now symmetry].
        -- apply Hinv; [apply in_or_app; right; now right | assumption].
      * assert (Hu : has_clerk_id sub u = true)
          by (unfold has_clerk_id; rewrite <- Hown; apply String.eqb_refl).
        assert (Hu' : has_clerk_id sub (Rls.apply_patch p u) = true)
          by (unfold has_clerk_id; rewrite <- Hown'; apply String.eqb_refl).
        exists (Rls.apply_patch p u :: rest2).
        rewrite <- app_assoc. split; [reflexivity |].
        cbn [filter]. rewrite Hu, Hu'. cbn [negb map length].
        rewrite Hother, Hids, Hlen. repeat split; reflexivity.
    + destruct (IH (done ++ [u]) us') as
        (rest2 & -> & Hother & Hids & Hlen); [| exact Hrun |].
      * intros v Hv. rewrite <- app_assoc in Hv. now apply Hinv.
      * exists (u :: rest2). rewrite <- app_assoc. split; [reflexivity |].
        cbn [filter]. destruct (has_clerk_id sub u); cbn [negb map length];
          rewrite ?Hother, ?Hids, Hlen; repeat split; reflexivity.
Qed.

(** A caller none of whose rows has the administrative role, issuing an
    update whose payload does not set that role, changes no row of another
    identity, whatever the condition and the rest of the payload: in an
    accepted update the rows of the other identities are as they were, the
    caller's own rows stay the caller's with their ids, and the table
    keeps its size. *)
Theorem non_admin_update_confined (d : Db.t) (sub : string)
        (cond : User.t -> bool) (p : Rls.Patch) (d' : Db.t) :
  (forall u, In u (Db.users d) -> User.clerk_id u = sub ->
             User.role u <> SUPERADMIN_ROLE) ->
  Rls.set_role p <> Some SUPERADMIN_ROLE ->
  Rls.update_users d sub cond p = inr d' ->
  filter (fun u => negb (has_clerk_id sub u)) (Db.users d')
  = filter (fun u => negb (has_clerk_id sub u)) (Db.users d)
  /\ map User.id (rows_of sub (Db.users d'))
     = map User.id (rows_of sub (Db.users d))
  /\ length (Db.users d') = length (Db.users d).
Proof.
  intros Hinv Hp Hupd. unfold Rls.update_users in Hupd.
  destruct (Rls.update_rows d sub cond p [] (Db.users d)) as [e | us'] eqn:Hrun;
    [discriminate |].
  injection Hupd as <-. cbn [Db.users Db.with_users].
  destruct (@update_rows_confined d sub cond p Hp (Db.users d) [] us' Hinv Hrun)
    as (rest2 & -> & Hother & Hids & Hlen).
  cbn [app]. unfold rows_of. repeat split; assumption.
Qed.

(** The newcomer renames every row the statement reaches: only the
    newcomer's own row is renamed. *)
Lemma non_admin_update_confined_witness :
  Rls.update_users Scenario.d0 "user_new" (fun _ => true) Sample.rename
  = inr (Db.with_users
           [Scenario.manager_by_id; Scenario.manager_by_name;
            User.mk 3 "user_new" "nadia k" NO_ROLE ["1"; "Jakarta"]]
           4 Scenario.d0)
  /\ filter (fun u => negb (has_clerk_id "user_new" u))
            [Scenario.manager_by_id; Scenario.manager_by_name;
             User.mk 3 "user_new" "nadia k" NO_ROLE ["1"; "Jakarta"]]
     = [Scenario.manager_by_id; Scenario.manager_by_name].
Proof.
  split; [reflexivity |].
  destruct (@non_admin_update_confined
              Scenario.d0 "user_new" (fun _ => true) Sample.rename
              (Db.with_users
                 [Scenario.manager_by_id; Scenario.manager_by_name;
                  User.mk 3 "user_new" "nadia k" NO_ROLE ["1"; "Jakarta"]]
                 4 Scenario.d0))
    as [H _].
  - intros u [<- | [<- | [<- | []]]]; discriminate.
  - discriminate.
  - reflexivity.
  - exact H.
Defined.

(** The confinement needs the payload's role: once the caller's own row has
    been rewritten to the administrative role, the rows scanned after it
    are judged with that role and are rewritten too. *)
Example escalating_update_reaches_later_rows :
  Rls.update_users Sample.d_newcomer_first "user_new" (fun _ => true)
                   Sample.grab
  = inr (Db.with_users
           [User.mk 3 "user_new" "nadia" SUPERADMIN_ROLE ["1"; "Jakarta"];
            User.mk 2 "user_mgr2" "maya" SUPERADMIN_ROLE
                    ["Jakarta"; "OldDepo"];
            User.mk 7 "user_adm" "ani" SUPERADMIN_ROLE []]
           8 Sample.d_newcomer_first).
Proof. reflexivity. Qed.

Lemma delete_rows_non_admin (d : Db.t) (sub : string)
      (cond : User.t -> bool) :
  forall rest done,
    (Rls.get_current_user_role
       (Db.with_users (done ++ rest) (Db.users_seq d) d) sub
     =? SUPERADMIN_ROLE) = false ->
    Access.delete_rows d sub cond done rest = done ++ rest.
Proof.
  induction rest as [| u rest IH]; intros done Hrole.
  - cbn. now rewrite app_nil_r.
  - cbn [Access.delete_rows]. unfold Access.users_delete_using.
    rewrite Hrole, andb_false_r.
    rewrite IH; rewrite <- app_assoc; [reflexivity | exact Hrole].
Qed.

Lemma find_without (sub : string) (done rest : list User.t) (u : User.t) :
  has_clerk_id sub u = false ->
  find (has_clerk_id sub) (done ++ u :: rest)
  = find (has_clerk_id sub) (done ++ rest).
Proof.
  intros Hu. induction done as [| v done IH]; cbn.
  - now rewrite Hu.
  - destruct (has_clerk_id sub v); [reflexivity | exact IH].
Qed.

Lemma delete_rows_admin (d : Db.t) (sub : string) (cond : User.t -> bool) :
  forall rest done,
    (Rls.get_current_user_role
       (Db.with_users (done ++ rest) (Db.users_seq d) d) sub
     =? SUPERADMIN_ROLE) = true ->
    (forall u, In u rest -> cond u = true -> User.clerk_id u <> sub) ->
    Access.delete_rows d sub cond done rest
    = done ++ filter (fun u => negb (cond u)) rest.
Proof.
  induction rest as [| u rest IH]; intros done Hrole Hcond.
  - cbn. now rewrite app_nil_r.
  - cbn [Access.delete_rows filter].
    unfold Access.users_delete_using, Rls.users_select.
    rewrite Hrole, orb_true_r, !andb_true_r.
    destruct (cond u) eqn:Hcu; cbn [negb].
    + apply IH.
      * unfold Rls.get_current_user_role in *.
        cbn [Db.users Db.with_users] in *.
        rewrite <- (@find_without sub done rest u); [exact Hrole |].
        unfold has_clerk_id. apply String.eqb_neq.
        apply Hcond; [now left | assumption].
      * intros v Hv. apply Hcond. now right.
    + rewrite IH.
      * rewrite <- app_assoc. reflexivity.
      * rewrite <- app_assoc. exact Hrole.
      * intros v Hv. apply Hcond. now right.
Qed.

(** Deleting users: a delete by a caller other than the administrator
    removes nothing, the caller's own row included, and reports no error;
    a delete by the administrator whose condition does not name a row of
    the administrator's own identity removes exactly the rows the
    condition names. *)
Theorem delete_users_by_role (d : Db.t) (sub : string)
        (cond : User.t -> bool) :
  (Rls.get_current_user_role d sub <> SUPERADMIN_ROLE ->
   Access.delete_users d sub cond = d)
  /\ (Rls.get_current_user_role d sub = SUPERADMIN_ROLE ->
      (forall u, In u (Db.users d) -> cond u = true ->
                 User.clerk_id u <> sub) ->
      Access.delete_users d sub cond
      = Db.with_users (filter (fun u => negb (cond u)) (Db.users d))
                      (Db.users_seq d) d).
Proof.
  unfold Access.delete_users. split.
  - intros Hrole. apply String.eqb_neq in Hrole.
    rewrite delete_rows_non_admin; [apply with_users_same |].
    change ([] ++ Db.users d) with (Db.users d). now rewrite with_users_same.
  - intros Hrole Hcond. apply String.eqb_eq in Hrole.
    rewrite delete_rows_admin; [reflexivity | | exact Hcond].
    change ([] ++ Db.users d) with (Db.users d). now rewrite with_users_same.
Qed.

(** The sales manager deletes nothing; the administrator deletes the two
    other rows. *)
Lemma delete_users_by_role_witness :
  Access.delete_users Sample.d1 "user_mgr2" (fun _ => true) = Sample.d1
  /\ Db.users (Access.delete_users Sample.d1 "user_adm"
                 (fun u => negb (has_clerk_id "user_adm" u)))
     = [Sample.admin].
Proof.
  destruct (@delete_users_by_role Sample.d1 "user_mgr2" (fun _ => true))
    as [Hnon _].
  destruct (@delete_users_by_role Sample.d1 "user_adm"
              (fun u => negb (has_clerk_id "user_adm" u)))
    as [_ Hadm].
  split.
  - apply Hnon. discriminate.
  - rewrite Hadm.
    + reflexivity.
    + reflexivity.
    + intros u [<- | [<- | [<- | []]]]; cbn; intros H; discriminate.
Defined.

(** The condition matters: an administrator who deletes every row loses
    the role with the first row scanned, their own, and the rows after it
    are skipped. *)
Example admin_delete_stops_after_own_row :
  Db.users (Access.delete_users Sample.d1 "user_adm" (fun _ => true))
  = [Scenario.manager_by_name; Scenario.newcomer].
Proof. reflexivity. Qed.

(** The locations a caller is shown: every location for the administrative
    role, the active ones for every other role. *)
Theorem visible_locations_active_or_all (d : Db.t) (sub : string) :
  Rls.visible_locations d sub
  = if Rls.get_current_user_role d sub =? SUPERADMIN_ROLE
    then Db.master_locations d
    else filter Location.is_active (Db.master_locations d).
Proof.
  unfold Rls.visible_locations, Rls.locations_select.
  destruct (Rls.get_current_user_role d sub =? SUPERADMIN_ROLE).
  - apply filter_all. intros ml _. apply orb_true_r.
  - apply filter_ext. intros ml. apply orb_false_r.
Qed.

(** A caller other than the administrator cannot change [master_locations]:
    an insert is refused, and an update or a delete reaches no row. *)
Theorem locations_written_by_admin_only (d : Db.t) (sub : string) (id : Z)
        (name value : string) (is_active : bool) :
  Rls.get_current_user_role d sub <> SUPERADMIN_ROLE ->
  Access.insert_location d sub id name value is_active
  = inl Access.rls_violation
  /\ Access.update_location d sub id name value is_active = d
  /\ Access.delete_location d sub id = d.
Proof.
  intros Hrole. apply String.eqb_neq in Hrole.
  unfold Access.insert_location, Access.update_location,
    Access.delete_location, Access.locations_write.
  rewrite Hrole. cbn [negb]. split; [reflexivity |]. split.
  - rewrite map_unchanged; [apply with_locations_same |].
    intros ml _. now rewrite andb_false_r.
  - rewrite filter_all; [apply with_locations_same |].
    intros ml _. now rewrite andb_false_r.
Qed.

Lemma locations_written_by_admin_only_witness :
  Access.insert_location Scenario.d0 "user_mgr" 3 "Bandung" "BDG" true
  = inl Access.rls_violation
  /\ Access.delete_location Scenario.d0 "user_mgr" 1 = Scenario.d0.
Proof.
  destruct (@locations_written_by_admin_only
              Scenario.d0 "user_mgr" 3 "Bandung" "BDG" true)
    as [Hi _]; [discriminate |].
  destruct (@locations_written_by_admin_only
              Scenario.d0 "user_mgr" 1 "Bandung" "BDG" true)
    as [_ [_ Hd]]; [discriminate |].
  split; assumption.
Defined.

(** A caller other than the administrator cannot change [stock]: an insert
    of rows is refused, and an update or a delete reaches no row, the rows
    the caller is shown included. *)
Theorem stock_written_by_admin_only (d : Db.t) (sub : string)
        (rs : list StockRecord.t) (cond : Stock.t -> bool)
        (f : Stock.t -> Stock.t) :
  Rls.get_current_user_role d sub <> SUPERADMIN_ROLE ->
  rs <> [] ->
  Access.insert_stock d sub rs = inl Access.rls_violation
  /\ Access.update_stock d sub cond f = d
  /\ Access.delete_stock d sub cond = d.
Proof.
  intros Hrole Hrs. apply String.eqb_neq in Hrole.
  unfold Access.insert_stock, Access.update_stock, Access.delete_stock,
    Rls.superadmin_can_manage_stock.
  rewrite Hrole. split; [| split].
  - destruct rs as [| r rs]; [contradiction |]. reflexivity.
  - rewrite map_unchanged; [apply with_stock_same |].
    intros s _. now rewrite andb_false_r.
  - rewrite filter_all; [apply with_stock_same |].
    intros s _. now rewrite andb_false_r.
Qed.

(** The sales manager by name is shown Jakarta's stock and cannot delete
    it. *)
Lemma stock_written_by_admin_only_witness :
  Rls.select_stock Scenario.d0 "user_mgr2" = [Scenario.jakarta_rice]
  /\ Access.delete_stock Scenario.d0 "user_mgr2" (fun _ => true)
     = Scenario.d0.
Proof.
  split; [reflexivity |].
  destruct (@stock_written_by_admin_only
              Scenario.d0 "user_mgr2"
              [stockRecord Scenario.jakarta Scenario.feed_jakarta]
              (fun _ => true) (fun s => s))
    as [_ [_ Hd]]; [discriminate | discriminate | exact Hd].
Defined.

(* ===================================================================== *)
(** ** The gateway as a whole *)
(* ===================================================================== *)

Ltac step_gateway :=
  cbv [try_catch bind ret throw issue console_error console_warn
       get_db put_db get_clerk put_clerk
       clerk_createUser clerk_deleteUser clerk_updateUserMetadata
       users_insert users_update users_delete users_update_fields rollback
       Express.users_select_by_id Express.users_update_by_id
       Express.users_delete_by_id
       Gateway.error Express.not_found Express.internal_error];
  cbv beta iota zeta;
  cbn [clerk db console calls fst snd status body
       Gateway.code Gateway.json
       Clerk.identities Clerk.next_id Clerk.id
       Db.users Db.users_seq Db.with_users].

Ltac outcome :=
  do 2 eexists; split;
  [reflexivity
  | cbn; repeat split; intros; try discriminate; auto].

(** What [create_user] leaves, by its answer: the stores are touched only
    past the three checks, and the database only by an accepted insert. *)
Lemma create_user_outcome env b w :
  exists resp w',
    create_user env b w = (inr resp, w')
    /\ (status resp = 400 -> clerk w' = clerk w /\ db w' = db w)
    /\ (status resp = 500 -> db w' = db w)
    /\ (status resp = 400 \/ status resp = 500 \/ status resp = 201).
Proof.
  unfold create_user.
  destruct (falsy (req_username b) || falsy (req_password b)
            || falsy (req_role b));
    [outcome |].
  destruct (String.length (or_default (req_password b) EmptyString) <? 8)%nat;
    [outcome |].
  destruct (negb (includes privileged_roles
                           (or_default (req_role b) EmptyString)));
    [outcome |].
  destruct env as [cf inf df].
  cbn [createUser_fault insert_fault deleteUser_fault].
  destruct cf as [e |]; step_gateway;
    [outcome |].
  destruct inf as [e |]; step_gateway.
  - destruct df as [rb |]; step_gateway;
      [outcome |].
    erewrite new_identity_is_found by reflexivity. step_gateway.
    outcome.
  - destruct (existsb _ (Db.users (db w))); step_gateway.
    + destruct df as [rb |]; step_gateway;
        [outcome |].
      erewrite new_identity_is_found by reflexivity. step_gateway.
      outcome.
    + outcome.
Qed.

(** What [update_user] leaves, by its answer. *)
Lemma update_user_outcome env r w :
  let id := or_default (Gateway.clerkId r) EmptyString in
  let role := when_truthy (req_role (Gateway.fields r)) in
  let locations := req_locations (Gateway.fields r) in
  exists reply w',
    Gateway.update_user env r w = (inr reply, w')
    /\ (Gateway.code reply = 400 -> clerk w' = clerk w /\ db w' = db w)
    /\ (Gateway.code reply = 500 ->
        db w' = db w
        /\ Clerk.identities (clerk w')
           = map (identity_update id role locations)
                 (Clerk.identities (clerk w))
        /\ existsb (Clerk.has_id id) (Clerk.identities (clerk w)) = true)
    /\ (Gateway.code reply = 200 ->
        Clerk.identities (clerk w')
        = map (identity_update id role locations) (Clerk.identities (clerk w))
        /\ Db.users (db w')
           = map (fun u => if has_clerk_id id u
                           then row_update role locations u else u)
                 (Db.users (db w))
        /\ existsb (Clerk.has_id id) (Clerk.identities (clerk w)) = true)
    /\ (Gateway.code reply = 400 \/ Gateway.code reply = 500
        \/ Gateway.code reply = 200).
Proof.
  cbv zeta. unfold Gateway.update_user.
  destruct (falsy (Gateway.clerkId r) || _); [outcome |].
  destruct (negb (falsy (req_role (Gateway.fields r))) && _); [outcome |].
  destruct env as [ce mf uf cdf ddf].
  cbn [Gateway.metadata_fault Gateway.update_fault].
  destruct mf as [e |]; step_gateway; [outcome |].
  destruct (existsb _ (Clerk.identities (clerk w))) eqn:Hex; step_gateway;
    [| outcome].
  destruct uf as [e |]; step_gateway; outcome.
Qed.

(** What [delete_user] leaves, by its answer. *)
Lemma delete_user_outcome env r w :
  let id := or_default (Gateway.clerkId r) EmptyString in
  exists reply w',
    Gateway.delete_user env r w = (inr reply, w')
    /\ (Gateway.code reply = 400 -> clerk w' = clerk w /\ db w' = db w)
    /\ (Gateway.code reply = 500 ->
        db w' = db w
        /\ Clerk.identities (clerk w')
           = filter (fun x => negb (Clerk.has_id id x))
                    (Clerk.identities (clerk w)))
    /\ (Gateway.code reply = 200 ->
        Clerk.identities (clerk w')
        = filter (fun x => negb (Clerk.has_id id x))
                 (Clerk.identities (clerk w))
        /\ Db.users (db w')
           = filter (fun u => negb (has_clerk_id id u)) (Db.users (db w)))
    /\ (Gateway.code reply = 400 \/ Gateway.code reply = 500
        \/ Gateway.code reply = 200).
Proof.
  cbv zeta. unfold Gateway.delete_user.
  destruct (falsy (Gateway.clerkId r)); [outcome |].
  destruct env as [ce mf uf cdf ddf].
  cbn [Gateway.clerk_delete_fault Gateway.db_delete_fault].
  destruct cdf as [e |]; step_gateway; [outcome |].
  destruct (existsb _ (Clerk.identities (clerk w))) eqn:Hex; step_gateway;
    [| outcome].
  destruct ddf as [e |]; step_gateway; outcome.
Qed.

(** The edge function always answers, and its failures leave the database
    as it was: a 400 (a validation error, or Clerk refusing the call)
    means that neither store has changed, and a 500 that the database has
    not. *)
Theorem gateway_failure_leaves_database (env : Gateway.Env)
        (r : Gateway.Request) (w : World) :
  exists reply w',
    Gateway.serve env r w = (inr reply, w')
    /\ (Gateway.code reply = 400 -> clerk w' = clerk w /\ db w' = db w)
    /\ (Gateway.code reply = 500 -> db w' = db w).
Proof.
  unfold Gateway.serve.
  destruct (Gateway.method r =? "OPTIONS");
    [do 2 eexists; split; [reflexivity | cbn; split; discriminate] |].
  unfold try_catch.
  destruct (or_default (Gateway.action r) "create-user" =? "create-user").
  - destruct (create_user_outcome (Gateway.create_env env) (Gateway.fields r) w)
      as (resp & w' & Hrun & H400 & H500 & _).
    unfold bind. rewrite Hrun.
    do 2 eexists; split; [reflexivity |]. cbn. auto.
  - destruct (or_default (Gateway.action r) "create-user" =? "update-user").
    + destruct (update_user_outcome env r w)
        as (reply & w' & Hrun & H400 & H500 & _).
      rewrite Hrun. do 2 eexists; split; [reflexivity |].
      split; [exact H400 |]. intros H. now apply H500.
    + destruct (or_default (Gateway.action r) "create-user" =? "delete-user").
      * destruct (delete_user_outcome env r w)
          as (reply & w' & Hrun & H400 & H500 & _).
        rewrite Hrun. do 2 eexists; split; [reflexivity |].
        split; [exact H400 |]. intros H. now apply H500.
      * do 2 eexists; split; [reflexivity |]. cbn. auto.
Qed.

(** A successful creation: the answer is 201, the identity is appended to
    the identity store, and the row appended to [users] is keyed by the
    identity's id and carries the identity's username, role and
    locations. *)
Theorem create_user_success (env : GatewayEnv) (b : CreateBody) (w : World) :
  valid_create b = true ->
  createUser_fault env = None ->
  insert_error (insert_fault env) (db w) (next_identity_id w) = None ->
  let out := run (serve_create_user env b) w in
  let username := or_default (req_username b) EmptyString in
  let password := or_default (req_password b) EmptyString in
  let role := or_default (req_role b) EmptyString in
  let locations := or_empty (req_locations b) in
  fst out = mkResponse 201
              (CreatedUser (Db.users_seq (db w)) (next_identity_id w)
                           username role locations)
  /\ Clerk.identities (clerk (snd out))
     = Clerk.identities (clerk w)
       ++ [Clerk.mkIdentity (next_identity_id w) username password role
                            locations]
  /\ Db.users (db (snd out))
     = Db.users (db w)
       ++ [User.mk (Db.users_seq (db w)) (next_identity_id w) username role
                   locations].
Proof.
  intros Hv Hc Hi. apply valid_create_checks in Hv as [Hreq [Hlen Hrole]].
  cbv zeta. unfold serve_create_user, create_user, run.
  rewrite Hreq, Hlen, Hrole. cbv [negb].
  destruct env as [cf inf df]. cbn [createUser_fault insert_fault] in *.
  subst cf. unfold insert_error, next_identity_id in *.
  destruct inf as [e |]; [discriminate |].
  destruct (existsb _ (Db.users (db w))) eqn:Hex; [discriminate |].
  step_gateway. rewrite Hex. repeat split; reflexivity.
Qed.

(** The dashboard's request for [john_doe] on empty stores. *)
Lemma create_user_success_witness :
  Clerk.identities
    (clerk (snd (run (serve_create_user Scenario.all_fine Scenario.good_body)
                     Scenario.w0)))
  = [Scenario.john_identity]
  /\ Db.users
       (db (snd (run (serve_create_user Scenario.all_fine Scenario.good_body)
                     Scenario.w0)))
     = Db.users (db Sample.w_john).
Proof.
  destruct (@create_user_success Scenario.all_fine Scenario.good_body
              Scenario.w0 eq_refl eq_refl eq_refl) as [_ [Hc Hd]].
  split; [exact Hc | exact Hd].
Defined.

Lemma in_identity_update id role locations l x :
  In x (map (identity_update id role locations) l) ->
  Clerk.id x = id ->
  exists y, Clerk.role x = Rls.or_keep role (Clerk.role y)
            /\ Clerk.locations x = Rls.or_keep locations (Clerk.locations y).
Proof.
  intros Hin Hid. apply in_map_iff in Hin as [y [Hy _]].
  unfold identity_update in Hy. destruct (Clerk.has_id id y) eqn:Hhas.
  - subst x. now exists y.
  - subst y. unfold Clerk.has_id in Hhas. rewrite Hid in Hhas.
    now rewrite String.eqb_refl in Hhas.
Qed.

Lemma in_row_update id role locations l u :
  In u (map (fun v => if has_clerk_id id v
                      then row_update role locations v else v) l) ->
  User.clerk_id u = id ->
  exists v, User.role u = Rls.or_keep role (User.role v)
            /\ User.locations u = Rls.or_keep locations (User.locations v).
Proof.
  intros Hin Hid. apply in_map_iff in Hin as [v [Hv _]].
  destruct (has_clerk_id id v) eqn:Hhas.
  - subst u. now exists v.
  - subst v. unfold has_clerk_id in Hhas. rewrite Hid in Hhas.
    now rewrite String.eqb_refl in Hhas.
Qed.

Lemma identity_update_keeps_id id role locations l :
  existsb (Clerk.has_id id) l = true ->
  exists x, In x (map (identity_update id role locations) l)
            /\ Clerk.id x = id.
Proof.
  intros H. apply existsb_exists in H as [y [Hy Hhas]].
  exists (identity_update id role locations y). split.
  - now apply in_map.
  - unfold identity_update. rewrite Hhas. cbn.
    unfold Clerk.has_id in Hhas. now apply String.eqb_eq in Hhas.
Qed.

(** After an update the gateway answers with 200, Clerk holds the identity,
    and the identity's metadata and every row of [users] keyed by it agree
    on each field the request gave: both carry the request's role, and
    both its locations. *)
Theorem update_user_stores_agree (env : Gateway.Env) (r : Gateway.Request)
        (w : World) (reply : Gateway.Reply) (w' : World) :
  Gateway.update_user env r w = (inr reply, w') ->
  Gateway.code reply = 200 ->
  let id := or_default (Gateway.clerkId r) EmptyString in
  (exists x, In x (Clerk.identities (clerk w')) /\ Clerk.id x = id)
  /\ forall x u,
       In x (Clerk.identities (clerk w')) -> Clerk.id x = id ->
       In u (Db.users (db w')) -> User.clerk_id u = id ->
       (forall ro, when_truthy (req_role (Gateway.fields r)) = Some ro ->
                   Clerk.role x = ro /\ User.role u = ro)
       /\ (forall lo, req_locations (Gateway.fields r) = Some lo ->
                      Clerk.locations x = lo /\ User.locations u = lo).
Proof.
  intros Hrun Hcode. cbv zeta.
  destruct (update_user_outcome env r w)
    as (reply0 & w0 & Hrun0 & _ & _ & H200 & _).
  cbv zeta in Hrun0, H200. rewrite Hrun in Hrun0.
  injection Hrun0 as <- <-.
  destruct (H200 Hcode) as [Hc [Hd Hex]]. rewrite Hc, Hd. split.
  - now apply identity_update_keeps_id.
  - intros x u Hx Hxid Hu Huid.
    destruct (@in_identity_update _ _ _ _ _ Hx Hxid) as [y [Hyr Hyl]].
    destruct (@in_row_update _ _ _ _ _ Hu Huid) as [v [Hvr Hvl]].
    split.
    + intros ro Hro. rewrite Hro in Hyr, Hvr. now split.
    + intros lo Hlo. rewrite Hlo in Hyl, Hvl. now split.
Qed.

(** The dashboard moves [john_doe] to the supervisor role at Bandung. *)
Lemma update_user_stores_agree_witness :
  exists x,
    In x (Clerk.identities
            (clerk (snd (Gateway.update_user Sample.gateway_ok
                                             Sample.update_john
                                             Sample.w_john))))
    /\ Clerk.id x = "user_0"
    /\ Clerk.role x = SALES_SUPERVISOR_ROLE
    /\ Clerk.locations x = ["Bandung"].
Proof.
  destruct (@update_user_stores_agree
              Sample.gateway_ok Sample.update_john Sample.w_john
              (Gateway.mkReply 200 (Gateway.Message "User updated successfully"))
              (snd (Gateway.update_user Sample.gateway_ok Sample.update_john
                                        Sample.w_john))
              eq_refl eq_refl) as [[x [Hx Hid]] Hall].
  exists x. split; [exact Hx |]. split; [exact Hid |].
  destruct (Hall x (User.mk 0 "user_0" "john_doe" SALES_SUPERVISOR_ROLE
                            ["Bandung"]) Hx Hid) as [Hr Hl].
  - left. reflexivity.
  - reflexivity.
  - split; [apply (Hr SALES_SUPERVISOR_ROLE eq_refl)
           | apply (Hl ["Bandung"] eq_refl)].
Defined.

(** A 500 from [update-user] means that Clerk's metadata has been updated
    and the database has not: the update of Clerk is not rolled back. *)
Theorem update_user_no_rollback (env : Gateway.Env) (r : Gateway.Request)
        (w : World) (reply : Gateway.Reply) (w' : World) :
  Gateway.update_user env r w = (inr reply, w') ->
  Gateway.code reply = 500 ->
  db w' = db w
  /\ Clerk.identities (clerk w')
     = map (identity_update (or_default (Gateway.clerkId r) EmptyString)
                            (when_truthy (req_role (Gateway.fields r)))
                            (req_locations (Gateway.fields r)))
           (Clerk.identities (clerk w))
  /\ exists x, In x (Clerk.identities (clerk w'))
               /\ Clerk.id x = or_default (Gateway.clerkId r) EmptyString.
Proof.
  intros Hrun Hcode.
  destruct (update_user_outcome env r w)
    as (reply0 & w0 & Hrun0 & _ & H500 & _).
  cbv zeta in Hrun0, H500. rewrite Hrun in Hrun0.
  injection Hrun0 as <- <-.
  destruct (H500 Hcode) as [Hd [Hc Hex]].
  split; [exact Hd |]. split; [exact Hc |].
  rewrite Hc. now apply identity_update_keeps_id.
Qed.

(** The database refuses the update of [john_doe]: Clerk has the new role
    and the row has the old one. *)
Lemma update_user_no_rollback_witness :
  let w' := snd (Gateway.update_user
                   (Gateway.mkEnv Scenario.all_fine None
                                  (Some "connection refused") None None)
                   Sample.update_john Sample.w_john) in
  db w' = db Sample.w_john
  /\ map Clerk.role (Clerk.identities (clerk w')) = [SALES_SUPERVISOR_ROLE].
Proof.
  destruct (@update_user_no_rollback
              (Gateway.mkEnv Scenario.all_fine None
                             (Some "connection refused") None None)
              Sample.update_john Sample.w_john
              (Gateway.error 500
                 "Failed to update user in database: connection refused")
              (snd (Gateway.update_user
                      (Gateway.mkEnv Scenario.all_fine None
                                     (Some "connection refused") None None)
                      Sample.update_john Sample.w_john))
              eq_refl eq_refl) as [Hd [Hc _]].
  cbv zeta. split; [exact Hd |]. rewrite Hc. reflexivity.
Defined.

Lemma removed_identity_absent id (l : list Clerk.Identity) :
  existsb (Clerk.has_id id) (filter (fun x => negb (Clerk.has_id id x)) l)
  = false.
Proof.
  induction l as [| x l IH]; cbn; [reflexivity |].
  destruct (Clerk.has_id id x) eqn:Hx; cbn; [exact IH |].
  now rewrite Hx, IH.
Qed.

Lemma removed_rows_absent cid (us : list User.t) :
  rows_of cid (filter (fun u => negb (has_clerk_id cid u)) us) = [].
Proof.
  unfold rows_of. induction us as [| u us IH]; cbn; [reflexivity |].
  destruct (has_clerk_id cid u) eqn:Hu; cbn; [exact IH |].
  now rewrite Hu, IH.
Qed.

(** What the answers of [delete-user] mean. After a 200 neither store holds
    the identity: Clerk has no identity with the id and [users] no row
    keyed by it. After a 500 the identity is gone as well, but the
    database, its row included, is as it was. *)
Theorem delete_user_outcomes (env : Gateway.Env) (r : Gateway.Request)
        (w : World) (reply : Gateway.Reply) (w' : World) :
  Gateway.delete_user env r w = (inr reply, w') ->
  let id := or_default (Gateway.clerkId r) EmptyString in
  (Gateway.code reply = 200 ->
   existsb (Clerk.has_id id) (Clerk.identities (clerk w')) = false
   /\ rows_of id (Db.users (db w')) = [])
  /\ (Gateway.code reply = 500 ->
      existsb (Clerk.has_id id) (Clerk.identities (clerk w')) = false
      /\ db w' = db w).
Proof.
  intros Hrun. cbv zeta.
  destruct (delete_user_outcome env r w)
    as (reply0 & w0 & Hrun0 & _ & H500 & H200 & _).
  cbv zeta in Hrun0, H500, H200. rewrite Hrun in Hrun0.
  injection Hrun0 as <- <-. split; intros Hcode.
  - destruct (H200 Hcode) as [Hc Hd]. rewrite Hc, Hd.
    split; [apply removed_identity_absent | apply removed_rows_absent].
  - destruct (H500 Hcode) as [Hd Hc]. rewrite Hc.
    split; [apply removed_identity_absent | exact Hd].
Qed.

(** The dashboard deletes [john_doe]. *)
Lemma delete_user_outcomes_witness :
  let w' := snd (Gateway.delete_user Sample.gateway_ok Sample.delete_john
                                     Sample.w_john) in
  existsb (Clerk.has_id "user_0") (Clerk.identities (clerk w')) = false
  /\ rows_of "user_0" (Db.users (db w')) = [].
Proof.
  destruct (@delete_user_outcomes
              Sample.gateway_ok Sample.delete_john Sample.w_john
              (Gateway.mkReply 200 (Gateway.Message "User deleted successfully"))
              (snd (Gateway.delete_user Sample.gateway_ok Sample.delete_john
                                        Sample.w_john))
              eq_refl) as [H200 _].
  exact (H200 eq_refl).
Defined.

(** Deleting an identity Clerk does not hold: the answer is 400, whatever
    the stores answer, and neither store changes; a row of [users] keyed
    by that id stays. *)
Theorem delete_unknown_identity (env : Gateway.Env) (r : Gateway.Request)
        (w : World) (id : string) :
  Gateway.clerkId r = Some id ->
  id <> EmptyString ->
  existsb (Clerk.has_id id) (Clerk.identities (clerk w)) = false ->
  exists msg w',
    Gateway.delete_user env r w
    = (inr (Gateway.error 400 ("Failed to delete user from Clerk: " ++ msg)),
       w')
    /\ clerk w' = clerk w
    /\ db w' = db w.
Proof.
  intros Hid Hne Hex. unfold Gateway.delete_user. rewrite Hid.
  destruct id as [| a s]; [contradiction |]. cbn [falsy or_default].
  destruct (Gateway.clerk_delete_fault env) as [e |]; step_gateway.
  - do 2 eexists. split; [reflexivity |]. split; reflexivity.
  - rewrite Hex. do 2 eexists. split; [reflexivity |]. split; reflexivity.
Qed.

(** Scenario D of the gateway: no identity [user_ghost]. *)
Lemma delete_unknown_identity_witness :
  fst (Gateway.delete_user Sample.gateway_ok Sample.delete_ghost Sample.w_john)
  = inr (Gateway.error 400 "Failed to delete user from Clerk: Not Found")
  /\ db (snd (Gateway.delete_user Sample.gateway_ok Sample.delete_ghost
                                  Sample.w_john))
     = db Sample.w_john.
Proof.
  destruct (@delete_unknown_identity
              Sample.gateway_ok Sample.delete_ghost Sample.w_john
              "user_ghost" eq_refl) as (msg & w' & Hrun & _ & Hd).
  - discriminate.
  - reflexivity.
  - split; [reflexivity |]. rewrite Hrun. exact Hd.
Defined.

(* ===================================================================== *)
(** ** The Express routes *)
(* ===================================================================== *)

(** Both routes answer 404 for an id no row carries, and change nothing. *)
Theorem express_unknown_user (env : Express.Env) (userId : nat)
        (role : option string) (locations : option (list string))
        (w : World) :
  filter (fun u => (User.id u =? userId)%nat) (Db.users (db w)) = [] ->
  Express.patch_user env userId role locations w
  = (inr Express.not_found, w)
  /\ Express.delete_user env userId w = (inr Express.not_found, w).
Proof.
  intros Hnone. unfold Express.patch_user, Express.delete_user.
  destruct env as [sf mf wf cdf]. cbn [Express.select_fault].
  destruct sf as [e |]; step_gateway; rewrite ?Hnone;
    split; reflexivity.
Qed.

Lemma express_unknown_user_witness :
  Express.delete_user Sample.express_ok 5 Sample.w_john
  = (inr Express.not_found, Sample.w_john).
Proof.
  destruct (@express_unknown_user Sample.express_ok 5 None None
              Sample.w_john eq_refl) as [_ H].
  exact H.
Defined.

(** [DELETE /api/users/:userId] deletes the row whether or not Clerk
    deletes the identity: when the row is found and the database accepts
    the delete, the answer is 200 and the row is gone, and if Clerk has
    refused, the identity store is as it was and the refusal is on the
    console. *)
Theorem express_delete_despite_clerk (env : Express.Env) (userId : nat)
        (user : User.t) (w : World) :
  Express.select_fault env = None ->
  Express.write_fault env = None ->
  filter (fun u => (User.id u =? userId)%nat) (Db.users (db w)) = [user] ->
  let out := Express.delete_user env userId w in
  fst out = inr (Gateway.mkReply 200
                   (Gateway.Message "User deleted successfully"))
  /\ Db.users (db (snd out))
     = filter (fun u => negb (User.id u =? userId)%nat) (Db.users (db w))
  /\ forall e, Express.clerk_delete_fault env = Some e ->
               clerk (snd out) = clerk w
               /\ (User.clerk_id user <> EmptyString ->
                   In (mkLog LError "Failed to delete from Clerk:" (message e))
                      (console (snd out))).
Proof.
  intros Hs Hw Hone. cbv zeta. unfold Express.delete_user.
  rewrite Hs, Hw. step_gateway. rewrite Hone. step_gateway.
  destruct (User.clerk_id user) as [| a s] eqn:Hcid; cbn [falsy negb].
  - step_gateway. split; [reflexivity |]. split; [reflexivity |].
    intros e He. split; [reflexivity |]. intros Hne. now contradiction Hne.
  - destruct (Express.clerk_delete_fault env) as [e0 |]; step_gateway.
    + split; [reflexivity |]. split; [reflexivity |].
      intros e He. injection He as <-. split; [reflexivity |].
      intros _. apply in_or_app. right. now left.
    + destruct (existsb _ (Clerk.identities (clerk w))); step_gateway;
        (split; [reflexivity |]; split; [reflexivity |];
         intros e He; discriminate).
Qed.

(** Clerk is down: [john_doe]'s row is deleted and the identity stays. *)
Lemma express_delete_despite_clerk_witness :
  let out := Express.delete_user Sample.express_clerk_down 0 Sample.w_john in
  Db.users (db (snd out)) = []
  /\ Clerk.identities (clerk (snd out)) = [Scenario.john_identity].
Proof.
  destruct (@express_delete_despite_clerk
              Sample.express_clerk_down 0
              (User.mk 0 "user_0" "john_doe" SALES_MANAGER_ROLE
                       ["Jakarta"; "Surabaya"])
              Sample.w_john eq_refl eq_refl eq_refl) as [_ [Hd Hc]].
  cbv zeta. split; [exact Hd |].
  destruct (Hc _ eq_refl) as [Hclerk _]. rewrite Hclerk. reflexivity.
Defined.

(** [PATCH /api/users/:userId] without a [locations] field sends
    [locations || []] to Clerk and no locations to the database: on
    success the identity's locations are empty, while the row keeps the
    locations it had. *)
Theorem express_patch_without_locations (env : Express.Env) (userId : nat)
        (role : option string) (user : User.t) (w : World) :
  Express.select_fault env = None ->
  Express.metadata_fault env = None ->
  Express.write_fault env = None ->
  filter (fun u => (User.id u =? userId)%nat) (Db.users (db w)) = [user] ->
  User.clerk_id user <> EmptyString ->
  existsb (Clerk.has_id (User.clerk_id user)) (Clerk.identities (clerk w))
  = true ->
  let out := Express.patch_user env userId role None w in
  fst out = inr (Gateway.mkReply 200
                   (Gateway.Message "User updated successfully"))
  /\ (forall x, In x (Clerk.identities (clerk (snd out))) ->
                Clerk.id x = User.clerk_id user -> Clerk.locations x = [])
  /\ exists u', In u' (Db.users (db (snd out)))
                /\ User.id u' = userId
                /\ User.locations u' = User.locations user.
Proof.
  intros Hs Hm Hw Hone Hne Hex. cbv zeta. unfold Express.patch_user.
  rewrite Hs, Hm, Hw. step_gateway. rewrite Hone. step_gateway.
  destruct (User.clerk_id user) as [| a s] eqn:Hcid; [contradiction |].
  cbn [falsy negb]. step_gateway. rewrite Hex. step_gateway.
  split; [reflexivity |]. split.
  - intros x Hx Hid.
    destruct (@in_identity_update (String a s) role (Some []) _ x Hx Hid)
      as [y [_ Hl]]. exact Hl.
  - assert (Hin : In user (filter (fun u => (User.id u =? userId)%nat)
                                  (Db.users (db w))))
      by (rewrite Hone; now left).
    apply filter_In in Hin as [Hin Hid]. apply Nat.eqb_eq in Hid.
    exists (row_update role None user). split; [| split].
    + apply in_map_iff. exists user. split; [| assumption].
      apply Nat.eqb_eq in Hid. now rewrite Hid.
    + exact Hid.
    + reflexivity.
Qed.

(** [john_doe] is given the supervisor's role and no locations: Clerk
    forgets his locations, the row keeps them. *)
Lemma express_patch_without_locations_witness :
  let out := Express.patch_user Sample.express_ok 0
                                (Some SALES_SUPERVISOR_ROLE) None
                                Sample.w_john in
  map Clerk.locations (Clerk.identities (clerk (snd out))) = [[]]
  /\ map User.locations (Db.users (db (snd out)))
     = [["Jakarta"; "Surabaya"]].
Proof.
  destruct (@express_patch_without_locations
              Sample.express_ok 0 (Some SALES_SUPERVISOR_ROLE)
              (User.mk 0 "user_0" "john_doe" SALES_MANAGER_ROLE
                       ["Jakarta"; "Surabaya"])
              Sample.w_john eq_refl eq_refl eq_refl eq_refl)
    as [_ [Hc _]].
  - discriminate.
  - reflexivity.
  - cbv zeta. split; reflexivity.
Defined.

(* ===================================================================== *)
(** ** The webhook receiver: refusals, order and uniqueness *)
(* ===================================================================== *)

(** A request that is not verified (no secret configured, a header
    missing, or a signature Svix refuses) is answered 500 in the first
    case and 400 in the others, and reaches neither store. *)
Theorem refused_webhook_changes_nothing
        (verify : string -> string -> string -> string -> string
                  -> option Event.t)
        (env : WebhookEnv) (req : WebhookRequest) (w : World) :
  refused verify env req = true ->
  let out := run (webhooks_clerk verify env req) w in
  status (fst out) = (if falsy (CLERK_WEBHOOK_SECRET env) then 500 else 400)
  /\ db (snd out) = db w
  /\ clerk (snd out) = clerk w
  /\ calls (snd out) = calls w.
Proof.
  intros Href. cbv zeta. unfold refused in Href.
  unfold webhooks_clerk, webhooks_clerk_body.
  destruct (falsy (CLERK_WEBHOOK_SECRET env));
    [step_handler; repeat split; reflexivity |].
  cbn [orb] in Href.
  destruct (falsy (svix_id req) || falsy (svix_timestamp req)
            || falsy (svix_signature req));
    [step_handler; repeat split; reflexivity |].
  cbn [orb] in Href.
  destruct (verify _ _ _ _ _); [discriminate |].
  step_handler. repeat split; reflexivity.
Qed.

(** A forged signature on Scenario B's request. *)
Lemma refused_webhook_witness :
  run (webhooks_clerk Scenario.verify Scenario.webhook_env
                      Sample.bad_signature) Scenario.w0
  = (mkResponse 400 (ErrorBody "Invalid signature"),
     mkWorld (clerk Scenario.w0) (db Scenario.w0)
             [mkLog LError "Error verifying webhook:" EmptyString] []).
Proof.
  destruct (@refused_webhook_changes_nothing
              Scenario.verify Scenario.webhook_env Sample.bad_signature
              Scenario.w0 eq_refl) as [_ _].
  reflexivity.
Defined.

Lemma filter_filter_same {A} (f : A -> bool) (l : list A) :
  filter f (filter f l) = filter f l.
Proof.
  apply filter_all. intros x Hx. now apply filter_In in Hx.
Qed.

(** [user.deleted] is idempotent and complete: after the first application
    no row of the identity is left and the rows of the other identities
    are as they were; a second application, like the deletion of an
    identity that never had a row, changes nothing and logs no error. *)
Theorem deleted_is_idempotent (evt : Event.t) (w : World) :
  Event.type evt = "user.deleted" ->
  let id := Event.id (Event.data evt) in
  let w1 := snd (apply_event None evt w) in
  let w2 := snd (apply_event None evt w1) in
  rows_of id (Db.users (db w1)) = []
  /\ filter (fun u => negb (has_clerk_id id u)) (Db.users (db w1))
     = filter (fun u => negb (has_clerk_id id u)) (Db.users (db w))
  /\ db w2 = db w1
  /\ console w2 = console w.
Proof.
  intros Ht. cbv zeta.
  rewrite (@deleted_effect None evt w Ht).
  rewrite (@deleted_effect None evt _ Ht).
  cbn [snd db console Db.users Db.with_users].
  split; [apply removed_rows_absent |].
  split; [apply filter_filter_same |].
  split; [| reflexivity].
  unfold Db.with_users. cbn. now rewrite filter_filter_same.
Qed.

Lemma deleted_is_idempotent_witness :
  Db.users (db (snd (apply_event None Sample.deleted_u1 Sample.w_ursula)))
  = []
  /\ db (snd (apply_event None Sample.deleted_u1
                (snd (apply_event None Sample.deleted_u1 Sample.w_ursula))))
     = db (snd (apply_event None Sample.deleted_u1 Sample.w_ursula)).
Proof.
  destruct (@deleted_is_idempotent Sample.deleted_u1 Sample.w_ursula eq_refl)
    as [_ [_ [Hsame _]]].
  split; [reflexivity | exact Hsame].
Defined.

(** [user.updated] for an identity without a row is lost: the update
    reaches no row and the database is as it was, yet the store reports no
    error, so the handler takes its success branch and no error reaches
    the console. *)
Theorem updated_unknown_identity_is_lost (evt : Event.t) (w : World) :
  Event.type evt = "user.updated" ->
  rows_of (Event.id (Event.data evt)) (Db.users (db w)) = [] ->
  let w' := snd (apply_event None evt w) in
  db w' = db w /\ console w' = console w.
Proof.
  intros Ht Hrows. cbv zeta. rewrite (@updated_effect None evt w Ht).
  cbn [snd db console]. split; [| reflexivity].
  rewrite map_unchanged; [apply with_users_same |].
  intros u Hu. destruct (has_clerk_id _ u) eqn:Hhas; [| reflexivity].
  assert (Hin : In u (rows_of (Event.id (Event.data evt)) (Db.users (db w))))
    by (apply filter_In; split; assumption).
  rewrite Hrows in Hin. destruct Hin.
Qed.

Lemma updated_unknown_identity_witness :
  db (snd (apply_event None Sample.updated_u1 Scenario.w0)) = db Scenario.w0.
Proof.
  destruct (@updated_unknown_identity_is_lost Sample.updated_u1 Scenario.w0
              eq_refl eq_refl) as [H _].
  exact H.
Defined.

(** Two [user.updated] events for one identity: the database after both is
    the database after the second alone, so the last delivery wins and a
    redelivery changes nothing. *)
Theorem updated_last_write_wins (e1 e2 : Event.t) (w : World) :
  Event.type e1 = "user.updated" ->
  Event.type e2 = "user.updated" ->
  Event.id (Event.data e1) = Event.id (Event.data e2) ->
  db (snd (apply_event None e2 (snd (apply_event None e1 w))))
  = db (snd (apply_event None e2 w)).
Proof.
  intros H1 H2 Hid.
  rewrite (@updated_effect None e1 w H1), (@updated_effect None e2 w H2),
    (@updated_effect None e2 _ H2).
  cbn [snd db Db.users Db.users_seq Db.with_users].
  unfold Db.with_users. cbn. f_equal.
  rewrite map_map. apply map_ext. intros u. rewrite Hid.
  destruct (has_clerk_id (Event.id (Event.data e2)) u) eqn:Hu.
  - unfold has_clerk_id in *. cbn. now rewrite Hu.
  - now rewrite Hu.
Qed.

Lemma updated_last_write_wins_witness :
  Db.users
    (db (snd (apply_event None Sample.updated_u1
                (snd (apply_event None Sample.updated_u1 Sample.w_ursula)))))
  = [User.mk 0 "u1" "ursula" BOD_ROLE ["Medan"]].
Proof.
  rewrite (@updated_last_write_wins Sample.updated_u1 Sample.updated_u1
             Sample.w_ursula eq_refl eq_refl eq_refl).
  reflexivity.
Defined.

(** A [user.created] that arrives after the [user.deleted] of the same
    identity puts the identity back: the directory ends with one row for
    it, built from the created event. *)
Theorem created_after_deleted_restores (created deleted : Event.t)
        (w : World) :
  Event.type created = "user.created" ->
  Event.type deleted = "user.deleted" ->
  Event.id (Event.data deleted) = Event.id (Event.data created) ->
  let d := Event.data created in
  let w1 := snd (apply_event None deleted w) in
  let w2 := snd (apply_event None created w1) in
  rows_of (Event.id d) (Db.users (db w2))
  = [User.mk (Db.users_seq (db w)) (Event.id d) (event_name d)
             (event_role d) (event_locations d)].
Proof.
  intros Hc Hd Hid. cbv zeta.
  assert (Hgone : rows_of (Event.id (Event.data created))
                    (Db.users (db (snd (apply_event None deleted w)))) = []).
  { rewrite (@deleted_effect None deleted w Hd), Hid.
    cbn [snd db Db.users Db.with_users]. apply removed_rows_absent. }
  destruct (@created_first_row created _ Hc Hgone) as [_ Hrow].
  cbv zeta in Hrow. rewrite Hrow.
  rewrite (@deleted_effect None deleted w Hd). reflexivity.
Qed.

Lemma created_after_deleted_witness :
  rows_of "u1"
    (Db.users (db (snd (apply_event None Scenario.created_u1
                          (snd (apply_event None Sample.deleted_u1
                                            Sample.w_ursula))))))
  = [User.mk 1 "u1" "ursula" AUDITOR_ROLE []].
Proof.
  exact (@created_after_deleted_restores Scenario.created_u1
           Sample.deleted_u1 Sample.w_ursula eq_refl eq_refl eq_refl).
Defined.

Lemma existsb_has_clerk_id_map cid (f : User.t -> User.t) (us : list User.t) :
  (forall u, User.clerk_id (f u) = User.clerk_id u) ->
  existsb (has_clerk_id cid) (map f us) = existsb (has_clerk_id cid) us.
Proof.
  intros Hf. induction us as [| u us IH]; cbn; [reflexivity |].
  unfold has_clerk_id at 1 3. now rewrite Hf, IH.
Qed.

Lemma unique_map (f : User.t -> User.t) (us : list User.t) :
  (forall u, User.clerk_id (f u) = User.clerk_id u) ->
  Rls.clerk_ids_unique (map f us) = Rls.clerk_ids_unique us.
Proof.
  intros Hf. induction us as [| u us IH]; cbn; [reflexivity |].
  now rewrite Hf, existsb_has_clerk_id_map, IH.
Qed.

Lemma existsb_filter_false {A} (p f : A -> bool) (l : list A) :
  existsb p l = false -> existsb p (filter f l) = false.
Proof.
  induction l as [| x l IH]; cbn; [reflexivity |].
  intros H. apply orb_false_iff in H as [Hx Hl].
  destruct (f x); cbn; [rewrite Hx |]; auto.
Qed.

Lemma unique_filter (f : User.t -> bool) (us : list User.t) :
  Rls.clerk_ids_unique us = true -> Rls.clerk_ids_unique (filter f us) = true.
Proof.
  induction us as [| u us IH]; cbn; [reflexivity |].
  intros H. apply andb_true_iff in H as [Hu Hus].
  destruct (f u); cbn; [| auto].
  apply negb_true_iff in Hu.
  rewrite (existsb_filter_false _ f _ Hu). cbn. auto.
Qed.

Lemma unique_snoc (us : list User.t) (u : User.t) :
  Rls.clerk_ids_unique us = true ->
  existsb (has_clerk_id (User.clerk_id u)) us = false ->
  Rls.clerk_ids_unique (us ++ [u]) = true.
Proof.
  induction us as [| v us IH]; cbn; [reflexivity |].
  intros H Hex. apply andb_true_iff in H as [Hv Hus].
  apply orb_false_iff in Hex as [Hvu Hex].
  rewrite existsb_app. cbn. apply negb_true_iff in Hv. rewrite Hv.
  unfold has_clerk_id in *. rewrite String.eqb_sym, Hvu. cbn. auto.
Qed.

(** Whatever event the switch applies and whatever the database answers,
    [users] keeps at most one row per identity: if no [clerk_id] occurs
    twice before, none occurs twice after. *)
Theorem apply_event_keeps_clerk_id_unique (fault : option string)
        (evt : Event.t) (w : World) :
  Rls.clerk_ids_unique (Db.users (db w)) = true ->
  Rls.clerk_ids_unique (Db.users (db (snd (apply_event fault evt w)))) = true.
Proof.
  intros Huniq. unfold apply_event.
  destruct (Event.type evt =? "user.created");
    [| destruct (Event.type evt =? "user.updated");
       [| destruct (Event.type evt =? "user.deleted")]];
    destruct fault as [e |]; step_handler; try assumption.
  - destruct (existsb _ (Db.users (db w))) eqn:Hex; step_handler;
      [assumption |].
    now apply unique_snoc.
  - now rewrite unique_map
      by (intros u; destruct (has_clerk_id _ u); reflexivity).
  - now apply unique_filter.
Qed.

(** Scenario B's event arrives twice on the directory that has [u1]. *)
Lemma apply_event_keeps_unique_witness :
  Rls.clerk_ids_unique
    (Db.users (db (snd (apply_event None Scenario.created_u1
                                    Sample.w_ursula)))) = true.
Proof.
  exact (@apply_event_keeps_clerk_id_unique None Scenario.created_u1
           Sample.w_ursula eq_refl).
Defined.

Lemma or_default_nonempty x d :
  d <> EmptyString -> or_default x d <> EmptyString.
Proof.
  intros Hd. destruct x as [[| a s] |]; cbn; try assumption. discriminate.
Qed.

(** The name and the role a created or updated event writes are never
    empty, and their fallbacks are fixed: when the username, the first
    name and the last name are all missing or empty the name is ['User'],
    and when the role is missing or empty the role is ['NO_ROLE'];
    otherwise the username, or else the names, and the role of the event
    are written as they are. *)
Theorem event_name_and_role_defaults (d : Event.Data) :
  (event_name d <> EmptyString /\ event_role d <> EmptyString)
  /\ (falsy (Event.username d) = true ->
      falsy (Event.first_name d) = true ->
      falsy (Event.last_name d) = true ->
      event_name d = "User")
  /\ (falsy (metadata_role d) = true -> event_role d = NO_ROLE)
  /\ (forall name, Event.username d = Some name -> name <> EmptyString ->
                   event_name d = name)
  /\ (forall role, metadata_role d = Some role -> role <> EmptyString ->
                   event_role d = role).
Proof.
  split; [split |].
  - unfold event_name.
    destruct (Event.username d) as [[| a s] |]; cbn [falsy negb or_default];
      try discriminate;
      (destruct (Event.first_name d) as [[| a1 s1] |];
       destruct (Event.last_name d) as [[| a2 s2] |];
       cbn; discriminate).
  - unfold event_role. apply or_default_nonempty. discriminate.
  - unfold event_name, event_role. repeat split.
    + intros Hu Hf Hl. rewrite Hu. cbn [negb]. rewrite Hf, Hl. cbn [negb andb].
      destruct (Event.last_name d) as [[| a s] |];
        [reflexivity | discriminate | reflexivity].
    + destruct (metadata_role d) as [[| a s] |];
        [reflexivity | discriminate | reflexivity].
    + intros name -> Hne. destruct name; [contradiction | reflexivity].
    + intros role -> Hne. destruct role; [contradiction | reflexivity].
Qed.

(** An event whose first name and role are empty strings and whose other
    names are missing. *)
Lemma event_name_and_role_defaults_witness :
  event_name (Event.mkData "u9" None (Some (Event.mkMetadata (Some EmptyString) None))
                (Some EmptyString) None)
  = "User"
  /\ event_role (Event.mkData "u9" None (Some (Event.mkMetadata (Some EmptyString) None))
                (Some EmptyString) None)
     = NO_ROLE.
Proof.
  destruct (@event_name_and_role_defaults
              (Event.mkData "u9" None (Some (Event.mkMetadata (Some EmptyString) None))
                (Some EmptyString) None))
    as [_ [Hname [Hrole _]]].
  split; [apply Hname | apply Hrole]; reflexivity.
Defined.

(* ===================================================================== *)
(** ** The stock refresh worker: what it accepts and what it inserts *)
(* ===================================================================== *)

Lemma warnings_app (l1 l2 : list LogEntry) :
  warnings (l1 ++ l2) = warnings l1 ++ warnings l2.
Proof. apply filter_app. Qed.

Lemma transform_counts env records :
  forall i acc w,
  exists recs,
    fst (transform env i records acc w) = inr (acc ++ recs)
    /\ length recs
       + length (warnings (console (snd (transform env i records acc w))))
       = length records + length (warnings (console w)).
Proof.
  induction records as [| record rest IH]; intros i acc w.
  - exists []. cbn. now rewrite app_nil_r.
  - cbn [transform]. unfold bind at 1 3.
    rewrite locations_select_active_effect.
    destruct (lookup_answer _ _ _) as [e | locationData].
    + unfold bind, console_warn. cbn [fst snd].
      match goal with
      | |- context [transform env (S i) rest acc ?w1] =>
          destruct (IH (S i) acc w1) as [recs [Hr Hc]]
      end.
      exists recs. split; [exact Hr |]. rewrite Hc.
      cbn [console]. rewrite warnings_app. cbn. rewrite length_app. cbn. lia.
    + match goal with
      | |- context [transform env (S i) rest ?acc1 ?w1] =>
          destruct (IH (S i) acc1 w1) as [recs [Hr Hc]]
      end.
      exists (stockRecord locationData record :: recs). split.
      * rewrite Hr. now rewrite <- app_assoc.
      * cbn [console] in Hc. cbn [length]. lia.
Qed.

(** Every record of the feed is either accepted or skipped with one
    warning: the records the loop returns and the warnings it adds to the
    console add up to the records of the feed. *)
Theorem every_record_accepted_or_skipped (env : SyncEnv)
        (records : list FeedRecord.t) (w : World) :
  let out := transform env 0 records [] w in
  exists stockRecords,
    fst out = inr stockRecords
    /\ length stockRecords + length (warnings (console (snd out)))
       = length records + length (warnings (console w)).
Proof.
  cbv zeta. destruct (transform_counts env records 0 [] w) as [recs [Hr Hc]].
  exists recs. split; assumption.
Qed.

Lemma transform_accepts_active env records :
  forall i acc w (P : StockRecord.t -> Prop),
    (forall ml record,
        In ml (Db.master_locations (db w)) ->
        Location.is_active ml = true ->
        P (stockRecord ml record)) ->
    Forall P acc ->
    exists recs,
      fst (transform env i records acc w) = inr recs /\ Forall P recs.
Proof.
  induction records as [| record rest IH]; intros i acc w P HP Hacc.
  - exists acc. split; [reflexivity | assumption].
  - cbn [transform]. unfold bind at 1.
    rewrite locations_select_active_effect.
    destruct (lookup_answer _ _ _) as [e | locationData] eqn:Hlook.
    + unfold bind, console_warn. cbn [fst snd].
      apply IH; assumption.
    + apply IH; [exact HP |].
      apply Forall_app. split; [assumption |]. constructor; [| constructor].
      unfold lookup_answer in Hlook.
      destruct (lookup_fault env i); [discriminate |].
      destruct (filter _ _) as [| l [| l' ls]] eqn:Hf; try discriminate.
      injection Hlook as <-.
      assert (Hin : In l (filter
                            (fun ml => (Location.id ml
                                        =? Ref.id (FeedRecord.AD_Org_ID record))%Z
                                       && Bool.eqb (Location.is_active ml) true)
                            (Db.master_locations (db w))))
        by (rewrite Hf; now left).
      apply filter_In in Hin as [Hin Hc].
      apply andb_true_iff in Hc as [_ Hact]. rewrite eqb_true_r in Hact.
      now apply HP.
Qed.

Lemma accepted_from_active_location (env : SyncEnv) (w : World)
      (r : StockRecord.t) :
  In r (accepted env w) ->
  exists ml, In ml (Db.master_locations (db w))
             /\ Location.is_active ml = true
             /\ StockRecord.m_location_id r = Location.id ml
             /\ StockRecord.location r = Location.name ml.
Proof.
  unfold accepted.
  destruct (falsy (IDEMPIERE_API_KEY env)); [intros [] |].
  destruct (feed env) as [msg | st txt | | records]; try (intros []).
  destruct (@transform_accepts_active env records 0 [] w
              (fun r => exists ml, In ml (Db.master_locations (db w))
                                   /\ Location.is_active ml = true
                                   /\ StockRecord.m_location_id r
                                      = Location.id ml
                                   /\ StockRecord.location r
                                      = Location.name ml))
    as [recs [Hr Hall]].
  - intros ml record Hin Hact. exists ml. repeat split; assumption.
  - constructor.
  - rewrite Hr. intros Hin. rewrite Forall_forall in Hall. now apply Hall.
Qed.

(** Every record a run accepts refers to an active location of
    [master_locations], and carries that location's id and that location's
    name, not the label of the feed. *)
Theorem accepted_records_name_active_locations (env : SyncEnv) (w : World)
        (r : StockRecord.t) :
  In r (accepted env w) ->
  exists ml, In ml (Db.master_locations (db w))
             /\ Location.is_active ml = true
             /\ StockRecord.m_location_id r = Location.id ml
             /\ StockRecord.location r = Location.name ml.
Proof. apply accepted_from_active_location. Qed.

(** The feed calls Jakarta by another label: the accepted record has the
    table's name. *)
Lemma accepted_records_witness :
  In (stockRecord Scenario.jakarta Scenario.feed_jakarta)
     (accepted Scenario.sync_mixed Scenario.w_stock)
  /\ exists ml, In ml (Db.master_locations (db Scenario.w_stock))
                /\ Location.is_active ml = true
                /\ Location.name ml = "Jakarta".
Proof.
  assert (Hin : In (stockRecord Scenario.jakarta Scenario.feed_jakarta)
                   (accepted Scenario.sync_mixed Scenario.w_stock))
    by (left; reflexivity).
  split; [exact Hin |].
  destruct (@accepted_records_name_active_locations
              Scenario.sync_mixed Scenario.w_stock _ Hin)
    as [ml [Hml [Hact [_ Hname]]]].
  exists ml. split; [exact Hml |]. split; [exact Hact |].
  rewrite <- Hname. reflexivity.
Defined.

(** The database a run leaves and the status it answers with: the database
    it found, with 500; that database without its rows of the two
    refreshed types, with 500; or the latter followed by the accepted
    records under fresh ids, with 200. *)
Lemma sync_stock_db env w :
  let out := run (sync_stock env) w in
  let d := db w in
  (status (fst out) = 500 /\ db (snd out) = d)
  \/ (status (fst out) = 500
      /\ db (snd out)
         = Db.with_stock (filter other_type (Db.stock d)) (Db.stock_seq d) d)
  \/ (status (fst out) = 200
      /\ db (snd out)
         = Db.with_stock
             (filter other_type (Db.stock d)
              ++ assign_ids (Db.stock_seq d) (accepted env w))
             (Db.stock_seq d + length (accepted env w)) d).
Proof.
  cbv zeta.
  destruct (falsy (IDEMPIERE_API_KEY env)) eqn:Hkey.
  - left. unfold sync_stock, sync_stock_body. rewrite Hkey.
    unfold throw_Error. step_handler. split; reflexivity.
  - destruct (feed env) as [msg | st txt | | records] eqn:Hfeed;
      try (left; unfold sync_stock, sync_stock_body; rewrite Hkey, Hfeed;
           unfold throw_Error; step_handler; split; reflexivity).
    destruct (@sync_stock_run env w records Hkey Hfeed)
      as (cons & cls & _ & Hrun).
    rewrite Hrun. clear Hrun.
    destruct (accepted env w) as [| r rs]; [left; split; reflexivity |].
    destruct (delete_fault env); [left; split; reflexivity |].
    destruct (sync_insert_fault env);
      [right; left | right; right]; split; reflexivity.
Qed.

Lemma assign_ids_ids seq rs :
  map Stock.id (assign_ids seq rs) = List.seq seq (length rs).
Proof.
  revert seq. induction rs as [| r rs IH]; intros seq; cbn; [reflexivity |].
  now rewrite IH.
Qed.

Lemma in_assign_ids seq rs s :
  In s (assign_ids seq rs) ->
  exists i r, In r rs /\ s = StockRecord.with_id i r.
Proof.
  revert seq. induction rs as [| r rs IH]; intros seq; cbn; [intros [] |].
  intros [<- | Hin].
  - exists seq, r. split; [now left | reflexivity].
  - destruct (IH _ Hin) as (i & r' & Hr' & ->).
    exists i, r'. split; [now right | reflexivity].
Qed.

Lemma fresh_filter (f : Stock.t -> bool) (ss : list Stock.t) (seq : nat) :
  (forall s, In s ss -> Stock.id s < seq) /\ NoDup (map Stock.id ss) ->
  (forall s, In s (filter f ss) -> Stock.id s < seq)
  /\ NoDup (map Stock.id (filter f ss)).
Proof.
  intros [Hlt Hnd]. split.
  - intros s Hs. apply filter_In in Hs as [Hs _]. now apply Hlt.
  - induction ss as [| s ss IH]; cbn; [constructor |].
    inversion Hnd as [| x l Hnotin Hnd']. subst.
    assert (Hrest : NoDup (map Stock.id (filter f ss)))
      by (apply IH; [intros y Hy; apply Hlt; now right | assumption]).
    destruct (f s); [| exact Hrest]. cbn. constructor; [| exact Hrest].
    intros Hin. apply Hnotin. apply in_map_iff in Hin as [y [Hy Hyin]].
    apply filter_In in Hyin as [Hyin _]. apply in_map_iff. eauto.
Qed.

Lemma fresh_append (ss : list Stock.t) (seq : nat) (rs : list StockRecord.t) :
  (forall s, In s ss -> Stock.id s < seq) /\ NoDup (map Stock.id ss) ->
  (forall s, In s (ss ++ assign_ids seq rs) -> Stock.id s < seq + length rs)
  /\ NoDup (map Stock.id (ss ++ assign_ids seq rs)).
Proof.
  intros [Hlt Hnd]. split.
  - intros s Hs. apply in_app_or in Hs as [Hs | Hs].
    + specialize (Hlt s Hs). lia.
    + assert (Hid : In (Stock.id s) (map Stock.id (assign_ids seq rs)))
        by now apply in_map.
      rewrite assign_ids_ids in Hid. apply in_seq in Hid. lia.
  - rewrite map_app, assign_ids_ids. apply NoDup_app.
    + exact Hnd.
    + apply seq_NoDup.
    + intros i Hi Hi'. apply in_seq in Hi'.
      apply in_map_iff in Hi as [s [<- Hs]]. specialize (Hlt s Hs). lia.
Qed.

(** A run keeps the ids of [stock] in order: if every row's id is below
    the sequence and no id occurs twice before the run, the same holds
    after it, whatever the feed delivers and whatever the database
    answers. *)
Theorem sync_keeps_stock_ids_fresh (env : SyncEnv) (w : World) :
  stock_ids_fresh (db w) ->
  stock_ids_fresh (db (snd (run (sync_stock env) w))).
Proof.
  intros Hfresh. unfold stock_ids_fresh in *.
  destruct (sync_stock_db env w) as [[_ Hd] | [[_ Hd] | [_ Hd]]];
    cbv zeta in Hd; rewrite Hd; cbn [Db.stock Db.stock_seq Db.with_stock].
  - exact Hfresh.
  - now apply fresh_filter.
  - apply fresh_append. now apply fresh_filter.
Qed.

(** The run of the mixed feed: the two rows it leaves have the ids 3
    and 4. *)
Lemma sync_keeps_stock_ids_fresh_witness :
  stock_ids_fresh (db Scenario.w_stock)
  /\ NoDup (map Stock.id
              (Db.stock (db (snd (run (sync_stock Scenario.sync_mixed)
                                      Scenario.w_stock))))).
Proof.
  assert (Hfresh : stock_ids_fresh (db Scenario.w_stock)).
  { split.
    - intros s Hs. cbn in Hs.
      repeat (destruct Hs as [<- | Hs]; [cbn; lia |]). destruct Hs.
    - cbn. repeat constructor; cbn; intuition discriminate. }
  split; [exact Hfresh |].
  exact (proj2 (@sync_keeps_stock_ids_fresh Scenario.sync_mixed
                  Scenario.w_stock Hfresh)).
Defined.

(** The refresh and the stock policies fit together: after a run answered
    with 200, every row it inserted is in the table, and it is returned to
    every caller with a sales role whose [locations] hold the row's
    location name, since the worker took the name and the id from an
    active location. *)
Theorem synced_rows_visible_to_assigned_sales (env : SyncEnv) (w : World)
        (s : Stock.t) (sub : string) :
  status (fst (run (sync_stock env) w)) = 200 ->
  In s (assign_ids (Db.stock_seq (db w)) (accepted env w)) ->
  let d' := db (snd (run (sync_stock env) w)) in
  In s (Db.stock d')
  /\ (Rls.get_current_user_role d' sub = SALES_MANAGER_ROLE
      \/ Rls.get_current_user_role d' sub = SALES_SUPERVISOR_ROLE ->
      (exists u, In u (Db.users d') /\ User.clerk_id u = sub
                 /\ In (Stock.location s) (User.locations u)) ->
      In s (Rls.select_stock d' sub)).
Proof.
  intros Hok Hs. cbv zeta.
  destruct (sync_stock_db env w) as [[H500 _] | [[H500 _] | [_ Hd]]];
    cbv zeta in *; try (rewrite H500 in Hok; discriminate).
  assert (Hin : In s (Db.stock (db (snd (run (sync_stock env) w))))).
  { rewrite Hd. cbn [Db.stock Db.with_stock]. apply in_or_app. now right. }
  split; [exact Hin |]. intros Hrole Hassigned.
  unfold Rls.select_stock. apply filter_In. split; [exact Hin |].
  apply stock_row_visible_iff. cbv zeta.
  right. right. right. split; [exact Hrole |]. split.
  - now apply location_assigned_iff.
  - apply location_active_iff.
    destruct (in_assign_ids _ _ _ Hs) as (i & r & Hr & ->).
    destruct (@accepted_from_active_location env w r Hr)
      as [ml [Hml [Hact [Hid _]]]].
    exists ml. rewrite Hd. cbn. repeat split; auto.
Qed.

(** The manager by name is shown the raw-material row the run inserted at
    Jakarta. *)
Lemma synced_rows_visible_witness :
  In Scenario.new_raw_row
     (Rls.select_stock
        (db (snd (run (sync_stock Scenario.sync_mixed) Sample.w_stock_mgr)))
        "user_mgr2").
Proof.
  destruct (@synced_rows_visible_to_assigned_sales
              Scenario.sync_mixed Sample.w_stock_mgr Scenario.new_raw_row
              "user_mgr2" eq_refl) as [_ Hvis].
  - left. reflexivity.
  - apply Hvis.
    + left. reflexivity.
    + exists Scenario.manager_by_name.
      split; [left; reflexivity |]. split; [reflexivity |].
      left. reflexivity.
Defined.

(* ===================================================================== *)
(** ** The caller's role *)
(* ===================================================================== *)

Lemma find_unique_row (us : list User.t) (u : User.t) :
  Rls.clerk_ids_unique us = true ->
  In u us ->
  find (has_clerk_id (User.clerk_id u)) us = Some u.
Proof.
  induction us as [| v us IH]; intros Huniq Hin; [destruct Hin |].
  cbn in Huniq. apply andb_true_iff in Huniq as [Hv Hus].
  apply negb_true_iff in Hv. cbn [find].
  destruct Hin as [-> | Hin].
  - unfold has_clerk_id at 1. now rewrite String.eqb_refl.
  - destruct (has_clerk_id (User.clerk_id u) v) eqn:Hvu; [| now apply IH].
    exfalso. unfold has_clerk_id in Hvu. apply String.eqb_eq in Hvu.
    assert (Hex : existsb (has_clerk_id (User.clerk_id v)) us = true).
    { apply existsb_exists. exists u. split; [assumption |].
      unfold has_clerk_id. rewrite Hvu. apply String.eqb_refl. }
    rewrite Hex in Hv. discriminate.
Qed.

(** [get_current_user_role()] reads the caller's row: when no [clerk_id]
    occurs twice, the role it returns is the role of the row keyed by the
    token's subject; and without such a row it is ['NO_ROLE']. *)
Theorem current_role_is_callers (d : Db.t) (sub : string) :
  Rls.clerk_ids_unique (Db.users d) = true ->
  (forall u, In u (Db.users d) -> User.clerk_id u = sub ->
             Rls.get_current_user_role d sub = User.role u)
  /\ (rows_of sub (Db.users d) = [] ->
      Rls.get_current_user_role d sub = NO_ROLE).
Proof.
  intros Huniq. unfold Rls.get_current_user_role. split.
  - intros u Hin <-. now rewrite find_unique_row.
  - intros Hrows. apply rows_of_nil_iff in Hrows.
    destruct (find _ _) as [u |] eqn:Hfind; [| reflexivity].
    apply find_some in Hfind as [Hin Hu].
    assert (Hex : existsb (has_clerk_id sub) (Db.users d) = true)
      by (apply existsb_exists; eauto).
    rewrite Hex in Hrows. discriminate.
Qed.

Lemma current_role_is_callers_witness :
  Rls.get_current_user_role Sample.d1 "user_adm" = SUPERADMIN_ROLE
  /\ Rls.get_current_user_role Sample.d1 "user_ghost" = NO_ROLE.
Proof.
  destruct (@current_role_is_callers Sample.d1 "user_adm" eq_refl)
    as [Hrow _].
  destruct (@current_role_is_callers Sample.d1 "user_ghost" eq_refl)
    as [_ Hnone].
  split.
  - apply (Hrow Sample.admin); [left |]; reflexivity.
  - apply Hnone. reflexivity.
Defined.




